(** * plAIgiarized: writing-progress and anomaly-detection engine

    A shallow embedding of the scoring code of the repository
    (detection/service.py, progress/service.py, analysis/service.py,
    student/service.py, class/service.py) together with the properties
    that the specification states about it.

    Conventions of the embedding.
    - A Python [float] or [int] is the rational number it denotes ([Q]);
      comparisons are exact, the arithmetic is that of the rationals
      (rounding error of IEEE doubles is not part of the model).
    - A Python [str] is a [string] whose characters are the code points
      0..255 (Latin-1); the character classes below are CPython's
      restricted to that range.
    - A Python [dict] with string keys is an association list in
      insertion order without repeated keys ([dict]); a finite map
      ([gmap]) is used where the order of the keys plays no role.
    - A Python function that may raise, print or log is a computation in
      the monad [M]: it threads the lines written so far and ends in a
      value ([Return]) or in an exception ([Raise]). *)

From Stdlib Require Import QArith Qround Lqa Ascii.
From stdpp Require Import gmap strings list pretty.

Open Scope Q_scope.

(** ** Exceptions, results and the output monad *)

Inductive exn : Type :=
| KeyError (key : string)
| ZeroDivisionError (msg : string)
| TypeError (msg : string)
| ValueError (msg : string)
| AttributeError (msg : string)
| LookupError (msg : string)
| IndexError (msg : string)
| ValidationError (msg : string).

(** [str(e)]: the message of the exception; for a [KeyError] the
    [repr] of the missing key. *)
Definition str_exn (e : exn) : string :=
  match e with
  | KeyError k => "'" +:+ k +:+ "'"
  | ZeroDivisionError m | TypeError m | ValueError m
  | AttributeError m | LookupError m | IndexError m | ValidationError m => m
  end.

Inductive result (A : Type) : Type :=
| Return (a : A)
| Raise (e : exn).
Arguments Return {A} a.
Arguments Raise {A} e.

Definition is_raise {A} (r : result A) : bool :=
  match r with Raise _ => true | Return _ => false end.

Definition rbind {A B} (r : result A) (k : A -> result B) : result B :=
  match r with
  | Return a => k a
  | Raise e => Raise e
  end.

(** Lines written to standard output or to the log so far. *)
Definition output : Type := list string.

Definition M (A : Type) : Type := output -> result A * output.

Definition ret {A} (a : A) : M A := fun out => (Return a, out).
Definition raise {A} (e : exn) : M A := fun out => (Raise e, out).
Definition lift {A} (r : result A) : M A := fun out => (r, out).

Definition bind {A B} (m : M A) (k : A -> M B) : M B :=
  fun out =>
    match m out with
    | (Return a, out') => k a out'
    | (Raise e, out') => (Raise e, out')
    end.

(** [try: m except Exception as e: h e] *)
Definition try_except {A} (m : M A) (h : exn -> M A) : M A :=
  fun out =>
    match m out with
    | (Return a, out') => (Return a, out')
    | (Raise e, out') => h e out'
    end.

(** [print(f"{prefix}: {e}")] and [logger.error(prefix, e)]: one line is
    appended; LoggingService.error never raises. *)
Definition report (prefix : string) (e : exn) : M unit :=
  fun out => (Return tt, out ++ [prefix +:+ ": " +:+ str_exn e]).

Declare Scope py_scope.
Delimit Scope py_scope with py.
Notation "x <- m ;; k" := (bind m (fun x => k))
  (at level 100, m at next level, right associativity) : py_scope.
Notation "m ;;; k" := (bind m (fun _ => k))
  (at level 100, right associativity) : py_scope.
Notation "x <~ r ;; k" := (rbind r (fun x => k))
  (at level 100, r at next level, right associativity) : py_scope.

(** The value computed by a run started with an empty output. *)
Definition run {A} (m : M A) : result A := fst (m []).

(** ** Numbers *)

(** [a > b] on floats. *)
Definition Qgtb (a b : Q) : bool := negb (Qle_bool a b).

(** Python's [max(a, b)] and [min(a, b)] of two arguments: the first
    argument is kept unless the second is strictly better. *)
Definition py_max (a b : Q) : Q := if Qgtb b a then b else a.
Definition py_min (a b : Q) : Q := if Qgtb a b then b else a.

(** [a / b] on Python numbers: division by zero raises. *)
Definition py_div (a b : Q) : result Q :=
  if Qeq_bool b 0 then Raise (ZeroDivisionError "division by zero")
  else Return (a / b).

(** [round(x)] to the nearest integer, ties to the even one, and
    [round(x, n)] to [n] decimals. *)
Definition round_half_even (x : Q) : Z :=
  let f := Qfloor x in
  let frac := x - inject_Z f in
  if Qgtb frac (1 # 2) then (f + 1)%Z
  else if Qgtb (1 # 2) frac then f
  else if Z.even f then f else (f + 1)%Z.

Definition py_round (x : Q) (ndigits : nat) : Q :=
  let scale := (10 ^ Z.of_nat ndigits)%Z in
  inject_Z (round_half_even (x * inject_Z scale)) / inject_Z scale.

Definition Qsum (l : list Q) : Q := foldr Qplus 0 l.

(** ** Dictionaries with string keys, in insertion order *)

Definition dict (A : Type) : Type := list (string * A).

Fixpoint dict_find {A} (d : dict A) (k : string) : option A :=
  match d with
  | [] => None
  | (k', v) :: d' => if String.eqb k' k then Some v else dict_find d' k
  end.

(** [d[k]] *)
Definition dict_get {A} (d : dict A) (k : string) : result A :=
  match dict_find d k with
  | Some v => Return v
  | None => Raise (KeyError k)
  end.

(** [k in d] *)
Definition dict_mem {A} (d : dict A) (k : string) : bool :=
  match dict_find d k with Some _ => true | None => false end.

(** [d[k] = v]: an existing key keeps its position, a new key goes
    last. *)
Fixpoint dict_set {A} (d : dict A) (k : string) (v : A) : dict A :=
  match d with
  | [] => [(k, v)]
  | (k', v') :: d' =>
      if String.eqb k' k then (k', v) :: d' else (k', v') :: dict_set d' k v
  end.

Definition dict_keys {A} (d : dict A) : list string := map fst d.

(** ** Strings *)

Definition code (c : ascii) : N := N_of_ascii c.

Definition in_range (lo hi : N) (c : ascii) : bool :=
  (lo <=? code c)%N && (code c <=? hi)%N.

(** [c.isspace()] *)
Definition is_space (c : ascii) : bool :=
  in_range 9 13 c || in_range 28 32 c || (code c =? 133)%N || (code c =? 160)%N.

Definition is_digit (c : ascii) : bool := in_range 48 57 c.

(** [c.isalnum()] *)
Definition is_alnum (c : ascii) : bool :=
  is_digit c || in_range 65 90 c || in_range 97 122 c
  || (code c =? 170)%N || in_range 178 179 c || (code c =? 181)%N
  || in_range 185 186 c || in_range 188 190 c
  || in_range 192 214 c || in_range 216 246 c || in_range 248 255 c.

(** A character matched by the regular expression [\w]. *)
Definition is_word_char (c : ascii) : bool :=
  is_alnum c || (code c =? 95)%N.

(** [c.lower()] *)
Definition lower_char (c : ascii) : ascii :=
  if in_range 65 90 c || (in_range 192 222 c && negb (code c =? 215)%N)
  then ascii_of_N (code c + 32)
  else c.

Fixpoint lower (s : string) : string :=
  match s with
  | EmptyString => EmptyString
  | String c s' => String (lower_char c) (lower s')
  end.

Fixpoint string_rev_onto (s acc : string) : string :=
  match s with
  | EmptyString => acc
  | String c s' => string_rev_onto s' (String c acc)
  end.

Definition string_rev (s : string) : string := string_rev_onto s EmptyString.

Fixpoint lstrip_chars (p : ascii -> bool) (s : string) : string :=
  match s with
  | EmptyString => EmptyString
  | String c s' => if p c then lstrip_chars p s' else s
  end.

(** [s.strip(chars)] for the set of characters [p]; [s.strip()] is
    [strip_chars is_space s]. *)
Definition strip_chars (p : ascii -> bool) (s : string) : string :=
  string_rev (lstrip_chars p (string_rev (lstrip_chars p s))).

Definition strip (s : string) : string := strip_chars is_space s.

(** [s.endswith(suffix)] *)
Definition endswith (s suffix : string) : bool :=
  String.prefix (string_rev suffix) (string_rev s).

(** The maximal runs of characters satisfying [p], from left to right:
    [re.findall(r'\w+', s)] for [p = is_word_char], [s.split()] for the
    characters that are not white space. [cur] is the run being read,
    reversed. *)
Fixpoint runs_from (p : ascii -> bool) (s : string) (cur : string) : list string :=
  match s with
  | EmptyString =>
      match cur with EmptyString => [] | _ => [string_rev cur] end
  | String c s' =>
      if p c then runs_from p s' (String c cur)
      else match cur with
           | EmptyString => runs_from p s' EmptyString
           | _ => string_rev cur :: runs_from p s' EmptyString
           end
  end.

Definition runs (p : ascii -> bool) (s : string) : list string :=
  runs_from p s EmptyString.

Definition findall_word (s : string) : list string := runs is_word_char s.

Definition split_whitespace (s : string) : list string :=
  runs (fun c => negb (is_space c)) s.

(** [re.split(sep+, s)] for a class [sep] of separator characters: the
    pieces between maximal runs of separators, the empty pieces at both
    ends included. [in_sep] tells that the previous character was a
    separator. *)
Fixpoint split_runs_from (sep : ascii -> bool) (s : string) (cur : string)
    (in_sep : bool) : list string :=
  match s with
  | EmptyString => [string_rev cur]
  | String c s' =>
      if sep c then
        if in_sep then split_runs_from sep s' EmptyString true
        else string_rev cur :: split_runs_from sep s' EmptyString true
      else split_runs_from sep s' (String c cur) false
  end.

Definition re_split (sep : ascii -> bool) (s : string) : list string :=
  split_runs_from sep s EmptyString false.

(** [s.replace(pat, "")]: the occurrences of [pat] are removed in one
    pass from left to right; [skip] counts the characters of the
    occurrence being removed that are still to be dropped. *)
Fixpoint remove_from (pat : string) (s : string) (skip : nat) : string :=
  match s with
  | EmptyString => EmptyString
  | String c s' =>
      match skip with
      | S n => remove_from pat s' n
      | O =>
          if String.prefix pat s then remove_from pat s' (String.length pat - 1)
          else String c (remove_from pat s' O)
      end
  end.

Definition remove_all (pat s : string) : string :=
  match pat with
  | EmptyString => s
  | _ => remove_from pat s O
  end.

(** ** models/essay.py *)

(** [datetime]: seconds since the epoch; [(a - b).days] is the number
    of whole days of the difference, rounded towards minus infinity. *)
Definition datetime : Type := Z.

Definition timedelta_days (a b : datetime) : Z := ((a - b) / 86400)%Z.

Record Essay : Type := mkEssay {
  essay_id : string;
  essay_student_id : string;
  essay_content : string;
  essay_type : string;
  essay_created_at : datetime;
  essay_metrics : option (dict Q)
}.

(** [(later.created_at - earlier.created_at).days / 365.0] *)
Definition years_between (later earlier : Essay) : Q :=
  inject_Z (timedelta_days (essay_created_at later) (essay_created_at earlier))
  / 365.

(** ** detection/service.py: DetectionService *)

Module Detection.

(** [self.improvement_thresholds] *)
Definition improvement_thresholds : dict (dict Q) :=
  [ ("average",
      [ ("percentile_change", 10); ("grade_level_change", 1);
        ("vocab_growth", 10); ("complexity_growth", 10);
        ("style_improvement", 10) ]);
    ("high",
      [ ("percentile_change", 25); ("grade_level_change", 3 # 2);
        ("vocab_growth", 25); ("complexity_growth", 25);
        ("style_improvement", 25) ]);
    ("suspicious",
      [ ("percentile_change", 30); ("grade_level_change", 2);
        ("vocab_growth", 30); ("complexity_growth", 30);
        ("style_improvement", 30) ]) ]%string.

(** [self.improvement_thresholds[band][metric.replace("_change", "")]] *)
Definition threshold (band metric : string) : result Q :=
  (table <~ dict_get improvement_thresholds band ;;
   dict_get table (remove_all "_change" metric))%py.

(** The loop of [_calculate_improvements] over the items of [baseline]
    that are still to be visited; [base] is [baseline[metric]] and
    [improvements] is the dictionary built so far. *)
Fixpoint improvements_loop (items : dict Q) (submitted : dict Q)
    (time_span : Q) (improvements : dict Q) : result (dict Q) :=
  match items with
  | [] => Return improvements
  | (metric, base) :: rest =>
      if Qgtb base 0 then
        (sub <~ dict_get submitted metric ;;
         let change := ((sub - base) / base) * 100 in
         let yearly_change :=
           if Qgtb time_span 0 then change / time_span else change in
         improvements_loop rest submitted time_span
           (dict_set improvements (metric +:+ "_change") yearly_change))%py
      else improvements_loop rest submitted time_span improvements
  end.

Definition _calculate_improvements (baseline submitted : dict Q)
    (time_span : Q) : result (dict Q) :=
  improvements_loop baseline submitted time_span [].

(** The loop of [_evaluate_improvement_realism]; [suspicious_count] is
    the running count. *)
Fixpoint realism_loop (items : dict Q) (suspicious_count : Q) : result Q :=
  match items with
  | [] => Return suspicious_count
  | (metric, value) :: rest =>
      (sus <~ threshold "suspicious" metric ;;
       if Qgtb value sus then realism_loop rest (suspicious_count + 1)
       else
         high <~ threshold "high" metric ;;
         if Qgtb value high then realism_loop rest (suspicious_count + (1 # 2))
         else realism_loop rest suspicious_count)%py
  end.

Definition _evaluate_improvement_realism (improvements : dict Q)
    (time_span : Q) : result Q :=
  let total_metrics := inject_Z (Z.of_nat (length improvements)) in
  (suspicious_count <~ realism_loop improvements 0 ;;
   ai_probability <~ py_div suspicious_count total_metrics ;;
   Return (py_min (py_max ai_probability 0) 1))%py.

(** The dictionary returned by [compare_essays]; the fallback of the
    handler has no ["improvements"] entry. *)
Record comparison : Type := mkComparison {
  similarity_score : Q;
  ai_probability : Q;
  improvements : option (dict Q)
}.

Definition fallback_comparison : comparison :=
  {| similarity_score := 3 # 4; ai_probability := 1 # 4; improvements := None |}.

(** The [except] clause of [compare_essays]. *)
Definition comparison_handler (e : exn) : M comparison :=
  (report "Error comparing essays" e ;;; ret fallback_comparison)%py.

Definition default_style_metrics : dict Q :=
  [ ("percentile", 50); ("grade_level", 8); ("vocab", 100);
    ("complexity", 15); ("style", 5) ]%string.

Definition is_terminator (c : ascii) : bool :=
  (code c =? 46)%N || (code c =? 33)%N || (code c =? 63)%N.

(** [re.findall(r'\w+', content.lower())] *)
Definition style_words (content : string) : list string :=
  findall_word (lower content).

(** [[s.strip() for s in re.split(r'[.!?]+', content) if s.strip()]] *)
Definition style_sentences (content : string) : list string :=
  map strip
    (filter (fun s => strip s ≠ EmptyString) (re_split is_terminator content)).

Section Helpers.

(** The helper methods that the service calls and the file leaves out
    ("rest of the helper methods stay the same"): whatever they are,
    they read the text (or the two metric dictionaries) and return a
    number, raise or print. *)
Variable _calculate_percentile : string -> M Q.
Variable _calculate_grade_level : string -> M Q.
Variable _calculate_style_score : string -> M Q.
Variable _calculate_similarity : dict Q -> dict Q -> M Q.

Definition extract_style_metrics_try (content : string) : M (dict Q) :=
  (let words := style_words content in
   let sentences := style_sentences content in
   percentile <- _calculate_percentile content ;;
   grade_level <- _calculate_grade_level content ;;
   let vocab := inject_Z (Z.of_nat (length (remove_dups words))) in
   complexity <-
     lift (py_div
             (Qsum (map (fun s => inject_Z (Z.of_nat (length (split_whitespace s))))
                        sentences))
             (inject_Z (Z.of_nat (length sentences)))) ;;
   style <- _calculate_style_score content ;;
   ret [ ("percentile", percentile); ("grade_level", grade_level);
         ("vocab", vocab); ("complexity", complexity);
         ("style", style) ]%string)%py.

Definition _extract_style_metrics (content : string) : M (dict Q) :=
  try_except (extract_style_metrics_try content)
    (fun e =>
       (report "Error extracting style metrics" e ;;;
        ret default_style_metrics)%py).

Definition compare_essays_try (baseline submitted : Essay) : M comparison :=
  (let time_diff := years_between submitted baseline in
   baseline_metrics <- _extract_style_metrics (essay_content baseline) ;;
   submitted_metrics <- _extract_style_metrics (essay_content submitted) ;;
   improvements <-
     lift (_calculate_improvements baseline_metrics submitted_metrics time_diff) ;;
   ai_probability <- lift (_evaluate_improvement_realism improvements time_diff) ;;
   similarity <- _calculate_similarity baseline_metrics submitted_metrics ;;
   ret {| similarity_score := similarity;
          ai_probability := ai_probability;
          improvements := Some improvements |})%py.

Definition compare_essays (baseline submitted : Essay) : M comparison :=
  try_except (compare_essays_try baseline submitted) comparison_handler.

End Helpers.

End Detection.

(** ** progress/service.py: ProgressService *)

Module Progress.

(** [essay.metrics[key]]; [metrics] is [None] until it is extracted. *)
Definition metric (e : Essay) (key : string) : result Q :=
  match essay_metrics e with
  | None => Raise (TypeError "'NoneType' object is not subscriptable")
  | Some d => dict_get d key
  end.

(** [(last.metrics[key] - first.metrics[key]) / time_span] *)
Definition absolute_rate (first last : Essay) (key : string) (time_span : Q)
    : result Q :=
  (l <~ metric last key ;;
   f <~ metric first key ;;
   py_div (l - f) time_span)%py.

(** [(last.metrics[key] - first.metrics[key]) / first.metrics[key] * 100
     / time_span] *)
Definition percent_rate (first last : Essay) (key : string) (time_span : Q)
    : result Q :=
  (l <~ metric last key ;;
   f <~ metric first key ;;
   f' <~ metric first key ;;
   rel <~ py_div (l - f) f' ;;
   py_div (rel * 100) time_span)%py.

Definition _calculate_overall_improvement (essays : list Essay)
    : result (dict Q) :=
  match essays, last essays with
  | first :: _ :: _, Some last =>
      let time_span := years_between last first in
      (writing_level <~ absolute_rate first last "grade_level" time_span ;;
       vocabulary <~ percent_rate first last "vocabulary_size" time_span ;;
       complexity <~ percent_rate first last "sentence_complexity" time_span ;;
       style <~ percent_rate first last "style_fingerprint" time_span ;;
       Return [ ("writing_level", writing_level); ("vocabulary", vocabulary);
                ("complexity", complexity); ("style", style) ]%string)%py
  | _, _ => Return []
  end.

End Progress.

(** ** Values of mixed type *)

(** The dictionaries returned by the analysis services hold numbers,
    strings, booleans and further dictionaries. *)
#[warnings="-register-all"]
Inductive pyval : Type :=
| VNone
| VBool (b : bool)
| VNum (q : Q)
| VStr (s : string)
| VList (l : list pyval)
| VDict (d : list (string * pyval)).

(** The truth value of an object: [None], [False], zero and the empty
    string, list and dictionary are false. *)
Definition truthy (v : pyval) : bool :=
  match v with
  | VNone => false
  | VBool b => b
  | VNum q => negb (Qeq_bool q 0)
  | VStr s => negb (String.eqb s "")
  | VList l => match l with [] => false | _ => true end
  | VDict d => match d with [] => false | _ => true end
  end.

(** ** analysis/service.py: AnalysisService *)

Module Analysis.

(** The entries of [self.settings] read by the code below. *)
Record settings : Type := mkSettings {
  min_words : Z;
  max_words : Z
}.

Definition default_settings : settings :=
  {| min_words := 100; max_words := 10000 |}.

Definition len (s : string) : Z := Z.of_nat (String.length s).

Definition _validate_content (cfg : settings) (content : string) : bool :=
  let length := len (strip content) in
  (min_words cfg <=? length)%Z && (length <=? max_words cfg)%Z.

Definition is_vowel_y (c : ascii) : bool :=
  existsb (Ascii.eqb c) (String.list_ascii_of_string "aeiouy").

(** The loop of [_count_syllables]: one more for every vowel that does
    not follow a vowel. *)
Fixpoint vowel_groups (p : ascii -> bool) (word : string) (on_vowel : bool)
    (count : Z) : Z :=
  match word with
  | EmptyString => count
  | String char rest =>
      let is_vowel := p char in
      vowel_groups p rest is_vowel
        (if is_vowel && negb on_vowel then (count + 1)%Z else count)
  end.

(** [word[-3]], for a word of at least three characters. *)
Definition third_from_end (word : string) : option ascii :=
  match string_rev word with
  | String _ (String _ (String c _)) => Some c
  | _ => None
  end.

Definition _count_syllables (word : string) : Z :=
  let word := strip_chars is_digit (lower word) in
  let count := vowel_groups is_vowel_y word false 0 in
  let count := if endswith word "e" then (count - 1)%Z else count in
  let count :=
    if endswith word "le" && (2 <? len word)%Z
       && match third_from_end word with
          | Some c => negb (is_vowel_y c)
          | None => false
          end
    then (count + 1)%Z else count in
  if (count =? 0)%Z then 1%Z else count.

Definition is_vowel (c : ascii) : bool :=
  existsb (Ascii.eqb c) (String.list_ascii_of_string "aeiou").

(** [word.isalnum()] *)
Definition isalnum (word : string) : bool :=
  match word with
  | EmptyString => false
  | _ => forallb is_alnum (String.list_ascii_of_string word)
  end.

(** The local [count_syllables] of [_calculate_avg_syllables]:
    [len(re.findall('[aeiou]+', word.lower()))]. *)
Definition count_vowel_runs (word : string) : Z :=
  Z.of_nat (length (runs is_vowel (lower word))).

Definition Zsum (l : list Z) : Z := foldr Z.add 0%Z l.

Definition count (l : list string) : Q := inject_Z (Z.of_nat (length l)).

(** [_calculate_avg_syllables]; nothing in its body can raise, so its
    handler is never entered. *)
Definition _calculate_avg_syllables (words : list string) : Q :=
  let total_syllables :=
    Zsum (map count_vowel_runs (filter (fun w => isalnum w = true) words)) in
  match words with
  | [] => 0
  | _ => inject_Z total_syllables / count words
  end.

Section Tokenizers.

(** NLTK's tokenizers. They raise [LookupError] when the punkt data is
    not installed. *)
Variable word_tokenize : string -> M (list string).
Variable sent_tokenize : string -> M (list string).

Definition is_empty {A} (l : list A) : bool :=
  match l with [] => true | _ => false end.

Definition calculate_readability_try (content : string) : M pyval :=
  (words <- word_tokenize content ;;
   sentences <- sent_tokenize content ;;
   if is_empty words || is_empty sentences then
     ret (VDict [("error", VStr "No content to analyze")]%string)
   else
     let syllables := Zsum (map _count_syllables words) in
     words_per_sentence <- lift (py_div (count words) (count sentences)) ;;
     syllables_per_word <- lift (py_div (inject_Z syllables) (count words)) ;;
     let grade_level :=
       (39 # 100) * words_per_sentence + (118 # 10) * syllables_per_word
       - (1559 # 100) in
     ret (VDict
       [ ("grade_level", VNum (py_round (py_max 0 (py_min grade_level 12)) 1));
         ("avg_syllables_per_word", VNum (py_round syllables_per_word 2));
         ("avg_words_per_sentence", VNum (py_round words_per_sentence 2))
       ]%string))%py.

Definition _calculate_readability (content : string) : M pyval :=
  try_except (calculate_readability_try content)
    (fun e =>
       (report "Error calculating readability" e ;;;
        ret (VDict [("error", VStr (str_exn e))]%string))%py).

Definition no_readability : pyval :=
  VDict [("score", VNum 0); ("grade_level", VNum 0)]%string.

Definition analyze_readability_try (text : string) : M pyval :=
  (words <- word_tokenize text ;;
   sentences <- sent_tokenize text ;;
   if is_empty words || is_empty sentences then ret no_readability
   else
     avg_words_per_sentence <- lift (py_div (count words) (count sentences)) ;;
     let avg_syllables_per_word := _calculate_avg_syllables words in
     let grade_level :=
       (39 # 100) * avg_words_per_sentence
       + (118 # 10) * avg_syllables_per_word - (1559 # 100) in
     ret (VDict
       [ ("score", VNum (py_round grade_level 2));
         ("grade_level", VNum (py_round grade_level 1));
         ("avg_words_per_sentence", VNum (py_round avg_words_per_sentence 2));
         ("avg_syllables_per_word", VNum (py_round avg_syllables_per_word 2))
       ]%string))%py.

Definition _analyze_readability (text : string) : M pyval :=
  try_except (analyze_readability_try text)
    (fun e =>
       (report "Error analyzing readability" e ;;; ret no_readability)%py).

(** The other three analyses of [analyze_text]: the transformer-based
    detector, the writing-quality metrics and the paragraph structure.
    Each returns a dictionary, or raises. *)
Variable _detect_ai_content : string -> M pyval.
Variable _analyze_writing_quality : string -> M pyval.
Variable _analyze_structure : string -> M pyval.

(** The dictionary that [analyze_text] returns for a valid text; its
    entries are evaluated in this order. *)
Definition text_analyses (text : string) : M pyval :=
  (ai_detection <- _detect_ai_content text ;;
   writing_quality <- _analyze_writing_quality text ;;
   readability <- _calculate_readability text ;;
   structure <- _analyze_structure text ;;
   ret (VDict
     [ ("ai_detection", ai_detection);
       ("writing_quality", writing_quality);
       ("readability", readability);
       ("structure", structure) ]%string))%py.

Definition analyze_text_try (cfg : settings) (text : string) : M pyval :=
  if negb (_validate_content cfg text) then
    raise (ValueError "Invalid content length")
  else text_analyses text.

Definition analyze_text (cfg : settings) (text : string) : M pyval :=
  try_except (analyze_text_try cfg text)
    (fun e =>
       (report "Error analyzing text" e ;;;
        ret (VDict [("error", VStr (str_exn e))]%string))%py).

End Tokenizers.

End Analysis.

(** ** Rows of the database and numpy helpers *)

(** An essay as the database returns it: a dictionary with the text and,
    once the essay is analysed, an ["analysis"] entry holding its
    metrics. *)
Record essay_row : Type := mkRow {
  row_id : string;
  row_content : string;
  row_analysis : option (dict Q)
}.

(** [[essay["analysis"][metric] for essay in essays
      if "analysis" in essay and metric in essay["analysis"]]] *)
Definition metric_values (metric : string) (essays : list essay_row) : list Q :=
  omap (fun essay =>
          match row_analysis essay with
          | Some analysis => dict_find analysis metric
          | None => None
          end) essays.

(** [np.arange(n)] *)
Definition arange (n : nat) : list Q :=
  map (fun i => inject_Z (Z.of_nat i)) (seq 0 n).

(** A numpy float: numpy's division does not raise on a zero divisor, it
    yields an infinity or [nan]. *)
Inductive np_float : Type :=
| Finite (q : Q)
| Inf (negative : bool)
| NaN.

Fixpoint mapM {A B} (f : A -> M B) (l : list A) : M (list B) :=
  match l with
  | [] => ret []
  | a :: l' => (b <- f a ;; bs <- mapM f l' ;; ret (b :: bs))%py
  end.

(** The five metrics listed in the settings of both progress services. *)
Definition tracked_metrics : list string :=
  [ "grade_level"; "vocabulary_diversity"; "syntax_complexity";
    "writing_style"; "coherence" ]%string.

(** ** student/service.py: StudentProgressService *)

Module Student.

(** The entries of [self.settings] read by the code below. *)
Record settings : Type := mkSettings {
  min_essays_for_trend : nat;
  metrics : list string
}.

Definition default_settings : settings :=
  {| min_essays_for_trend := 3; metrics := tracked_metrics |}.

(** The baseline dictionary: the averaged metrics and the three entries
    added by [set_student_baseline]. *)
Record baseline : Type := mkBaseline {
  baseline_metrics : gmap string Q;
  baseline_student_id : string;
  baseline_essay_ids : list string;
  baseline_timestamp : string
}.

(** The sum of every metric over the metric vectors. *)
Definition metric_sums (analyses : list (gmap string Q)) : gmap string Q :=
  foldr (union_with (fun a b => Some (a + b))) ∅ analyses.

(** Modelled from the spec: [_calculate_average_metrics] is called by
    [set_student_baseline] and defined nowhere in the repository.
    Section 4.2: the metrics of the baseline are the element-wise
    arithmetic mean across the metric vectors of the supplied essays; an
    empty list of essays is a [ValidationError]. The vectors of one
    student carry the same metrics (section 3). *)
Definition _calculate_average_metrics (analyses : list (gmap string Q))
    : result (gmap string Q) :=
  match analyses with
  | [] => Raise (ValidationError "no baseline essays")
  | _ =>
      let n := inject_Z (Z.of_nat (length analyses)) in
      Return ((fun total => total / n) <$> metric_sums analyses)
  end.

Record trend : Type := mkTrend {
  slope : Q;
  improving : bool;
  trend_strength : np_float
}.

(** The dictionary returned by [_analyze_trends]:
    [{"sufficient_data": False}] or
    [{"sufficient_data": True, "metrics": trends}]. *)
Inductive trend_report : Type :=
| InsufficientData
| Trends (trends : dict trend).

Section Services.

(** [DatabaseService.get_essay]: the essay stored under the id, or
    [None]. *)
Variable get_essay : string -> M (option essay_row).
(** [AnalysisService._analyze_text], the feature extractor: the class
    calls it and does not define it. *)
Variable _analyze_text : string -> M (gmap string Q).
(** [DatabaseService.set_student_baseline]: called here, not defined by
    the database service. *)
Variable db_set_student_baseline : string -> baseline -> M bool.
(** [datetime.now().isoformat()] *)
Variable now : M string.
(** [np.polyfit(x, y, 1)]: the coefficients [(slope, intercept)]. *)
Variable np_polyfit : list Q -> list Q -> M (Q * Q).
(** [np.mean] of a list of numbers. *)
Variable np_mean : list Q -> Q.

Definition analyze_baseline_essay (essay_id : string) : M (gmap string Q) :=
  (essay <- get_essay essay_id ;;
   match essay with
   | None => raise (ValueError ("Essay not found: " +:+ essay_id))
   | Some essay => _analyze_text (row_content essay)
   end)%py.

(** The [try] block of [set_student_baseline] up to the baseline that is
    handed to the database. *)
Definition build_baseline (student_id : string) (essay_ids : list string)
    : M baseline :=
  (baseline_analyses <- mapM analyze_baseline_essay essay_ids ;;
   averaged <- lift (_calculate_average_metrics baseline_analyses) ;;
   timestamp <- now ;;
   ret {| baseline_metrics := averaged;
          baseline_student_id := student_id;
          baseline_essay_ids := essay_ids;
          baseline_timestamp := timestamp |})%py.

Definition set_student_baseline (student_id : string)
    (essay_ids : list string) : M bool :=
  try_except
    (baseline <- build_baseline student_id essay_ids ;;
     db_set_student_baseline student_id baseline)%py
    (fun e =>
       (report ("Error setting baseline for student " +:+ student_id) e ;;;
        ret false)%py).

Definition square (x : Q) : Q := x * x.

(** [1 - (ss_res / ss_tot)] on numpy floats. *)
Definition one_minus_ratio (ss_res ss_tot : Q) : np_float :=
  if Qeq_bool ss_tot 0 then
    if Qeq_bool ss_res 0 then NaN else Inf (Qgtb ss_res 0)
  else Finite (1 - ss_res / ss_tot).

Definition calculate_trend_strength_try (values : list Q) : M np_float :=
  (let x := arange (length values) in
   z <- np_polyfit x values ;;
   let y_hat := map (fun xi => fst z * xi + snd z) x in
   match values with
   | [] => raise (ZeroDivisionError "division by zero")
   | _ =>
       let y_bar := np_mean values in
       let ss_tot := Qsum (map (fun v => square (v - y_bar)) values) in
       let ss_res :=
         Qsum (zip_with (fun v yh => square (v - yh)) values y_hat) in
       ret (one_minus_ratio ss_res ss_tot)
   end)%py.

Definition _calculate_trend_strength (values : list Q) : M np_float :=
  try_except (calculate_trend_strength_try values)
    (fun e =>
       (report "Error calculating trend strength" e ;;; ret (Finite 0))%py).

(** The loop of [_analyze_trends] over the metrics still to be
    visited. *)
Fixpoint trends_loop (cfg : settings) (todo : list string)
    (previous_essays : list essay_row) (new_analysis : dict Q)
    (trends : dict trend) : M (dict trend) :=
  match todo with
  | [] => ret trends
  | metric :: rest =>
      (new_value <- lift (dict_get new_analysis metric) ;;
       let values := metric_values metric previous_essays ++ [new_value] in
       if (min_essays_for_trend cfg <=? length values)%nat then
         z <- np_polyfit (arange (length values)) values ;;
         strength <- _calculate_trend_strength values ;;
         trends_loop cfg rest previous_essays new_analysis
           (dict_set trends metric
              {| slope := fst z; improving := Qgtb (fst z) 0;
                 trend_strength := strength |})
       else trends_loop cfg rest previous_essays new_analysis trends)%py
  end.

Definition _analyze_trends (cfg : settings) (previous_essays : list essay_row)
    (new_analysis : dict Q) : M trend_report :=
  try_except
    (if (length previous_essays <? min_essays_for_trend cfg)%nat then
       ret InsufficientData
     else
       trends <- trends_loop cfg (metrics cfg) previous_essays new_analysis [] ;;
       ret (Trends trends))%py
    (fun e => (report "Error analyzing trends" e ;;; ret InsufficientData)%py).

End Services.

End Student.

(** ** class/service.py: ClassProgressService *)

Module ClassProgress.

(** The entries of [self.settings] read by the code below. *)
Record settings : Type := mkSettings {
  min_students : nat;
  min_essays_per_student : nat;
  percentile_ranges : list Z;
  metrics : list string
}.

Definition default_settings : settings :=
  {| min_students := 5;
     min_essays_per_student := 3;
     percentile_ranges := [25; 50; 75; 90]%Z;
     metrics := tracked_metrics |}.

Record student_row : Type := mkStudent { student_id : string }.

(** The dictionary built by [_analyze_student_progress]. *)
Record progress : Type := mkProgress {
  progress_student_id : string;
  progress_baseline : dict Q;
  progress_current : dict Q;
  progress_improvement : dict Q;
  progress_trend : dict Q
}.

(** One entry of the dictionary built by [_calculate_class_metrics]. *)
Record metric_stats : Type := mkStats {
  stats_mean : Q;
  stats_median : Q;
  stats_std : Q;
  stats_percentiles : dict Q
}.

(** The dictionary assembled by [analyze_class_progress]. *)
Record analysis : Type := mkAnalysis {
  analysis_class_id : string;
  analysis_timestamp : string;
  analysis_metrics : dict metric_stats;
  analysis_distribution : pyval;
  analysis_trends : pyval;
  analysis_teacher_effectiveness : pyval;
  analysis_recommendations : pyval
}.

(** What [analyze_class_progress] returns: [None] from its handler, the
    dictionary [{"error": msg}], or the analysis. *)
Inductive class_report : Type :=
| NoReport
| ErrorReport (msg : string)
| Report (a : analysis).

(** The loop of [_calculate_improvement]. *)
Fixpoint improvement_loop (todo : list string) (baseline current : dict Q)
    (improvement : dict Q) : dict Q :=
  match todo with
  | [] => improvement
  | metric :: rest =>
      match dict_find baseline metric, dict_find current metric with
      | Some baseline_value, Some current_value =>
          improvement_loop rest baseline current
            (dict_set improvement metric
               (if Qeq_bool baseline_value 0 then 0
                else (current_value - baseline_value) / baseline_value))
      | _, _ => improvement_loop rest baseline current improvement
      end
  end.

Definition _calculate_improvement (cfg : settings) (baseline current : dict Q)
    : dict Q :=
  improvement_loop (metrics cfg) baseline current [].

Section Services.

(** The database methods that the class calls; the database service
    defines none of them. *)
Variable get_class : string -> M pyval.
Variable get_class_students : string -> M (list student_row).
Variable get_student_essays :
  string -> option (string * string) -> M (list essay_row).
Variable get_student_baseline : string -> M (option (dict Q)).
Variable store_class_analysis : analysis -> M bool.
(** [datetime.now().isoformat()] *)
Variable now : M string.
(** [scipy.stats.linregress(x, y)]: of the five numbers it returns, the
    slope and the correlation coefficient [r_value]. *)
Variable linregress : list Q -> list Q -> M (Q * Q).
(** numpy's descriptive statistics. *)
Variable np_mean np_median np_std : list Q -> Q.
Variable np_percentile : list Q -> Q -> Q.
(** The four class-wide analyses that are built on scipy's
    distribution statistics; each has its own handler and returns a
    dictionary or a list. *)
Variable _analyze_class_distribution : list progress -> M pyval.
Variable _analyze_class_trends : list progress -> M pyval.
Variable _analyze_teacher_effectiveness : list progress -> M pyval.
Variable _generate_class_recommendations : list progress -> M pyval.

(** The loop of [_calculate_student_trend]. *)
Fixpoint student_trend_loop (todo : list string) (essays : list essay_row)
    (trends : dict Q) : M (dict Q) :=
  match todo with
  | [] => ret trends
  | metric :: rest =>
      let values := metric_values metric essays in
      if (3 <=? length values)%nat then
        (fit <- linregress (arange (length values)) values ;;
         let slope := fst fit in
         let r_value := snd fit in
         student_trend_loop rest essays (dict_set trends metric (slope * r_value)))%py
      else student_trend_loop rest essays trends
  end.

Definition _calculate_student_trend (cfg : settings) (essays : list essay_row)
    : M (dict Q) :=
  try_except (student_trend_loop (metrics cfg) essays [])
    (fun e => (report "Error calculating student trend" e ;;; ret [])%py).

Definition dict_is_empty {A} (d : dict A) : bool :=
  match d with [] => true | _ => false end.

Definition _analyze_student_progress (cfg : settings) (student_id : string)
    (time_period : option (string * string)) : M (option progress) :=
  try_except
    (essays <- get_student_essays student_id time_period ;;
     if (length essays <? min_essays_per_student cfg)%nat then ret None
     else
       baseline <- get_student_baseline student_id ;;
       match baseline with
       | None => ret None
       | Some baseline =>
           if dict_is_empty baseline then ret None
           else
             current <-
               match last essays with
               | Some essay =>
                   match row_analysis essay with
                   | Some a => ret a
                   | None => raise (KeyError "analysis")
                   end
               | None => raise (IndexError "list index out of range")
               end ;;
             let improvement := _calculate_improvement cfg baseline current in
             trend <- _calculate_student_trend cfg essays ;;
             ret (Some {| progress_student_id := student_id;
                          progress_baseline := baseline;
                          progress_current := current;
                          progress_improvement := improvement;
                          progress_trend := trend |})
       end)%py
    (fun e =>
       (report ("Error analyzing progress for student " +:+ student_id) e ;;;
        ret None)%py).

(** [[p["current"][metric] for p in student_progress
      if metric in p["current"]]] *)
Definition current_values (metric : string) (student_progress : list progress)
    : list Q :=
  omap (fun p => dict_find (progress_current p) metric) student_progress.

(** The loop of [_calculate_class_metrics]. *)
Fixpoint class_metrics_loop (cfg : settings) (todo : list string)
    (student_progress : list progress) (metrics : dict metric_stats)
    : dict metric_stats :=
  match todo with
  | [] => metrics
  | metric :: rest =>
      let values := current_values metric student_progress in
      match values with
      | [] => class_metrics_loop cfg rest student_progress metrics
      | _ =>
          class_metrics_loop cfg rest student_progress
            (dict_set metrics metric
               {| stats_mean := np_mean values;
                  stats_median := np_median values;
                  stats_std := np_std values;
                  stats_percentiles :=
                    map (fun p => (pretty p, np_percentile values (inject_Z p)))
                        (percentile_ranges cfg) |})
      end
  end.

Definition _calculate_class_metrics (cfg : settings)
    (student_progress : list progress) : dict metric_stats :=
  class_metrics_loop cfg (metrics cfg) student_progress [].

(** The loop of [analyze_class_progress] over the students: the
    progress of a student is kept when it is not [None]. *)
Fixpoint student_progress_loop (cfg : settings) (students : list student_row)
    (time_period : option (string * string)) : M (list progress) :=
  match students with
  | [] => ret []
  | student :: rest =>
      (p <- _analyze_student_progress cfg (student_id student) time_period ;;
       ps <- student_progress_loop cfg rest time_period ;;
       ret (match p with Some p => p :: ps | None => ps end))%py
  end.

Definition analyze_class_progress_try (cfg : settings) (class_id : string)
    (time_period : option (string * string)) : M class_report :=
  (class_data <- get_class class_id ;;
   if negb (truthy class_data) then
     raise (ValueError ("Class not found: " +:+ class_id))
   else
       students <- get_class_students class_id ;;
       if (length students <? min_students cfg)%nat then
         ret (ErrorReport "Insufficient students for reliable analysis")
       else
         student_progress <- student_progress_loop cfg students time_period ;;
         timestamp <- now ;;
         let metrics := _calculate_class_metrics cfg student_progress in
         distribution <- _analyze_class_distribution student_progress ;;
         trends <- _analyze_class_trends student_progress ;;
         effectiveness <- _analyze_teacher_effectiveness student_progress ;;
         recommendations <- _generate_class_recommendations student_progress ;;
         let a := {| analysis_class_id := class_id;
                     analysis_timestamp := timestamp;
                     analysis_metrics := metrics;
                     analysis_distribution := distribution;
                     analysis_trends := trends;
                     analysis_teacher_effectiveness := effectiveness;
                     analysis_recommendations := recommendations |} in
         store_class_analysis a ;;;
         ret (Report a))%py.

Definition analyze_class_progress (cfg : settings) (class_id : string)
    (time_period : option (string * string)) : M class_report :=
  try_except (analyze_class_progress_try cfg class_id time_period)
    (fun e =>
       (report ("Error analyzing class progress for " +:+ class_id) e ;;;
        ret NoReport)%py).

End Services.

End ClassProgress.

(** ** Reference definitions and sample collaborators *)

(** The suspicion contribution of one metric, as the specification
    words it (section 4.4). *)
Definition contribution (suspicious high rate : Q) : Q :=
  if Qgtb rate suspicious then 1
  else if Qgtb rate high then 1 # 2
  else 0.

(** The keys of the dictionary built by [_extract_style_metrics]. *)
Definition style_keys : list string :=
  [ "percentile"; "grade_level"; "vocab"; "complexity"; "style" ]%string.

(** [((sub - base) / base) * 100]: the change in percent of the
    baseline value. *)
Definition percent_change (base sub : Q) : Q := ((sub - base) / base) * 100.

(** A helper method that the class does not have: the call raises
    [AttributeError]. *)
Definition missing_method {A} (name : string) : M A :=
  raise (AttributeError
           ("'DetectionService' object has no attribute '" +:+ name +:+ "'")).

(** Tokenizers that answer with fixed lists. *)
Definition tokens (l : list string) : string -> M (list string) :=
  fun _ => ret l.

(** A collaborator that returns an empty dictionary. *)
Definition empty_analysis : string -> M pyval := fun _ => ret (VDict []).

(** Two essays of one student, written on the same day. *)
Definition essay_one : Essay :=
  mkEssay "test_1" "student_1" "This is a normal student essay. It flows."
    "baseline" 0%Z None.

Definition essay_two : Essay :=
  mkEssay "test_2" "student_1" "This essay demonstrates different patterns!"
    "submitted" 0%Z None.

(** A text of [n] letters. *)
Definition letters (n : N) : string :=
  String.string_of_list_ascii (repeat "a"%char (N.to_nat n)).

(** The metric vectors of three baseline essays of one student. *)
Definition vector_one : gmap string Q :=
  {[ "grade_level" := 8; "vocabulary_size" := 500 ]}%string.
Definition vector_two : gmap string Q :=
  {[ "grade_level" := 17 # 2; "vocabulary_size" := 550 ]}%string.
Definition vector_three : gmap string Q :=
  {[ "grade_level" := 9; "vocabulary_size" := 510 ]}%string.

(** The least-squares slope of [ys] against [xs], in exact arithmetic:
    the sum of the products of the deviations from the means over the
    sum of the squared deviations of [xs]. *)
Definition ols_slope (xs ys : list Q) : Q :=
  let n := inject_Z (Z.of_nat (length xs)) in
  let x_bar := Qsum xs / n in
  let y_bar := Qsum ys / n in
  Qsum (zip_with (fun x y => (x - x_bar) * (y - y_bar)) xs ys)
  / Qsum (map (fun x => (x - x_bar) * (x - x_bar)) xs).

(** The correlation coefficient of points that lie on one line: the
    sign of the slope. *)
Definition collinear_r (xs ys : list Q) : Q :=
  if Qgtb (ols_slope xs ys) 0 then 1
  else if Qgtb 0 (ols_slope xs ys) then - (1) else 0.

(** Essays of one student with the grade levels 7.0, 8.0 and 9.0; the
    second essay has no coherence score. *)
Definition history : list essay_row :=
  [ mkRow "e1" "First essay." (Some [("grade_level", 7); ("coherence", 1 # 2)]%string);
    mkRow "e2" "Second essay." (Some [("grade_level", 8)]%string);
    mkRow "e3" "Third essay." (Some [("grade_level", 9); ("coherence", 3 # 5)]%string) ].

(** A database for the class service: every class exists, has the
    given students, and every student has the sample history and a
    baseline. *)
Definition stored_class : string -> M pyval :=
  fun class_id => ret (VDict [("id", VStr class_id)]%string).

Definition students_of (ids : list string)
    : string -> M (list ClassProgress.student_row) :=
  fun _ => ret (map ClassProgress.mkStudent ids).

Definition stored_essays
    : string -> option (string * string) -> M (list essay_row) :=
  fun _ _ => ret history.

Definition stored_baseline : string -> M (option (dict Q)) :=
  fun _ => ret (Some [("grade_level", 7); ("coherence", 1 # 2)]%string).

Definition store_analysis : ClassProgress.analysis -> M bool :=
  fun _ => ret true.

Definition fixed_clock : M string := ret "2024-01-01T00:00:00"%string.

Definition list_mean (values : list Q) : Q :=
  Qsum values / inject_Z (Z.of_nat (length values)).

(** A class-wide analysis that returns an empty dictionary. *)
Definition no_findings : list ClassProgress.progress -> M pyval :=
  fun _ => ret (VDict []).

(** The class service over the sample database. The median, the
    standard deviation and the percentiles are stood in for by the mean:
    they are numpy's and are not reached for a class below the
    minimum. *)
Definition sample_class_progress (ids : list string)
    : ClassProgress.settings -> string -> option (string * string)
      -> M ClassProgress.class_report :=
  ClassProgress.analyze_class_progress stored_class (students_of ids)
    stored_essays stored_baseline store_analysis fixed_clock
    (fun x y => ret (ols_slope x y, collinear_r x y))
    list_mean list_mean list_mean (fun values _ => list_mean values)
    no_findings no_findings no_findings no_findings.

(** ** Further definitions for the properties of the services *)

From Stdlib Require Import Qabs.

(** The keys of each of the three threshold tables of the detection
    service. *)
Definition threshold_keys : list string :=
  [ "percentile_change"; "grade_level_change"; "vocab_growth";
    "complexity_growth"; "style_improvement" ]%string.

(** The contribution of one entry of the rate map, with the thresholds
    read from the tables of the service. *)
Definition rate_contribution (item : string * Q) : result Q :=
  (suspicious <~ Detection.threshold "suspicious" (fst item) ;;
   high <~ Detection.threshold "high" (fst item) ;;
   Return (contribution suspicious high (snd item)))%py.

(** Helpers of the detection service that return fixed numbers. *)
Definition fixed_score (q : Q) : string -> M Q := fun _ => ret q.

(** The metrics of a baseline with a positive value, in the order of the
    dictionary. *)
Definition positive_metrics (baseline : dict Q) : list string :=
  map fst (List.filter (fun item : string * Q => Qgtb (snd item) 0) baseline).

(** ** student/service.py: progress metrics, anomalies, recommendations *)

Module StudentReport.

(** The thresholds of [self.settings] read by the code below. *)
Record thresholds : Type := mkThresholds {
  significant_improvement_threshold : Q;
  anomaly_threshold : Q;
  grade_level_jump_threshold : Q
}.

Definition default_thresholds : thresholds :=
  {| significant_improvement_threshold := 1 # 2;
     anomaly_threshold := 2;
     grade_level_jump_threshold := 2 |}.

(** One entry of the dictionary built by [_calculate_progress_metrics]. *)
Record progress_metric : Type := mkProgressMetric {
  metric_baseline : Q;
  metric_current : Q;
  absolute_change : Q;
  relative_change : Q;
  significant_improvement : bool
}.

(** The loop of [_calculate_progress_metrics]. *)
Fixpoint progress_metrics_loop (th : thresholds) (todo : list string)
    (baseline new_analysis : dict Q) (metrics : dict progress_metric)
    : dict progress_metric :=
  match todo with
  | [] => metrics
  | metric :: rest =>
      match dict_find baseline metric, dict_find new_analysis metric with
      | Some baseline_value, Some new_value =>
          let abs_change := new_value - baseline_value in
          let rel_change :=
            if Qeq_bool baseline_value 0 then 0
            else (new_value - baseline_value) / baseline_value in
          progress_metrics_loop th rest baseline new_analysis
            (dict_set metrics metric
               {| metric_baseline := baseline_value;
                  metric_current := new_value;
                  absolute_change := abs_change;
                  relative_change := rel_change;
                  significant_improvement :=
                    Qgtb rel_change (significant_improvement_threshold th) |})
      | _, _ => progress_metrics_loop th rest baseline new_analysis metrics
      end
  end.

(** [_calculate_progress_metrics]; on dictionaries of numbers nothing in
    its body raises, so its handler is never entered. *)
Definition _calculate_progress_metrics (cfg : Student.settings)
    (th : thresholds) (baseline new_analysis : dict Q)
    : dict progress_metric :=
  progress_metrics_loop th (Student.metrics cfg) baseline new_analysis [].

(** An entry of the dictionary built by [_detect_anomalies]:
    [{"change": c, "severity": s}] under ["grade_level_jump"],
    [{"z_score": z, "severity": s}] under the name of a metric. *)
Inductive anomaly : Type :=
| GradeJump (change : Q) (severity : string)
| ZScore (z_score : Q) (severity : string).

(** ["high" if abs(x) > 3 else "medium"] *)
Definition severity_of (x : Q) : string :=
  if Qgtb (Qabs x) 3 then "high"%string else "medium"%string.

Section Statistics.

(** [np.mean] and [np.std] of a list of numbers. *)
Variable np_mean np_std : list Q -> Q.

(** The loop of [_detect_anomalies] over the metrics. *)
Fixpoint anomalies_loop (th : thresholds) (todo : list string)
    (baseline : dict Q) (previous_essays : list essay_row)
    (new_analysis : dict Q) (anomalies : dict anomaly) : dict anomaly :=
  match todo with
  | [] => anomalies
  | metric :: rest =>
      match dict_find baseline metric, dict_find new_analysis metric with
      | Some _, Some new_value =>
          let values := metric_values metric previous_essays in
          match values with
          | [] => anomalies_loop th rest baseline previous_essays new_analysis
                    anomalies
          | _ =>
              let mean := np_mean values in
              let std := np_std values in
              let z_score :=
                if Qeq_bool std 0 then 0 else (new_value - mean) / std in
              anomalies_loop th rest baseline previous_essays new_analysis
                (if Qgtb (Qabs z_score) (anomaly_threshold th) then
                   dict_set anomalies metric
                     (ZScore z_score (severity_of z_score))
                 else anomalies)
          end
      | _, _ =>
          anomalies_loop th rest baseline previous_essays new_analysis anomalies
      end
  end.

Definition detect_anomalies_try (cfg : Student.settings) (th : thresholds)
    (baseline : dict Q) (previous_essays : list essay_row)
    (new_analysis : dict Q) : M (dict anomaly) :=
  (new_grade <- lift (dict_get new_analysis "grade_level") ;;
   baseline_grade <- lift (dict_get baseline "grade_level") ;;
   let grade_change := new_grade - baseline_grade in
   let anomalies :=
     if Qgtb (Qabs grade_change) (grade_level_jump_threshold th) then
       [("grade_level_jump",
         GradeJump grade_change (severity_of grade_change))]%string
     else [] in
   ret (anomalies_loop th (Student.metrics cfg) baseline previous_essays
          new_analysis anomalies))%py.

Definition _detect_anomalies (cfg : Student.settings) (th : thresholds)
    (baseline : dict Q) (previous_essays : list essay_row)
    (new_analysis : dict Q) : M (dict anomaly) :=
  try_except (detect_anomalies_try cfg th baseline previous_essays new_analysis)
    (fun e => (report "Error detecting anomalies" e ;;; ret [])%py).

End Statistics.

Definition grade_level_advice : string :=
  "Consider using more complex sentence structures and vocabulary to maintain your previous grade level.".

Definition vocabulary_advice : string :=
  "Try to incorporate a wider range of vocabulary. Consider using synonyms to avoid word repetition.".

Definition coherence_advice : string :=
  "Focus on improving paragraph transitions and maintaining a clear flow of ideas throughout your writing.".

Definition generate_recommendations_try (baseline new_analysis : dict Q)
    : M (list string) :=
  (new_grade <- lift (dict_get new_analysis "grade_level") ;;
   baseline_grade <- lift (dict_get baseline "grade_level") ;;
   let grade_change := new_grade - baseline_grade in
   let recommendations :=
     if Qgtb 0 grade_change then [grade_level_advice] else [] in
   new_vocabulary <- lift (dict_get new_analysis "vocabulary_diversity") ;;
   baseline_vocabulary <- lift (dict_get baseline "vocabulary_diversity") ;;
   let recommendations :=
     if Qgtb baseline_vocabulary new_vocabulary
     then recommendations ++ [vocabulary_advice] else recommendations in
   new_coherence <- lift (dict_get new_analysis "coherence") ;;
   baseline_coherence <- lift (dict_get baseline "coherence") ;;
   let recommendations :=
     if Qgtb baseline_coherence new_coherence
     then recommendations ++ [coherence_advice] else recommendations in
   ret recommendations)%py.

Definition _generate_recommendations (baseline new_analysis : dict Q)
    : M (list string) :=
  try_except (generate_recommendations_try baseline new_analysis)
    (fun e => (report "Error generating recommendations" e ;;; ret [])%py).

End StudentReport.

(** The mean of the squared deviations from the mean. It is 0 exactly
    when the standard deviation is 0, and stands in for [np.std] on
    the constant lists of the examples. *)
Definition list_variance (values : list Q) : Q :=
  list_mean (map (fun v => (v - list_mean values) * (v - list_mean values))
               values).

(** Three essays with the same grade level. *)
Definition flat_history : list essay_row :=
  [ mkRow "e1" "First essay." (Some [("grade_level", 8)]%string);
    mkRow "e2" "Second essay." (Some [("grade_level", 8)]%string);
    mkRow "e3" "Third essay." (Some [("grade_level", 8)]%string) ].

(** A database of essays: the essays of [history] under their ids. *)
Definition essay_by_id (essay_id : string) : option essay_row :=
  List.find (fun row => String.eqb (row_id row) essay_id) history.

(** A feature extractor that counts the characters of the text. *)
Definition character_count (content : string) : gmap string Q :=
  {[ "char_count"%string := inject_Z (Z.of_nat (String.length content)) ]}.

(** ** class/service.py: engagement *)

Module ClassEngagement.

Section Statistics.

(** [np.mean] of a list of numbers. *)
Variable np_mean : list Q -> Q.

(** The loop of [_calculate_engagement_score]: the relative improvement
    of every metric that both dictionaries carry, clamped to [-1, 1]. *)
Fixpoint clamped_improvements (todo : list string) (baseline current : dict Q)
    : list Q :=
  match todo with
  | [] => []
  | metric :: rest =>
      match dict_find baseline metric, dict_find current metric with
      | Some baseline_value, Some current_value =>
          let rel_improvement :=
            if Qeq_bool baseline_value 0 then 0
            else (current_value - baseline_value) / baseline_value in
          py_min (py_max rel_improvement (- (1))) 1
          :: clamped_improvements rest baseline current
      | _, _ => clamped_improvements rest baseline current
      end
  end.

(** [_calculate_engagement_score]; on dictionaries of numbers nothing in
    its body raises, so its handler is never entered. *)
Definition _calculate_engagement_score (cfg : ClassProgress.settings)
    (baseline current : dict Q) : Q :=
  match clamped_improvements (ClassProgress.metrics cfg) baseline current with
  | [] => 0
  | improvements => (np_mean improvements + 1) / 2
  end.

(** [_calculate_class_engagement]; every progress dictionary has the
    entries ["current"] and ["baseline"]. *)
Definition _calculate_class_engagement (cfg : ClassProgress.settings)
    (student_progress : list ClassProgress.progress) : Q :=
  match
    map (fun p =>
           _calculate_engagement_score cfg (ClassProgress.progress_baseline p)
             (ClassProgress.progress_current p)) student_progress
  with
  | [] => 0
  | engagement_scores => np_mean engagement_scores
  end.

End Statistics.

End ClassEngagement.

(** The tracked metrics that the current analysis of at least one
    student carries. *)
Definition carried_metrics (student_progress : list ClassProgress.progress)
    : list string :=
  List.filter
    (fun metric =>
       negb (Analysis.is_empty
               (ClassProgress.current_values metric student_progress)))
    tracked_metrics.

(** A [linregress] that fails on a list of values that are all equal and
    returns the slope and the sign of the slope otherwise. *)
Definition fit_or_fail (x y : list Q) : result (Q * Q) :=
  match y with
  | v :: _ =>
      if forallb (Qeq_bool v) y
      then Raise (ValueError "Cannot calculate a linear regression")
      else Return (ols_slope x y, collinear_r x y)
  | [] => Raise (ValueError "Inputs must not be empty.")
  end.

(** A progress dictionary of the sample student. *)
Definition sample_progress : ClassProgress.progress :=
  {| ClassProgress.progress_student_id := "s1";
     ClassProgress.progress_baseline :=
       [("grade_level", 8); ("coherence", 0)]%string;
     ClassProgress.progress_current :=
       [("grade_level", 10); ("coherence", 3 # 5)]%string;
     ClassProgress.progress_improvement := [];
     ClassProgress.progress_trend := [] |}.

(** ** analysis/service.py: chunks of a text *)

Module Chunks.

(** [sep.join(l)] *)
Fixpoint join (sep : string) (l : list string) : string :=
  match l with
  | [] => ""
  | w :: rest =>
      match rest with
      | [] => w
      | _ => w +:+ sep +:+ join sep rest
      end
  end.

(** The loop of [_split_into_chunks]. *)
Fixpoint chunks_loop (max_length : Z) (words : list string)
    (current_chunk : list string) (current_length : Z) (chunks : list string)
    : list string :=
  match words with
  | [] =>
      if Analysis.is_empty current_chunk then chunks
      else chunks ++ [join " " current_chunk]
  | word :: rest =>
      if (max_length <? current_length + Analysis.len word + 1)%Z then
        chunks_loop max_length rest [word] (Analysis.len word)
          (chunks ++ [join " " current_chunk])
      else
        chunks_loop max_length rest (current_chunk ++ [word])
          (current_length + Analysis.len word + 1)%Z chunks
  end.

Definition _split_into_chunks (text : string) (max_length : Z) : list string :=
  chunks_loop max_length (split_whitespace text) [] 0 [].

(** The groups of words that the loop joins into chunks. *)
Fixpoint chunk_groups (max_length : Z) (words : list string)
    (current_chunk : list string) (current_length : Z)
    : list (list string) :=
  match words with
  | [] => if Analysis.is_empty current_chunk then [] else [current_chunk]
  | word :: rest =>
      if (max_length <? current_length + Analysis.len word + 1)%Z then
        current_chunk :: chunk_groups max_length rest [word] (Analysis.len word)
      else
        chunk_groups max_length rest (current_chunk ++ [word])
          (current_length + Analysis.len word + 1)%Z
  end.

End Chunks.

(** Two essays of one student written on the same day, with metrics. *)
Definition morning_essay : Essay :=
  mkEssay "e1" "s" "" "baseline" 0%Z
    (Some [("grade_level", 8); ("vocabulary_size", 500);
           ("sentence_complexity", 2); ("style_fingerprint", 5)]%string).

Definition evening_essay : Essay :=
  mkEssay "e2" "s" "" "submitted" 36000%Z
    (Some [("grade_level", 9); ("vocabulary_size", 550);
           ("sentence_complexity", 2); ("style_fingerprint", 5)]%string).

(** The line of least squares through the points, as [np.polyfit] with
    the degree 1 returns it: the slope and the intercept. *)
Definition ols_line (xs ys : list Q) : Q * Q :=
  let n := inject_Z (Z.of_nat (length xs)) in
  (ols_slope xs ys, Qsum ys / n - ols_slope xs ys * (Qsum xs / n)).

(** A new analysis that carries the five tracked metrics. *)
Definition full_analysis : dict Q :=
  [ ("grade_level", 11); ("vocabulary_diversity", 1 # 2);
    ("syntax_complexity", 3); ("writing_style", 1 # 2);
    ("coherence", 7 # 10) ]%string.

(** ** Properties *)

(** *** The output monad *)

Lemma try_except_never_raises {A} (m : M A) (prefix : string) (a : A) out :
  is_raise (fst (try_except m (fun e => (report prefix e ;;; ret a)%py) out))
  = false.
Proof.
  unfold try_except. destruct (m out) as [[v|e] out']; reflexivity.
Qed.

Lemma try_except_reports {A} (m : M A) (prefix : string) (f : exn -> A) out :
  is_raise
    (fst (try_except m (fun e => (report prefix e ;;; ret (f e))%py) out))
  = false.
Proof.
  unfold try_except. destruct (m out) as [[v|e] out']; reflexivity.
Qed.

Lemma try_except_handled {A} (m : M A) (prefix : string) (a : A) out e out' :
  m out = (Raise e, out') ->
  try_except m (fun e => (report prefix e ;;; ret a)%py) out
  = (Return a, out' ++ [prefix +:+ ": " +:+ str_exn e]).
Proof.
  intros H. unfold try_except. rewrite H. reflexivity.
Qed.

Lemma try_except_returned {A} (m : M A) (h : exn -> M A) out a out' :
  m out = (Return a, out') -> try_except m h out = (Return a, out').
Proof.
  intros H. unfold try_except. rewrite H. reflexivity.
Qed.

(** *** Numbers *)

Lemma Qgtb_true a b : Qgtb a b = true <-> b < a.
Proof.
  unfold Qgtb. rewrite negb_true_iff. split.
  - intros H. apply Qnot_le_lt. intros Hle.
    apply Qle_bool_iff in Hle. congruence.
  - intros H. destruct (Qle_bool a b) eqn:E; [|reflexivity].
    apply Qle_bool_iff in E. lra.
Qed.

Lemma Qgtb_false a b : Qgtb a b = false <-> a <= b.
Proof.
  unfold Qgtb. rewrite negb_false_iff. apply Qle_bool_iff.
Qed.

Lemma py_clamp_bounds lo hi x :
  lo <= hi -> lo <= py_max lo (py_min x hi) <= hi.
Proof.
  intros Hlh. unfold py_max, py_min.
  destruct (Qgtb x hi) eqn:E1.
  - destruct (Qgtb hi lo) eqn:E2.
    + split; lra.
    + apply Qgtb_false in E2. split; lra.
  - apply Qgtb_false in E1. destruct (Qgtb x lo) eqn:E2.
    + apply Qgtb_true in E2. split; lra.
    + split; lra.
Qed.

Lemma contribution_cases s h r :
  contribution s h r = 0 \/ contribution s h r = 1 # 2 \/ contribution s h r = 1.
Proof.
  unfold contribution. destruct (Qgtb r s), (Qgtb r h); auto.
Qed.

(** *** detection/service.py *)

Lemma threshold_of_style_key band m :
  In m style_keys ->
  In band ["suspicious"; "high"]%string ->
  Detection.threshold band (m +:+ "_change") = Raise (KeyError m).
Proof.
  unfold style_keys. simpl.
  intros Hm Hb.
  repeat (destruct Hm as [<- | Hm]; [ repeat (destruct Hb as [<- | Hb]; [reflexivity|]); destruct Hb |]).
  destruct Hm.
Qed.

Lemma inject_length_cons {A} (x : A) (l : list A) :
  inject_Z (Z.of_nat (length (x :: l))) == inject_Z (Z.of_nat (length l)) + 1.
Proof.
  cbn [length]. rewrite Nat2Z.inj_succ, <- Z.add_1_r, inject_Z_plus.
  reflexivity.
Qed.

Lemma realism_loop_resolved items cs acc :
  Forall2 (fun (item : string * Q) c =>
             exists s h,
               Detection.threshold "suspicious" (fst item) = Return s
               /\ Detection.threshold "high" (fst item) = Return h
               /\ c = contribution s h (snd item)) items cs ->
  exists total,
    Detection.realism_loop items acc = Return total
    /\ total == acc + Qsum cs
    /\ 0 <= Qsum cs <= inject_Z (Z.of_nat (length cs)).
Proof.
  intros H. revert acc.
  induction H as [|[k v] c items cs (s & h & Hs & Hh & ->) _ IH]; intros acc.
  - exists acc. simpl. split; [reflexivity|]. split; [ring|].
    split; apply Qle_refl.
  - cbn [fst snd] in *. cbn [Detection.realism_loop].
    rewrite Hs. cbn [rbind].
    pose proof (inject_length_cons (contribution s h v) cs) as Hlen.
    change (Qsum (contribution s h v :: cs))
      with (contribution s h v + Qsum cs).
    unfold contribution in *.
    destruct (Qgtb v s) eqn:E1.
    + destruct (IH (acc + 1)) as (total & Ht & Hsum & Hlo & Hhi).
      exists total. split; [exact Ht|]. repeat split; lra.
    + rewrite Hh. cbn [rbind]. destruct (Qgtb v h) eqn:E2.
      * destruct (IH (acc + (1 # 2))) as (total & Ht & Hsum & Hlo & Hhi).
        exists total. split; [exact Ht|]. repeat split; lra.
      * destruct (IH acc) as (total & Ht & Hsum & Hlo & Hhi).
        exists total. split; [exact Ht|]. repeat split; lra.
Qed.

(** Where every key of the rate map resolves in both threshold tables,
    the classifier returns the mean of the per-metric contributions, a
    number of [0, 1]. *)
Lemma realism_score_when_thresholds_resolve improvements time_span cs :
  improvements <> [] ->
  Forall2 (fun (item : string * Q) c =>
             exists s h,
               Detection.threshold "suspicious" (fst item) = Return s
               /\ Detection.threshold "high" (fst item) = Return h
               /\ c = contribution s h (snd item)) improvements cs ->
  exists p,
    Detection._evaluate_improvement_realism improvements time_span = Return p
    /\ p == Qsum cs / inject_Z (Z.of_nat (length cs))
    /\ 0 <= p <= 1.
Proof.
  intros Hne H.
  pose proof (Forall2_length _ _ _ H) as Hlen.
  destruct (realism_loop_resolved _ _ 0 H) as (total & Ht & Hsum & Hlo & Hhi).
  unfold Detection._evaluate_improvement_realism. rewrite Ht. cbn [rbind].
  assert (Hpos : 0 < inject_Z (Z.of_nat (length improvements))).
  { destruct improvements; [congruence|]. cbn [length].
    rewrite Nat2Z.inj_succ. change 0 with (inject_Z 0).
    rewrite <- Zlt_Qlt. lia. }
  unfold py_div.
  destruct (Qeq_bool (inject_Z (Z.of_nat (length improvements))) 0) eqn:E.
  { apply Qeq_bool_iff in E. lra. }
  cbn [rbind]. rewrite <- Hlen in *.
  set (n := inject_Z (Z.of_nat (length improvements))) in *.
  assert (Hq : total / n == Qsum cs / n) by (rewrite Hsum; field; lra).
  assert (Hb : 0 <= total / n <= 1).
  { rewrite Hq. split.
    - apply Qle_shift_div_l; lra.
    - apply Qle_shift_div_r; lra. }
  exists (py_min (py_max (total / n) 0) 1). split; [reflexivity|].
  unfold py_min, py_max.
  destruct (Qgtb 0 (total / n)) eqn:E1.
  { apply Qgtb_true in E1. lra. }
  destruct (Qgtb (total / n) 1) eqn:E2.
  { apply Qgtb_true in E2. lra. }
  split; [exact Hq | exact Hb].
Qed.

Lemma dict_set_keys {A} (d : dict A) k v k' :
  In k' (dict_keys (dict_set d k v)) -> k' = k \/ In k' (dict_keys d).
Proof.
  induction d as [|[k0 v0] d IH]; simpl.
  - intros [<-|[]]. now left.
  - destruct (String.eqb k0 k) eqn:E; simpl.
    + intros [<-|H]; right; auto.
    + intros [<-|H]; [right; now left|].
      destruct (IH H) as [->|H']; [now left | right; now right].
Qed.

Lemma improvements_loop_keys items submitted time_span acc r :
  Detection.improvements_loop items submitted time_span acc = Return r ->
  forall k, In k (dict_keys r) ->
    In k (dict_keys acc)
    \/ exists m, In m (dict_keys items) /\ k = m +:+ "_change".
Proof.
  revert acc. induction items as [|[m base] items IH]; intros acc H k Hk.
  - simpl in H. injection H as <-. now left.
  - cbn [Detection.improvements_loop] in H.
    destruct (Qgtb base 0).
    + destruct (dict_get submitted m) as [sub|e]; [|discriminate].
      cbn [rbind] in H.
      destruct (IH _ H k Hk) as [Hacc | (m' & Hm' & ->)].
      * apply dict_set_keys in Hacc as [-> | Hacc]; [|now left].
        right. exists m. split; [now left | reflexivity].
      * right. exists m'. split; [now right | reflexivity].
    + destruct (IH _ H k Hk) as [Hacc | (m' & Hm' & ->)]; [now left|].
      right. exists m'. split; [now right | reflexivity].
Qed.

(** On the rate maps that [_calculate_improvements] builds from style
    metrics the classifier never returns: the empty map divides by
    zero, any other map misses its first key in the threshold table. *)
Lemma realism_raises_on_style_rates improvements time_span :
  (forall k, In k (dict_keys improvements) ->
     exists m, In m style_keys /\ k = m +:+ "_change") ->
  is_raise (Detection._evaluate_improvement_realism improvements time_span)
  = true.
Proof.
  intros H. destruct improvements as [|[k v] rest].
  - reflexivity.
  - destruct (H k) as (m & Hm & ->); [now left|].
    unfold Detection._evaluate_improvement_realism.
    cbn [Detection.realism_loop].
    rewrite (threshold_of_style_key "suspicious" m Hm) by (now left).
    reflexivity.
Qed.

(** C1. The classifier is to give the rate of a metric the contribution
    1.0 above the suspicious threshold and to return the mean of the
    contributions. On the rate map with the single entry
    ["vocab_change": 40.0], a yearly vocabulary growth of 40 percent, it
    returns nothing: the key looked up in the threshold table is
    ["vocab"], the table spells ["vocab_growth"], and the call ends in
    [KeyError]. *)
Theorem realism_key_error_on_vocab_change :
  Detection._evaluate_improvement_realism [("vocab_change", 40)]%string 1
  = Raise (KeyError "vocab").
Proof. reflexivity. Qed.

Lemma improvements_loop_without_positive items submitted time_span acc :
  Forall (fun item : string * Q => snd item <= 0) items ->
  Detection.improvements_loop items submitted time_span acc = Return acc.
Proof.
  induction 1 as [|[m base] items Hbase _ IH]; [reflexivity|].
  cbn [Detection.improvements_loop]. cbn [snd] in Hbase.
  apply Qgtb_false in Hbase. now rewrite Hbase.
Qed.

(** The rate map is empty when no metric of the baseline has a positive
    value: [_calculate_improvements] skips such a metric, to avoid a
    division by zero. *)
Lemma improvements_without_positive_metric baseline submitted time_span :
  Forall (fun item : string * Q => snd item <= 0) baseline ->
  Detection._calculate_improvements baseline submitted time_span = Return [].
Proof. apply improvements_loop_without_positive. Qed.


Section DetectionHelpers.

Variable _calculate_percentile : string -> M Q.
Variable _calculate_grade_level : string -> M Q.
Variable _calculate_style_score : string -> M Q.
Variable _calculate_similarity : dict Q -> dict Q -> M Q.

Local Abbreviation _extract_style_metrics :=
  (Detection._extract_style_metrics _calculate_percentile
     _calculate_grade_level _calculate_style_score).
Local Abbreviation compare_essays_try :=
  (Detection.compare_essays_try _calculate_percentile _calculate_grade_level
     _calculate_style_score _calculate_similarity).
Local Abbreviation compare_essays :=
  (Detection.compare_essays _calculate_percentile _calculate_grade_level
     _calculate_style_score _calculate_similarity).

(** Whatever the helpers do, [_extract_style_metrics] returns a
    dictionary with the five style metrics. *)
Lemma extract_style_metrics_keys content out :
  exists d out',
    _extract_style_metrics content out = (Return d, out')
    /\ dict_keys d = style_keys.
Proof.
  unfold Detection._extract_style_metrics, try_except,
    Detection.extract_style_metrics_try, bind, lift, ret.
  destruct (_calculate_percentile content out) as [[p|e] o1];
    [|eexists _, _; split; reflexivity].
  destruct (_calculate_grade_level content o1) as [[g|e] o2];
    [|eexists _, _; split; reflexivity].
  destruct (py_div _ _) as [c|e];
    [|eexists _, _; split; reflexivity].
  destruct (_calculate_style_score content o2) as [[s|e] o3];
    eexists _, _; split; reflexivity.
Qed.

Lemma compare_essays_try_raises baseline submitted out :
  exists e out', compare_essays_try baseline submitted out = (Raise e, out').
Proof.
  unfold Detection.compare_essays_try, bind.
  destruct (extract_style_metrics_keys (essay_content baseline) out)
    as (bm & o1 & -> & Hbm).
  destruct (extract_style_metrics_keys (essay_content submitted) o1)
    as (sm & o2 & -> & Hsm).
  unfold lift.
  destruct (Detection._calculate_improvements bm sm _) as [imp|e] eqn:Himp;
    [|eauto].
  pose proof (realism_raises_on_style_rates imp
                (years_between submitted baseline)) as Hr.
  destruct (Detection._evaluate_improvement_realism imp _) as [p|e].
  - exfalso. enough (false = true) by discriminate. apply Hr.
    intros k Hk.
    destruct (improvements_loop_keys _ _ _ _ _ Himp k Hk)
      as [[] | (m & Hm & ->)].
    exists m. split; [|reflexivity]. rewrite <- Hbm. exact Hm.
  - eauto.
Qed.

(** As the code stands, every comparison ends in the handler. *)
Lemma compare_essays_always_fallback baseline submitted out :
  fst (compare_essays baseline submitted out)
  = Return Detection.fallback_comparison.
Proof.
  destruct (compare_essays_try_raises baseline submitted out) as (e & o & H).
  unfold Detection.compare_essays, Detection.comparison_handler.
  rewrite (try_except_handled _ _ _ _ _ _ H). reflexivity.
Qed.


(** C10. [compare_essays] never propagates an exception; whenever a step
    of its body raises, it prints the error and returns exactly the
    constants similarity_score = 0.75 and ai_probability = 0.25. *)
Theorem compare_essays_swallows_exceptions baseline submitted out :
  is_raise (fst (compare_essays baseline submitted out)) = false
  /\ forall e out',
       compare_essays_try baseline submitted out = (Raise e, out') ->
       compare_essays baseline submitted out
       = (Return {| Detection.similarity_score := 3 # 4;
                    Detection.ai_probability := 1 # 4;
                    Detection.improvements := None |},
          out' ++ ["Error comparing essays: " +:+ str_exn e]).
Proof.
  split.
  - apply try_except_never_raises.
  - intros e out' H.
    unfold Detection.compare_essays, Detection.comparison_handler.
    rewrite (try_except_handled _ _ _ _ _ _ H). reflexivity.
Qed.

End DetectionHelpers.

Lemma compare_essays_swallows_exceptions_witness :
  Detection.compare_essays
    (fun _ => missing_method "_calculate_percentile")
    (fun _ => missing_method "_calculate_grade_level")
    (fun _ => missing_method "_calculate_style_score")
    (fun _ _ => missing_method "_calculate_similarity")
    essay_one essay_two []
  = (Return Detection.fallback_comparison,
     [ "Error extracting style metrics: 'DetectionService' object has no attribute '_calculate_percentile'";
       "Error extracting style metrics: 'DetectionService' object has no attribute '_calculate_percentile'";
       "Error comparing essays: 'percentile'" ]%string).
Proof.
  apply (proj2 (compare_essays_swallows_exceptions
                  (fun _ => missing_method "_calculate_percentile")
                  (fun _ => missing_method "_calculate_grade_level")
                  (fun _ => missing_method "_calculate_style_score")
                  (fun _ _ => missing_method "_calculate_similarity")
                  essay_one essay_two [])
           (KeyError "percentile")
           [ "Error extracting style metrics: 'DetectionService' object has no attribute '_calculate_percentile'";
             "Error extracting style metrics: 'DetectionService' object has no attribute '_calculate_percentile'"
           ]%string).
  vm_compute. reflexivity.
Defined.

(** *** Dictionaries *)

Lemma dict_find_set_eq {A} (d : dict A) k v :
  dict_find (dict_set d k v) k = Some v.
Proof.
  induction d as [|[k0 v0] d IH]; simpl.
  - now rewrite String.eqb_refl.
  - destruct (String.eqb k0 k) eqn:E; simpl; rewrite E; [reflexivity | exact IH].
Qed.

Lemma dict_find_set_ne {A} (d : dict A) k v k' :
  k <> k' -> dict_find (dict_set d k v) k' = dict_find d k'.
Proof.
  intros Hne. induction d as [|[k0 v0] d IH]; simpl.
  - apply String.eqb_neq in Hne. now rewrite Hne.
  - destruct (String.eqb k0 k) eqn:E; simpl.
    + apply String.eqb_eq in E. subst k0.
      apply String.eqb_neq in Hne. now rewrite Hne.
    + destruct (String.eqb k0 k'); [reflexivity | exact IH].
Qed.

Lemma dict_find_in {A} (d : dict A) k v :
  NoDup (dict_keys d) -> In (k, v) d -> dict_find d k = Some v.
Proof.
  induction d as [|[k0 v0] d IH]; simpl; intros Hnd Hin; [contradiction|].
  apply NoDup_cons in Hnd as [Hk0 Hnd].
  destruct Hin as [[= -> ->] | Hin].
  - now rewrite String.eqb_refl.
  - destruct (String.eqb k0 k) eqn:E.
    + apply String.eqb_eq in E. subst k0. exfalso. apply Hk0.
      apply list_elem_of_In. change k with (fst (k, v)). now apply in_map.
    + now apply IH.
Qed.

Lemma string_length_append (a b : string) :
  String.length (a +:+ b) = (String.length a + String.length b)%nat.
Proof. induction a as [|c a IH]; simpl; [reflexivity | now rewrite IH]. Qed.

Lemma append_suffix_inj (a b suffix : string) :
  a +:+ suffix = b +:+ suffix -> a = b.
Proof.
  revert b. induction a as [|c a IH]; intros [|c' b] H; simpl in H.
  - reflexivity.
  - apply (f_equal String.length) in H. simpl in H.
    rewrite !string_length_append in H. simpl in H. lia.
  - apply (f_equal String.length) in H. simpl in H.
    rewrite !string_length_append in H. simpl in H. lia.
  - injection H as -> H. f_equal. now apply IH.
Qed.

(** *** Time-normalised improvements *)

(** The rate that [_calculate_improvements] stores for a change: divided
    by the time span only when the span is positive. *)
Lemma improvements_loop_preserves items submitted time_span acc r k :
  Detection.improvements_loop items submitted time_span acc = Return r ->
  (forall m, In m (dict_keys items) -> k <> m +:+ "_change") ->
  dict_find r k = dict_find acc k.
Proof.
  revert acc. induction items as [|[m base] items IH]; intros acc H Hk.
  - simpl in H. now injection H as <-.
  - cbn [Detection.improvements_loop] in H.
    assert (Hrest : forall m', In m' (dict_keys items) -> k <> m' +:+ "_change")
      by (intros m' Hm'; apply Hk; now right).
    destruct (Qgtb base 0).
    + destruct (dict_get submitted m) as [sub|e]; [|discriminate].
      cbn [rbind] in H. rewrite (IH _ H Hrest).
      apply dict_find_set_ne. intros Heq. apply (Hk m); [now left | now symmetry].
    + exact (IH _ H Hrest).
Qed.

Lemma improvements_loop_find items submitted time_span acc r m base sub :
  Detection.improvements_loop items submitted time_span acc = Return r ->
  NoDup (dict_keys items) ->
  In (m, base) items -> 0 < base -> dict_find submitted m = Some sub ->
  dict_find r (m +:+ "_change")
  = Some (if Qgtb time_span 0 then percent_change base sub / time_span
          else percent_change base sub).
Proof.
  revert acc.
  induction items as [|[m0 base0] items IH]; intros acc H Hnd Hin Hpos Hsub;
    [contradiction|].
  cbn [dict_keys map fst] in Hnd. apply NoDup_cons in Hnd as [Hm0 Hnd].
  cbn [Detection.improvements_loop] in H.
  destruct Hin as [[= -> ->] | Hin].
  - apply Qgtb_true in Hpos. rewrite Hpos in H.
    unfold dict_get in H. rewrite Hsub in H. cbn [rbind] in H.
    rewrite (improvements_loop_preserves _ _ _ _ _ _ H).
    + apply dict_find_set_eq.
    + intros m' Hm' Heq. apply append_suffix_inj in Heq. subst m'.
      apply Hm0. now apply list_elem_of_In.
  - destruct (Qgtb base0 0).
    + destruct (dict_get submitted m0) as [sub0|e]; [|discriminate].
      cbn [rbind] in H. exact (IH _ H Hnd Hin Hpos Hsub).
    + exact (IH _ H Hnd Hin Hpos Hsub).
Qed.

Lemma improvements_loop_returns items submitted time_span acc :
  (forall m, In m (dict_keys items) -> dict_mem submitted m = true) ->
  exists r, Detection.improvements_loop items submitted time_span acc = Return r.
Proof.
  revert acc. induction items as [|[m base] items IH]; intros acc Hmem.
  - eexists. reflexivity.
  - cbn [Detection.improvements_loop].
    assert (Hrest : forall m', In m' (dict_keys items) ->
                               dict_mem submitted m' = true)
      by (intros m' Hm'; apply Hmem; now right).
    destruct (Qgtb base 0); [|exact (IH _ Hrest)].
    specialize (Hmem m (or_introl eq_refl)). unfold dict_mem in Hmem.
    unfold dict_get. destruct (dict_find submitted m); [|discriminate].
    cbn [rbind]. exact (IH _ Hrest).
Qed.

(** C3, as the specification states it, fails on a resubmission of the
    same day: with the time span 0 the detection service does not reject
    the record, it returns the rate map with the change in percent. *)
Lemma degenerate_span_counterexample :
  exists rate,
    Detection._calculate_improvements
      [("vocab", 100)]%string [("vocab", 150)]%string 0
    = Return [("vocab_change", rate)]%string
    /\ rate == 50.
Proof. eexists. split; reflexivity. Qed.

(** C3, amended. For a time span that is not positive,
    [_calculate_improvements] raises no condition of its own and does
    not divide by the span: when the submitted essay has every metric of
    the baseline it returns a rate map, and the rate of every metric
    with a positive baseline value is the change in percent of that
    value. *)
Theorem nonpositive_span_keeps_percent_change baseline submitted time_span :
  time_span <= 0 ->
  NoDup (dict_keys baseline) ->
  (forall m, In m (dict_keys baseline) -> dict_mem submitted m = true) ->
  exists improvements,
    Detection._calculate_improvements baseline submitted time_span
    = Return improvements
    /\ forall m base sub,
         In (m, base) baseline -> 0 < base ->
         dict_find submitted m = Some sub ->
         dict_find improvements (m +:+ "_change")
         = Some (percent_change base sub).
Proof.
  intros Ht Hnd Hmem.
  destruct (improvements_loop_returns baseline submitted time_span [] Hmem)
    as [r Hr].
  exists r. split; [exact Hr|].
  intros m base sub Hin Hpos Hsub.
  rewrite (improvements_loop_find _ _ _ _ _ _ _ _ Hr Hnd Hin Hpos Hsub).
  apply Qgtb_false in Ht. now rewrite Ht.
Qed.

Lemma nonpositive_span_keeps_percent_change_witness :
  exists improvements,
    Detection._calculate_improvements
      [("grade_level", 8); ("vocab", 100)]%string
      [("grade_level", 9); ("vocab", 150)]%string
      (inject_Z (timedelta_days 3600%Z 0%Z) / 365)
    = Return improvements
    /\ forall m base sub,
         In (m, base) [("grade_level", 8); ("vocab", 100)]%string ->
         0 < base ->
         dict_find [("grade_level", 9); ("vocab", 150)]%string m = Some sub ->
         dict_find improvements (m +:+ "_change")
         = Some (percent_change base sub).
Proof.
  apply (nonpositive_span_keeps_percent_change
           [("grade_level", 8); ("vocab", 100)]%string
           [("grade_level", 9); ("vocab", 150)]%string
           (inject_Z (timedelta_days 3600%Z 0%Z) / 365)).
  - vm_compute. discriminate.
  - apply (bool_decide_unpack _). vm_compute. reflexivity.
  - intros m [<- | [<- | []]]; reflexivity.
Defined.

(** C4. The yearly rate of grade_level is to be the absolute change per
    year. From the baseline grade level 8.0 to 8.5 one year later the
    detection service reports 6.25, the change in percent of the
    baseline value, and not 0.5. *)
Theorem grade_level_rate_is_percent_of_baseline :
  exists rate,
    Detection._calculate_improvements
      [("grade_level", 8)]%string [("grade_level", 17 # 2)]%string 1
    = Return [("grade_level_change", rate)]%string
    /\ rate == 25 # 4
    /\ ~ rate == (17 # 2) - 8.
Proof.
  eexists. split; [reflexivity|]. split; [reflexivity|]. vm_compute. discriminate.
Qed.

(** On every input the detection service treats grade_level like the
    other metrics. *)
Lemma detection_rate_of_any_metric baseline submitted time_span r m base sub :
  Detection._calculate_improvements baseline submitted time_span = Return r ->
  NoDup (dict_keys baseline) ->
  In (m, base) baseline -> 0 < base -> 0 < time_span ->
  dict_find submitted m = Some sub ->
  dict_find r (m +:+ "_change") = Some (percent_change base sub / time_span).
Proof.
  intros Hr Hnd Hin Hpos Ht Hsub.
  rewrite (improvements_loop_find _ _ _ _ _ _ _ _ Hr Hnd Hin Hpos Hsub).
  apply Qgtb_true in Ht. now rewrite Ht.
Qed.

(** *** progress/service.py *)

(** The progress service normalises as the specification says: the
    grade level by its absolute change per year, the other metrics by
    their change in percent per year. *)
Lemma overall_improvement_rates first rest final fm lm g0 g1 v0 v1 c0 c1 s0 s1 :
  rest <> [] -> last (first :: rest) = Some final ->
  essay_metrics first = Some fm -> essay_metrics final = Some lm ->
  dict_find fm "grade_level" = Some g0 ->
  dict_find lm "grade_level" = Some g1 ->
  dict_find fm "vocabulary_size" = Some v0 ->
  dict_find lm "vocabulary_size" = Some v1 ->
  dict_find fm "sentence_complexity" = Some c0 ->
  dict_find lm "sentence_complexity" = Some c1 ->
  dict_find fm "style_fingerprint" = Some s0 ->
  dict_find lm "style_fingerprint" = Some s1 ->
  ~ years_between final first == 0 ->
  ~ v0 == 0 -> ~ c0 == 0 -> ~ s0 == 0 ->
  Progress._calculate_overall_improvement (first :: rest)
  = Return
      [ ("writing_level", (g1 - g0) / years_between final first);
        ("vocabulary", (v1 - v0) / v0 * 100 / years_between final first);
        ("complexity", (c1 - c0) / c0 * 100 / years_between final first);
        ("style", (s1 - s0) / s0 * 100 / years_between final first) ]%string.
Proof.
  intros Hrest Hlast Hfm Hlm Hg0 Hg1 Hv0 Hv1 Hc0 Hc1 Hs0 Hs1 Ht Hv Hc Hs.
  unfold Progress._calculate_overall_improvement.
  destruct rest as [|second rest]; [congruence|].
  rewrite Hlast.
  assert (Hdiv : forall a b, ~ b == 0 -> py_div a b = Return (a / b)).
  { intros a b Hb. unfold py_div. destruct (Qeq_bool b 0) eqn:E; [|reflexivity].
    apply Qeq_bool_iff in E. contradiction. }
  unfold Progress.absolute_rate, Progress.percent_rate, Progress.metric, dict_get.
  rewrite Hfm, Hlm, Hg0, Hg1, Hv0, Hv1, Hc0, Hc1, Hs0, Hs1.
  cbn [rbind]. rewrite !Hdiv by assumption. cbn [rbind].
  rewrite !Hdiv by assumption. reflexivity.
Qed.

(** On essays of the same day the progress service does divide by the
    time span, and the division raises. *)
Example overall_improvement_same_day :
  Progress._calculate_overall_improvement
    [ mkEssay "e1" "s" "" "baseline" 0%Z
        (Some [("grade_level", 8); ("vocabulary_size", 500);
               ("sentence_complexity", 2); ("style_fingerprint", 5)]%string);
      mkEssay "e2" "s" "" "submitted" 3600%Z
        (Some [("grade_level", 9); ("vocabulary_size", 550);
               ("sentence_complexity", 2); ("style_fingerprint", 5)]%string) ]
  = Raise (ZeroDivisionError "division by zero").
Proof. reflexivity. Qed.

(** *** analysis/service.py: the length of the text *)

Lemma validate_content_spec cfg content :
  Analysis._validate_content cfg content = true
  <-> (Analysis.min_words cfg <= Analysis.len (strip content)
       <= Analysis.max_words cfg)%Z.
Proof.
  unfold Analysis._validate_content. rewrite andb_true_iff, !Z.leb_le.
  reflexivity.
Qed.

(** C5, as the specification states it, fails on a text of ten
    characters: [analyze_text] raises nothing, it logs the error and
    returns the dictionary [{"error": "Invalid content length"}]. A text
    of 10001 letters, a single word, is turned down in the same way:
    both bounds count the characters of the stripped text. *)
Lemma short_text_counterexample :
  Analysis.analyze_text (tokens []) (tokens []) empty_analysis empty_analysis
    empty_analysis Analysis.default_settings "Too short." []
  = (Return (VDict [("error", VStr "Invalid content length")]%string),
     ["Error analyzing text: Invalid content length"]%string)
  /\ fst (Analysis.analyze_text (tokens []) (tokens []) empty_analysis
            empty_analysis empty_analysis Analysis.default_settings
            (letters 10001) [])
     = Return (VDict [("error", VStr "Invalid content length")]%string).
Proof. split; vm_compute; reflexivity. Qed.

Section TextAnalysis.

Variable word_tokenize : string -> M (list string).
Variable sent_tokenize : string -> M (list string).
Variable _detect_ai_content : string -> M pyval.
Variable _analyze_writing_quality : string -> M pyval.
Variable _analyze_structure : string -> M pyval.

Local Abbreviation analyze_text :=
  (Analysis.analyze_text word_tokenize sent_tokenize _detect_ai_content
     _analyze_writing_quality _analyze_structure).
Local Abbreviation analyze_text_try :=
  (Analysis.analyze_text_try word_tokenize sent_tokenize _detect_ai_content
     _analyze_writing_quality _analyze_structure).
Local Abbreviation text_analyses :=
  (Analysis.text_analyses word_tokenize sent_tokenize _detect_ai_content
     _analyze_writing_quality _analyze_structure).

(** C5, amended. [analyze_text] never raises. A text whose stripped
    length in characters is below [min_words] or above [max_words] (100
    and 10000 by default) is answered with the dictionary
    [{"error": "Invalid content length"}] and one line in the log; for a
    text within the bounds the length check raises nothing and the body
    of the function is the four analyses. *)
Theorem analyze_text_reports_invalid_length cfg text out :
  is_raise (fst (analyze_text cfg text out)) = false
  /\ (~ (Analysis.min_words cfg <= Analysis.len (strip text)
         <= Analysis.max_words cfg)%Z ->
      analyze_text cfg text out
      = (Return (VDict [("error", VStr "Invalid content length")]%string),
         out ++ ["Error analyzing text: Invalid content length"]%string))
  /\ ((Analysis.min_words cfg <= Analysis.len (strip text)
       <= Analysis.max_words cfg)%Z ->
      analyze_text_try cfg text = text_analyses text).
Proof.
  split; [apply (try_except_reports _ _ (fun e => VDict _))|]. split.
  - intros Hout. rewrite <- validate_content_spec in Hout.
    apply not_true_is_false in Hout.
    unfold Analysis.analyze_text, try_except, Analysis.analyze_text_try.
    rewrite Hout. reflexivity.
  - intros Hin. apply validate_content_spec in Hin.
    unfold Analysis.analyze_text_try. now rewrite Hin.
Qed.

End TextAnalysis.

Lemma analyze_text_reports_invalid_length_witness :
  Analysis.analyze_text (tokens []) (tokens []) empty_analysis empty_analysis
    empty_analysis Analysis.default_settings "  An essay of a few words.  " []
  = (Return (VDict [("error", VStr "Invalid content length")]%string),
     ["Error analyzing text: Invalid content length"]%string)
  /\ Analysis.analyze_text_try (tokens []) (tokens []) empty_analysis
       empty_analysis empty_analysis Analysis.default_settings (letters 120)
     = Analysis.text_analyses (tokens []) (tokens []) empty_analysis
         empty_analysis empty_analysis (letters 120).
Proof.
  split.
  - apply (analyze_text_reports_invalid_length (tokens []) (tokens [])
             empty_analysis empty_analysis empty_analysis
             Analysis.default_settings "  An essay of a few words.  " []).
    vm_compute. intros [H _]. apply H. reflexivity.
  - apply (analyze_text_reports_invalid_length (tokens []) (tokens [])
             empty_analysis empty_analysis empty_analysis
             Analysis.default_settings (letters 120) []).
    vm_compute. split; discriminate.
Defined.

(** *** analysis/service.py: readability *)

Lemma round_half_even_bounds (a b : Z) (x : Q) :
  inject_Z a <= x <= inject_Z b -> (a <= round_half_even x <= b)%Z.
Proof.
  intros [Ha Hb]. unfold round_half_even.
  pose proof (Qfloor_le x) as Hfl.
  pose proof (Qfloor_resp_le _ _ Ha) as Hfa. rewrite Qfloor_Z in Hfa.
  pose proof (Qfloor_resp_le _ _ Hb) as Hfb. rewrite Qfloor_Z in Hfb.
  assert (Hup : inject_Z (Qfloor x) < x -> (Qfloor x + 1 <= b)%Z).
  { intros Hlt. assert (inject_Z (Qfloor x) < inject_Z b) as Hzb by lra.
    rewrite <- Zlt_Qlt in Hzb. lia. }
  destruct (Qgtb (x - inject_Z (Qfloor x)) (1 # 2)) eqn:E1.
  { apply Qgtb_true in E1. split; [lia | apply Hup; lra]. }
  destruct (Qgtb (1 # 2) (x - inject_Z (Qfloor x))) eqn:E2; [lia|].
  apply Qgtb_false in E1, E2.
  destruct (Z.even (Qfloor x)); [lia|]. split; [lia | apply Hup; lra].
Qed.

Lemma py_round_one_decimal_bounds (x : Q) :
  0 <= x <= 12 -> 0 <= py_round x 1 <= 12.
Proof.
  intros [Hlo Hhi]. unfold py_round.
  change (10 ^ Z.of_nat 1)%Z with 10%Z.
  destruct (round_half_even_bounds 0 120 (x * inject_Z 10)) as [H0 H120].
  { change (inject_Z 0) with 0. change (inject_Z 120) with 120.
    change (inject_Z 10) with 10. split; lra. }
  rewrite Zle_Qle in H0, H120.
  change (inject_Z 0) with 0 in H0. change (inject_Z 120) with 120 in H120.
  change (inject_Z 10) with 10 in *.
  set (r := inject_Z (round_half_even (x * 10))) in *.
  split.
  - apply Qle_shift_div_l; lra.
  - apply Qle_shift_div_r; lra.
Qed.


Section Readability.

Variable word_tokenize : string -> M (list string).
Variable sent_tokenize : string -> M (list string).

Local Abbreviation _calculate_readability :=
  (Analysis._calculate_readability word_tokenize sent_tokenize).
Local Abbreviation _analyze_readability :=
  (Analysis._analyze_readability word_tokenize sent_tokenize).


End Readability.


(** *** student/service.py: the baseline *)

(** Sums of rationals do not depend on the order of the summands, as
    fractions and not only as numbers. *)
Lemma Qplus_comm_eq (x y : Q) : x + y = y + x.
Proof.
  destruct x as [a b], y as [c d]. unfold Qplus. cbn [Qnum Qden].
  f_equal; [ring | apply Pos.mul_comm].
Qed.

Lemma Qplus_assoc_eq (x y z : Q) : x + (y + z) = (x + y) + z.
Proof.
  destruct x as [a b], y as [c d], z as [e f]. unfold Qplus. cbn [Qnum Qden].
  f_equal; [rewrite !Pos2Z.inj_mul; ring | apply Pos.mul_assoc].
Qed.

Lemma Qplus_zero_eq (x : Q) : x + 0 = x.
Proof.
  destruct x as [a b]. unfold Qplus. cbn [Qnum Qden].
  f_equal; [ring | apply Pos.mul_1_r].
Qed.

Lemma add_metrics_swap (a b c : gmap string Q) :
  union_with (fun x y => Some (x + y)) a
    (union_with (fun x y => Some (x + y)) b c)
  = union_with (fun x y => Some (x + y)) b
      (union_with (fun x y => Some (x + y)) a c).
Proof.
  apply map_eq. intros i. rewrite !lookup_union_with.
  destruct (a !! i) as [x|], (b !! i) as [y|], (c !! i) as [z|]; cbn;
    try reflexivity.
  - f_equal. rewrite !Qplus_assoc_eq. f_equal. apply Qplus_comm_eq.
  - f_equal. apply Qplus_comm_eq.
Qed.

Lemma metric_sums_permutation (l l' : list (gmap string Q)) :
  Permutation l l' -> Student.metric_sums l = Student.metric_sums l'.
Proof.
  intros H. unfold Student.metric_sums.
  induction H as [|a l l' _ IH|a b l|l l' l'' _ IH1 _ IH2]; cbn [foldr].
  - reflexivity.
  - now rewrite IH.
  - apply add_metrics_swap.
  - now rewrite IH1.
Qed.

Lemma metric_sums_lookup (l : list (gmap string Q)) (m : string) (vs : list Q) :
  l <> [] ->
  Forall2 (fun (a : gmap string Q) v => a !! m = Some v) l vs ->
  Student.metric_sums l !! m = Some (Qsum vs).
Proof.
  intros Hne H. induction H as [|a v l vs Ha Hl IH]; [congruence|].
  unfold Student.metric_sums in *. cbn [foldr Qsum].
  rewrite lookup_union_with, Ha.
  destruct l as [|a' l].
  - inversion Hl; subst. cbn [foldr]. rewrite lookup_empty. cbn.
    now rewrite Qplus_zero_eq.
  - rewrite IH by discriminate. reflexivity.
Qed.

(** C7. The metrics of the baseline are the element-wise arithmetic mean
    of the metric vectors of the supplied essays, and every permutation
    of a non-empty list of essays yields the same metrics. *)
Theorem baseline_mean_is_order_independent
    (analyses analyses' : list (gmap string Q)) :
  analyses <> [] ->
  Permutation analyses analyses' ->
  Student._calculate_average_metrics analyses
  = Student._calculate_average_metrics analyses'
  /\ forall (m : string) (vs : list Q),
       Forall2 (fun (a : gmap string Q) v => a !! m = Some v) analyses vs ->
       exists averaged : gmap string Q,
         Student._calculate_average_metrics analyses = Return averaged
         /\ averaged !! m
            = Some (Qsum vs / inject_Z (Z.of_nat (length analyses))).
Proof.
  intros Hne Hperm. split.
  - unfold Student._calculate_average_metrics.
    rewrite (metric_sums_permutation _ _ Hperm).
    rewrite (Permutation_length Hperm).
    destruct analyses as [|a l]; [congruence|].
    destruct analyses' as [|a' l']; [|reflexivity].
    apply Permutation_length in Hperm. discriminate.
  - intros m vs Hvs.
    unfold Student._calculate_average_metrics.
    destruct analyses as [|a l] eqn:E; [congruence|]. rewrite <- E in *.
    eexists. split; [reflexivity|].
    rewrite lookup_fmap, (metric_sums_lookup _ _ _ Hne Hvs). reflexivity.
Qed.

Lemma baseline_mean_is_order_independent_witness :
  Student._calculate_average_metrics [vector_one; vector_two; vector_three]
  = Student._calculate_average_metrics [vector_three; vector_one; vector_two]
  /\ forall (m : string) (vs : list Q),
       Forall2 (fun (a : gmap string Q) v => a !! m = Some v)
         [vector_one; vector_two; vector_three] vs ->
       exists averaged : gmap string Q,
         Student._calculate_average_metrics
           [vector_one; vector_two; vector_three] = Return averaged
         /\ averaged !! m = Some (Qsum vs / inject_Z (Z.of_nat 3)).
Proof.
  apply (baseline_mean_is_order_independent
           [vector_one; vector_two; vector_three]
           [vector_three; vector_one; vector_two]).
  - discriminate.
  - apply perm_trans with [vector_one; vector_three; vector_two].
    + apply perm_skip, perm_swap.
    + apply perm_swap.
Defined.

(** The mean of the three sample vectors: grade level 8.5, vocabulary
    size 520. *)
Example baseline_of_three_essays :
  exists averaged : gmap string Q,
    Student._calculate_average_metrics [vector_three; vector_one; vector_two]
    = Return averaged
    /\ option_Forall2 Qeq (averaged !! "grade_level"%string) (Some (17 # 2))
    /\ option_Forall2 Qeq (averaged !! "vocabulary_size"%string) (Some 520).
Proof.
  eexists. split; [reflexivity|]. split; vm_compute; constructor; reflexivity.
Qed.

(** *** Trends *)

Section Trends.

(** A [linregress] that returns the slope [slope_of x y] and the
    correlation coefficient [r_of x y] and neither raises nor prints. *)
Variable slope_of r_of : list Q -> list Q -> Q.

Local Abbreviation linregress :=
  (fun x y : list Q => ret (slope_of x y, r_of x y)).

(** The combined value that [_calculate_student_trend] stores for the
    values of one metric. *)
Local Abbreviation slope_times_r values :=
  (slope_of (arange (length values)) values
   * r_of (arange (length values)) values).

Lemma student_trend_loop_entries todo essays acc out :
  NoDup todo ->
  exists trends,
    ClassProgress.student_trend_loop linregress todo essays acc out
    = (Return trends, out)
    /\ (forall metric, In metric todo ->
          (3 <= length (metric_values metric essays))%nat ->
          dict_find trends metric
          = Some (slope_times_r (metric_values metric essays)))
    /\ (forall metric,
          ~ In metric todo \/ (length (metric_values metric essays) < 3)%nat ->
          dict_find trends metric = dict_find acc metric).
Proof.
  intros Hnd. revert acc.
  induction todo as [|m todo IH]; intros acc.
  - exists acc. split; [reflexivity|]. split; [intros ? []|reflexivity].
  - apply NoDup_cons in Hnd as [Hm Hnd]. rewrite list_elem_of_In in Hm.
    cbn [ClassProgress.student_trend_loop].
    destruct (3 <=? length (metric_values m essays))%nat eqn:E.
    + apply Nat.leb_le in E.
      unfold bind at 1. unfold ret at 1. cbn [fst snd].
      destruct (IH Hnd (dict_set acc m (slope_times_r (metric_values m essays))))
        as (trends & Hrun & Hin & Hout).
      exists trends. split; [exact Hrun|]. split.
      * intros metric [<- | Hmetric] Hlen.
        -- rewrite (Hout m (or_introl Hm)). apply dict_find_set_eq.
        -- now apply Hin.
      * intros metric Hskip.
        assert (Hne : m <> metric).
        { intros <-. destruct Hskip as [Hnot | Hlt]; [|lia].
          apply Hnot. now left. }
        rewrite Hout.
        -- now apply dict_find_set_ne.
        -- destruct Hskip as [Hnot | Hlt]; [left | now right].
           intros ?. apply Hnot. now right.
    + apply Nat.leb_gt in E.
      destruct (IH Hnd acc) as (trends & Hrun & Hin & Hout).
      exists trends. split; [exact Hrun|]. split.
      * intros metric [<- | Hmetric] Hlen; [lia | now apply Hin].
      * intros metric Hskip. apply Hout.
        destruct Hskip as [Hnot | Hlt]; [left | now right].
        intros ?. apply Hnot. now right.
Qed.

(** A [np.polyfit] that returns the line [line_of x y] and neither
    raises nor prints, and [np.mean]. *)
Variable line_of : list Q -> list Q -> Q * Q.
Variable np_mean : list Q -> Q.

Local Abbreviation np_polyfit := (fun x y : list Q => ret (line_of x y)).

(** The entry that [_analyze_trends] stores for the values of one
    metric: the slope of the line, its sign and the strength. *)
Local Abbreviation trend_entry values strength :=
  {| Student.slope := fst (line_of (arange (length values)) values);
     Student.improving :=
       Qgtb (fst (line_of (arange (length values)) values)) 0;
     Student.trend_strength := strength |}.

Lemma trend_strength_returns values :
  values <> [] ->
  exists strength,
    forall out,
      Student._calculate_trend_strength np_polyfit np_mean values out
      = (Return strength, out).
Proof.
  intros Hne. destruct values as [|v values]; [congruence|].
  eexists. intros out. reflexivity.
Qed.

Lemma trends_loop_entries todo previous new_analysis acc out :
  NoDup todo ->
  (forall m, In m todo -> dict_find new_analysis m <> None) ->
  exists trends,
    Student.trends_loop np_polyfit np_mean Student.default_settings todo
      previous new_analysis acc out
    = (Return trends, out)
    /\ (forall m, ~ In m todo -> dict_find trends m = dict_find acc m)
    /\ (forall m new_value,
          In m todo -> dict_find new_analysis m = Some new_value ->
          ((3 <= length (metric_values m previous ++ [new_value]))%nat ->
           exists strength,
             Student._calculate_trend_strength np_polyfit np_mean
               (metric_values m previous ++ [new_value]) out
             = (Return strength, out)
             /\ dict_find trends m
                = Some (trend_entry (metric_values m previous ++ [new_value])
                          strength))
          /\ ((length (metric_values m previous ++ [new_value]) < 3)%nat ->
              dict_find trends m = dict_find acc m)).
Proof.
  intros Hnd. revert acc.
  induction todo as [|m todo IH]; intros acc Hcarried.
  - exists acc. split; [reflexivity|]. split; [reflexivity | intros ? ? []].
  - apply NoDup_cons in Hnd as [Hm Hnd]. rewrite list_elem_of_In in Hm.
    assert (Hrest : forall m', In m' todo -> dict_find new_analysis m' <> None)
      by (intros m' Hm'; apply Hcarried; now right).
    destruct (dict_find new_analysis m) as [v|] eqn:Ev;
      [|exfalso; apply (Hcarried m); [now left | exact Ev]].
    cbn [Student.trends_loop].
    unfold bind at 1. unfold lift at 1, dict_get at 1. rewrite Ev.
    change (Student.min_essays_for_trend Student.default_settings) with 3%nat.
    set (values := metric_values m previous ++ [v]).
    destruct (3 <=? length values)%nat eqn:E.
    + apply Nat.leb_le in E.
      assert (Hne : values <> [])
        by (unfold values; intros H; apply app_eq_nil in H as [_ H];
            discriminate).
      destruct (trend_strength_returns values Hne) as [strength Hs].
      unfold bind at 1. unfold ret at 1. unfold bind at 1. rewrite (Hs out).
      destruct (IH Hnd (dict_set acc m (trend_entry values strength)) Hrest)
        as (trends & Hrun & Hout & Hin).
      exists trends. split; [exact Hrun|]. split.
      * intros m' Hnot.
        rewrite Hout by (intros ?; apply Hnot; now right).
        apply dict_find_set_ne. intros ->. apply Hnot. now left.
      * intros m' w [<- | Hm'] Hw.
        -- rewrite Ev in Hw. injection Hw as <-. fold values. split.
           ++ intros _. exists strength. split; [apply Hs|].
              rewrite (Hout m Hm). apply dict_find_set_eq.
           ++ intros Hlt. lia.
        -- destruct (Hin m' w Hm' Hw) as [Hge Hlt]. split; [exact Hge|].
           intros Hshort. rewrite (Hlt Hshort).
           apply dict_find_set_ne. intros ->. contradiction.
    + apply Nat.leb_gt in E.
      destruct (IH Hnd acc Hrest) as (trends & Hrun & Hout & Hin).
      exists trends. split; [exact Hrun|]. split.
      * intros m' Hnot. apply Hout. intros ?. apply Hnot. now right.
      * intros m' w [<- | Hm'] Hw.
        -- rewrite Ev in Hw. injection Hw as <-. fold values. split.
           ++ intros Hge. lia.
           ++ intros _. now apply Hout.
        -- now apply Hin.
Qed.

(** C8, amended. The two services report different things. In the class
    service, [_calculate_student_trend] stores for every tracked metric
    that at least 3 essays carry the slope that [linregress] returns
    multiplied by the correlation coefficient r that it returns, and
    leaves out every other metric without a marker. In the student
    service, [_analyze_trends] returns the marker
    [{"sufficient_data": False}] and raises nothing when there are fewer
    than 3 previous essays; with 3 or more, and a new analysis that
    carries the tracked metrics, it stores for every tracked metric
    with at least 3 values (the new one included) the slope of
    [np.polyfit] as it is, whether it is positive, and apart from them
    the strength that [_calculate_trend_strength] returns, and no entry
    for a metric with fewer values. *)
Theorem trends_of_the_two_services essays previous_essays new_analysis out :
  (exists trends,
     ClassProgress._calculate_student_trend linregress
       ClassProgress.default_settings essays out = (Return trends, out)
     /\ (forall metric,
           In metric tracked_metrics ->
           (3 <= length (metric_values metric essays))%nat ->
           dict_find trends metric
           = Some (slope_times_r (metric_values metric essays)))
     /\ (forall metric,
           ~ In metric tracked_metrics
           \/ (length (metric_values metric essays) < 3)%nat ->
           dict_find trends metric = None))
  /\ ((length previous_essays < 3)%nat ->
      Student._analyze_trends np_polyfit np_mean Student.default_settings
        previous_essays new_analysis out
      = (Return Student.InsufficientData, out))
  /\ ((3 <= length previous_essays)%nat ->
      (forall m, In m tracked_metrics -> dict_find new_analysis m <> None) ->
      exists trends,
        Student._analyze_trends np_polyfit np_mean Student.default_settings
          previous_essays new_analysis out
        = (Return (Student.Trends trends), out)
        /\ (forall m, ~ In m tracked_metrics -> dict_find trends m = None)
        /\ (forall m new_value,
              In m tracked_metrics ->
              dict_find new_analysis m = Some new_value ->
              ((3 <= length (metric_values m previous_essays ++ [new_value]))%nat ->
               exists strength,
                 Student._calculate_trend_strength np_polyfit np_mean
                   (metric_values m previous_essays ++ [new_value]) out
                 = (Return strength, out)
                 /\ dict_find trends m
                    = Some (trend_entry
                              (metric_values m previous_essays ++ [new_value])
                              strength))
              /\ ((length (metric_values m previous_essays ++ [new_value]) < 3)%nat ->
                  dict_find trends m = None))).
Proof.
  assert (Hnd : NoDup tracked_metrics)
    by (apply (bool_decide_unpack _); vm_compute; reflexivity).
  split; [|split].
  - destruct (student_trend_loop_entries tracked_metrics essays [] out Hnd)
      as (trends & Hrun & Hfound & Hskipped).
    exists trends. split; [|split; [exact Hfound | exact Hskipped]].
    unfold ClassProgress._calculate_student_trend.
    now apply try_except_returned.
  - intros Hlen. unfold Student._analyze_trends, try_except.
    cbn [Student.min_essays_for_trend Student.default_settings].
    apply Nat.ltb_lt in Hlen. rewrite Hlen. reflexivity.
  - intros Hlen Hcarried.
    destruct (trends_loop_entries tracked_metrics previous_essays new_analysis
                [] out Hnd Hcarried) as (trends & Hrun & Hout & Hin).
    exists trends. split; [|split; [exact Hout | exact Hin]].
    unfold Student._analyze_trends, try_except.
    cbn [Student.min_essays_for_trend Student.default_settings].
    apply Nat.ltb_ge in Hlen. rewrite Hlen.
    change (Student.metrics Student.default_settings) with tracked_metrics.
    unfold bind at 1. rewrite Hrun. reflexivity.
Qed.

End Trends.

Lemma trends_of_the_two_services_witness :
  (exists trends,
     ClassProgress._calculate_student_trend
       (fun x y => ret (ols_slope x y, collinear_r x y))
       ClassProgress.default_settings history [] = (Return trends, [])
     /\ dict_find trends "grade_level"
        = Some (ols_slope (arange 3) [7; 8; 9] * collinear_r (arange 3) [7; 8; 9])
     /\ dict_find trends "coherence" = None)
  /\ Student._analyze_trends (fun x y => ret (ols_line x y)) list_mean
       Student.default_settings (take 2 history) full_analysis []
     = (Return Student.InsufficientData, [])
  /\ (exists trends strength,
        Student._analyze_trends (fun x y => ret (ols_line x y)) list_mean
          Student.default_settings history full_analysis []
        = (Return (Student.Trends trends), [])
        /\ Student._calculate_trend_strength (fun x y => ret (ols_line x y))
             list_mean [7; 8; 9; 11] []
           = (Return strength, [])
        /\ dict_find trends "grade_level"
           = Some {| Student.slope := fst (ols_line (arange 4) [7; 8; 9; 11]);
                     Student.improving :=
                       Qgtb (fst (ols_line (arange 4) [7; 8; 9; 11])) 0;
                     Student.trend_strength := strength |}
        /\ dict_find trends "vocabulary_diversity" = None).
Proof.
  destruct (trends_of_the_two_services ols_slope collinear_r ols_line list_mean
              history (take 2 history) full_analysis [])
    as [(trends & Hrun & Hfound & Hskipped) [Hmarker _]].
  destruct (trends_of_the_two_services ols_slope collinear_r ols_line list_mean
              history history full_analysis [])
    as (_ & _ & Hreport).
  split; [|split].
  - exists trends. split; [exact Hrun|]. split.
    + apply Hfound; [now left | vm_compute; lia].
    + apply Hskipped. right. vm_compute. lia.
  - apply Hmarker. vm_compute. lia.
  - destruct Hreport as (report & Hrep & _ & Hentries).
    + vm_compute. lia.
    + intros m Hm. cbn in Hm.
      repeat (destruct Hm as [<- | Hm]; [discriminate|]). destruct Hm.
    + destruct (Hentries "grade_level"%string 11) as [Hge _];
        [now left | reflexivity |].
      destruct Hge as (strength & Hs & Hentry); [vm_compute; lia|].
      destruct (Hentries "vocabulary_diversity"%string (1 # 2)) as [_ Hlt];
        [right; now left | reflexivity |].
      exists report, strength. split; [exact Hrep|]. split; [exact Hs|].
      split; [exact Hentry|]. apply Hlt. vm_compute. lia.
Defined.

Lemma raw_slope_is_no_product (s s' q : Q) :
  s' == s -> ~ s == 0 -> ~ q == 1 ->
  forall r, r * r == q -> ~ s' == s * r.
Proof.
  intros Hs' Hs Hq r Hr Heq.
  assert (Hone : r == 1) by (apply (Qmult_inj_l r 1 s Hs); lra).
  apply Hq. rewrite <- Hr, Hone. ring.
Qed.

(** C8, as the specification states it, fails on both services. For two
    essays the class service returns the empty dictionary, without a
    marker. For the grade levels 7, 8, 9 and 11 the student service
    stores the slope 1.3 of the line as it is, next to the strength
    R^2 = 169/175; the product of the slope and a correlation
    coefficient r with this square is a different number. *)
Lemma trend_services_counterexample :
  ClassProgress._calculate_student_trend
    (fun x y => ret (ols_slope x y, collinear_r x y))
    ClassProgress.default_settings (take 2 history) []
  = (Return [], [])
  /\ exists trends entry r_squared,
       Student._analyze_trends (fun x y => ret (ols_line x y)) list_mean
         Student.default_settings history full_analysis []
       = (Return (Student.Trends trends), [])
       /\ dict_find trends "grade_level" = Some entry
       /\ Student.slope entry == ols_slope (arange 4) [7; 8; 9; 11]
       /\ Student.slope entry == 13 # 10
       /\ Student.trend_strength entry = Finite r_squared
       /\ r_squared == 169 # 175
       /\ forall r, r * r == r_squared ->
                    ~ Student.slope entry == (13 # 10) * r.
Proof.
  split; [vm_compute; reflexivity|].
  eexists _, _, _. split; [vm_compute; reflexivity|].
  split; [vm_compute; reflexivity|].
  split; [vm_compute; reflexivity|].
  split; [vm_compute; reflexivity|].
  split; [vm_compute; reflexivity|].
  split; [vm_compute; reflexivity|].
  apply raw_slope_is_no_product.
  - vm_compute. reflexivity.
  - intros H. vm_compute in H. discriminate.
  - intros H. vm_compute in H. discriminate.
Qed.

(** On the sample history the grade level rises by one level per essay
    on a line: slope 1, r = 1, trend 1; coherence is carried by two
    essays only and gets no trend. *)
Example trend_of_history :
  exists trends,
    run (ClassProgress._calculate_student_trend
           (fun x y => ret (ols_slope x y, collinear_r x y))
           ClassProgress.default_settings history) = Return trends
    /\ option_Forall2 Qeq (dict_find trends "grade_level") (Some 1)
    /\ dict_find trends "coherence" = None.
Proof.
  eexists. split; [vm_compute; reflexivity|].
  split; [vm_compute; constructor; reflexivity | reflexivity].
Qed.

(** *** class/service.py: the size of the class *)

(** C9, as the specification states it, fails on a class of four
    students: the class analysis returns the dictionary
    [{"error": "Insufficient students for reliable analysis"}] and
    nothing else, so no descriptive statistics per metric. *)
Lemma class_of_four_counterexample :
  sample_class_progress ["s1"; "s2"; "s3"; "s4"]%string
    ClassProgress.default_settings "class_1" None []
  = (Return (ClassProgress.ErrorReport
               "Insufficient students for reliable analysis"), [])
  /\ forall a,
       fst (sample_class_progress ["s1"; "s2"; "s3"; "s4"]%string
              ClassProgress.default_settings "class_1" None [])
       <> Return (ClassProgress.Report a).
Proof. split; [reflexivity | discriminate]. Qed.

Section ClassAnalysis.

Variable get_class : string -> M pyval.
Variable get_class_students : string -> M (list ClassProgress.student_row).
Variable get_student_essays :
  string -> option (string * string) -> M (list essay_row).
Variable get_student_baseline : string -> M (option (dict Q)).
Variable store_class_analysis : ClassProgress.analysis -> M bool.
Variable now : M string.
Variable linregress : list Q -> list Q -> M (Q * Q).
Variable np_mean np_median np_std : list Q -> Q.
Variable np_percentile : list Q -> Q -> Q.
Variable _analyze_class_distribution : list ClassProgress.progress -> M pyval.
Variable _analyze_class_trends : list ClassProgress.progress -> M pyval.
Variable _analyze_teacher_effectiveness :
  list ClassProgress.progress -> M pyval.
Variable _generate_class_recommendations :
  list ClassProgress.progress -> M pyval.

Local Abbreviation analyze_class_progress :=
  (ClassProgress.analyze_class_progress get_class get_class_students
     get_student_essays get_student_baseline store_class_analysis now
     linregress np_mean np_median np_std np_percentile
     _analyze_class_distribution _analyze_class_trends
     _analyze_teacher_effectiveness _generate_class_recommendations).

(** C9, amended. For a class that exists and has fewer students than
    [min_students] (5 by default), [analyze_class_progress] returns the
    marker [{"error": "Insufficient students for reliable analysis"}]
    and nothing else: it analyses no student, stores nothing and
    computes neither outlier nor descriptive statistics. *)
Theorem small_class_gets_error_only cfg class_id time_period out
    class_data students out1 out2 :
  get_class class_id out = (Return class_data, out1) ->
  truthy class_data = true ->
  get_class_students class_id out1 = (Return students, out2) ->
  (length students < ClassProgress.min_students cfg)%nat ->
  analyze_class_progress cfg class_id time_period out
  = (Return (ClassProgress.ErrorReport
               "Insufficient students for reliable analysis"), out2).
Proof.
  intros Hclass Htruthy Hstudents Hfew.
  apply try_except_returned.
  unfold ClassProgress.analyze_class_progress_try, bind.
  rewrite Hclass, Htruthy. cbn [negb]. rewrite Hstudents.
  apply Nat.ltb_lt in Hfew. rewrite Hfew. reflexivity.
Qed.

End ClassAnalysis.

Lemma small_class_gets_error_only_witness :
  sample_class_progress ["s1"; "s2"; "s3"; "s4"]%string
    ClassProgress.default_settings "class_1" None []
  = (Return (ClassProgress.ErrorReport
               "Insufficient students for reliable analysis"), []).
Proof.
  apply (small_class_gets_error_only stored_class
           (students_of ["s1"; "s2"; "s3"; "s4"]%string)
           stored_essays stored_baseline store_analysis fixed_clock
           (fun x y => ret (ols_slope x y, collinear_r x y))
           list_mean list_mean list_mean (fun values _ => list_mean values)
           no_findings no_findings no_findings no_findings
           ClassProgress.default_settings "class_1" None []
           (VDict [("id", VStr "class_1")]%string)
           (map ClassProgress.mkStudent ["s1"; "s2"; "s3"; "s4"]%string)
           [] []).
  - reflexivity.
  - reflexivity.
  - reflexivity.
  - vm_compute. lia.
Defined.

(** A class of five students gets the analysis with the descriptive
    statistics of the tracked metrics that its students carry. *)
Example class_of_five :
  exists a,
    run (sample_class_progress ["s1"; "s2"; "s3"; "s4"; "s5"]%string
           ClassProgress.default_settings "class_1" None)
    = Return (ClassProgress.Report a)
    /\ dict_keys (ClassProgress.analysis_metrics a)
       = ["grade_level"; "coherence"]%string.
Proof. eexists. split; vm_compute; reflexivity. Qed.

(** ** Further properties of the services *)

(** *** detection/service.py *)

Lemma dict_find_is_some {A} (d : dict A) k :
  (exists v, dict_find d k = Some v) <-> In k (dict_keys d).
Proof.
  induction d as [|[k0 v0] d IH]; simpl.
  - split; [intros [v H]; discriminate | intros []].
  - destruct (String.eqb_spec k0 k) as [->|Hne].
    + split; [now left | eauto].
    + rewrite IH. split; [now right | intros [H|H]; [contradiction | exact H]].
Qed.

Lemma threshold_is_lookup band metric :
  In band ["suspicious"; "high"]%string ->
  exists table,
    dict_keys table = threshold_keys
    /\ Detection.threshold band metric
       = dict_get table (remove_all "_change" metric).
Proof.
  intros [<- | [<- | []]]; eexists; (split; [|reflexivity]); reflexivity.
Qed.

Lemma threshold_resolves band metric :
  In band ["suspicious"; "high"]%string ->
  (exists q, Detection.threshold band metric = Return q)
  <-> In (remove_all "_change" metric) threshold_keys.
Proof.
  intros Hband.
  destruct (threshold_is_lookup band metric Hband) as (table & Hkeys & ->).
  rewrite <- Hkeys, <- dict_find_is_some. unfold dict_get.
  destruct (dict_find table _) as [v|]; split.
  - eauto.
  - eauto.
  - intros [q H]. discriminate.
  - intros [v H]. discriminate.
Qed.

Lemma threshold_missing band metric :
  In band ["suspicious"; "high"]%string ->
  ~ In (remove_all "_change" metric) threshold_keys ->
  Detection.threshold band metric
  = Raise (KeyError (remove_all "_change" metric)).
Proof.
  intros Hband Hnot.
  destruct (threshold_is_lookup band metric Hband) as (table & Hkeys & ->).
  unfold dict_get. destruct (dict_find table _) as [v|] eqn:E; [|reflexivity].
  exfalso. apply Hnot. rewrite <- Hkeys. apply dict_find_is_some. eauto.
Qed.

Lemma realism_loop_returns_inv items acc total :
  Detection.realism_loop items acc = Return total ->
  Forall (fun item : string * Q =>
            In (remove_all "_change" (fst item)) threshold_keys) items.
Proof.
  revert acc. induction items as [|[k v] items IH]; intros acc H.
  - constructor.
  - cbn [Detection.realism_loop] in H.
    destruct (Detection.threshold "suspicious" k) as [s|e] eqn:Es;
      [|discriminate].
    cbn [rbind] in H.
    assert (Hk : In (remove_all "_change" k) threshold_keys).
    { apply (threshold_resolves "suspicious"); [now left | eauto]. }
    constructor; [exact Hk|].
    destruct (Qgtb v s); [exact (IH _ H)|].
    destruct (Detection.threshold "high" k) as [h|e]; [|discriminate].
    cbn [rbind] in H. destruct (Qgtb v h); exact (IH _ H).
Qed.

Lemma rate_contributions_exist items :
  Forall (fun item : string * Q =>
            In (remove_all "_change" (fst item)) threshold_keys) items ->
  exists cs, Forall2 (fun item c => rate_contribution item = Return c) items cs.
Proof.
  induction 1 as [|[k v] items Hk _ [cs IH]].
  - exists []. constructor.
  - cbn [fst] in Hk.
    destruct (proj2 (threshold_resolves "suspicious" k (or_introl eq_refl)) Hk)
      as [s Hs].
    destruct (proj2 (threshold_resolves "high" k
                       (or_intror (or_introl eq_refl))) Hk) as [h Hh].
    exists (contribution s h v :: cs). constructor; [|exact IH].
    unfold rate_contribution. cbn [fst snd]. now rewrite Hs, Hh.
Qed.

Lemma rate_contribution_resolved items cs :
  Forall2 (fun item c => rate_contribution item = Return c) items cs ->
  Forall2 (fun (item : string * Q) c =>
             exists s h,
               Detection.threshold "suspicious" (fst item) = Return s
               /\ Detection.threshold "high" (fst item) = Return h
               /\ c = contribution s h (snd item)) items cs.
Proof.
  induction 1 as [|[k v] c items cs Hc _ IH]; constructor; [|exact IH].
  unfold rate_contribution in Hc. cbn [fst snd] in *.
  destruct (Detection.threshold "suspicious" k) as [s|e]; [|discriminate].
  destruct (Detection.threshold "high" k) as [h|e]; [|discriminate].
  cbn [rbind] in Hc. injection Hc as <-. eauto.
Qed.

Lemma realism_returns_inv improvements time_span p :
  Detection._evaluate_improvement_realism improvements time_span = Return p ->
  improvements <> []
  /\ Forall (fun item : string * Q =>
               In (remove_all "_change" (fst item)) threshold_keys)
       improvements.
Proof.
  intros H. unfold Detection._evaluate_improvement_realism in H.
  destruct (Detection.realism_loop improvements 0) as [total|e] eqn:El;
    [|discriminate].
  split; [|exact (realism_loop_returns_inv _ _ _ El)].
  intros ->. discriminate.
Qed.

Lemma realism_returns_when_resolved improvements time_span :
  improvements <> [] ->
  Forall (fun item : string * Q =>
            In (remove_all "_change" (fst item)) threshold_keys)
    improvements ->
  exists p cs,
    Detection._evaluate_improvement_realism improvements time_span = Return p
    /\ Forall2 (fun item c => rate_contribution item = Return c)
         improvements cs
    /\ p == Qsum cs / inject_Z (Z.of_nat (length improvements))
    /\ 0 <= p <= 1.
Proof.
  intros Hne Hall. destruct (rate_contributions_exist _ Hall) as [cs Hcs].
  destruct (realism_score_when_thresholds_resolve improvements time_span cs
              Hne (rate_contribution_resolved _ _ Hcs))
    as (p & Hp & Hq & Hb).
  exists p, cs. repeat split; try assumption; try apply Hb.
  now rewrite (Forall2_length _ _ _ Hcs).
Qed.

(** X1. The classifier returns a score exactly for the rate maps that
    are not empty and whose keys, once ["_change"] is removed from them,
    are keys of the threshold tables; every score it returns lies in
    [0, 1]. *)
Theorem realism_returns_iff_keys_resolve improvements time_span :
  ((exists p,
      Detection._evaluate_improvement_realism improvements time_span
      = Return p)
   <-> improvements <> []
       /\ Forall (fun item : string * Q =>
                    In (remove_all "_change" (fst item)) threshold_keys)
            improvements)
  /\ forall p,
       Detection._evaluate_improvement_realism improvements time_span
       = Return p ->
       0 <= p <= 1.
Proof.
  split.
  - split.
    + intros [p H]. exact (realism_returns_inv _ _ _ H).
    + intros [Hne Hall].
      destruct (realism_returns_when_resolved _ time_span Hne Hall)
        as (p & _ & Hp & _). eauto.
  - intros p H. destruct (realism_returns_inv _ _ _ H) as [Hne Hall].
    destruct (realism_returns_when_resolved _ time_span Hne Hall)
      as (p' & _ & Hp' & _ & _ & Hb). rewrite H in Hp'. injection Hp' as ->.
    exact Hb.
Qed.

Lemma realism_returns_iff_keys_resolve_witness :
  exists p,
    Detection._evaluate_improvement_realism
      [("vocab_growth", 40); ("style_improvement", 26);
       ("complexity_growth", 3)]%string 1
    = Return p.
Proof.
  apply (proj1 (realism_returns_iff_keys_resolve
                  [("vocab_growth", 40); ("style_improvement", 26);
                   ("complexity_growth", 3)]%string 1)).
  split; [discriminate|].
  repeat constructor; vm_compute; tauto.
Defined.

(** X2. A score that the classifier returns is the arithmetic mean of
    the contributions of the entries of the rate map: 1 for a rate above
    the suspicious threshold of its key, 1/2 for a rate above the high
    threshold only, 0 otherwise. *)
Theorem realism_score_is_mean_of_contributions improvements time_span p :
  Detection._evaluate_improvement_realism improvements time_span = Return p ->
  exists cs,
    Forall2 (fun item c => rate_contribution item = Return c) improvements cs
    /\ p == Qsum cs / inject_Z (Z.of_nat (length improvements)).
Proof.
  intros H. destruct (realism_returns_inv _ _ _ H) as [Hne Hall].
  destruct (realism_returns_when_resolved _ time_span Hne Hall)
    as (p' & cs & Hp' & Hcs & Hq & _).
  rewrite H in Hp'. injection Hp' as ->. eauto.
Qed.

Lemma realism_score_is_mean_of_contributions_witness :
  exists cs,
    Forall2 (fun item c => rate_contribution item = Return c)
      [("vocab_growth", 40); ("style_improvement", 26);
       ("complexity_growth", 3)]%string cs
    /\ 3 # 6 == Qsum cs / inject_Z (Z.of_nat 3).
Proof.
  apply (realism_score_is_mean_of_contributions
           [("vocab_growth", 40); ("style_improvement", 26);
            ("complexity_growth", 3)]%string 1 (3 # 6)).
  vm_compute. reflexivity.
Defined.

Lemma contribution_monotone s h r r' :
  h <= s -> r <= r' -> contribution s h r <= contribution s h r'.
Proof.
  intros Hhs Hr. unfold contribution.
  destruct (Qgtb r s) eqn:E1, (Qgtb r' s) eqn:E2,
           (Qgtb r h) eqn:E3, (Qgtb r' h) eqn:E4;
    try apply Qgtb_true in E1; try apply Qgtb_true in E2;
    try apply Qgtb_true in E3; try apply Qgtb_true in E4;
    try apply Qgtb_false in E1; try apply Qgtb_false in E2;
    try apply Qgtb_false in E3; try apply Qgtb_false in E4; lra.
Qed.

Lemma thresholds_ordered metric s h :
  Detection.threshold "suspicious" metric = Return s ->
  Detection.threshold "high" metric = Return h ->
  h <= s.
Proof.
  intros Hs Hh.
  assert (Hk : In (remove_all "_change" metric) threshold_keys)
    by (apply (threshold_resolves "suspicious"); [now left | eauto]).
  unfold Detection.threshold in Hs, Hh.
  revert Hs Hh Hk. generalize (remove_all "_change" metric) as x.
  intros x Hs Hh Hk. unfold threshold_keys in Hk. simpl in Hk.
  repeat (destruct Hk as [<- | Hk];
          [vm_compute in Hs, Hh; injection Hs as <-; injection Hh as <-;
           vm_compute; discriminate |]).
  destruct Hk.
Qed.

Lemma rate_contributions_monotone items items' cs cs' :
  Forall2 (fun a b : string * Q => fst a = fst b /\ snd a <= snd b)
    items items' ->
  Forall2 (fun item c => rate_contribution item = Return c) items cs ->
  Forall2 (fun item c => rate_contribution item = Return c) items' cs' ->
  Qsum cs <= Qsum cs'.
Proof.
  intros H. revert cs cs'.
  induction H as [|[k v] [k' v'] items items' [Hk Hv] _ IH];
    intros cs cs' Hcs Hcs'.
  - inversion Hcs; inversion Hcs'; subst. apply Qle_refl.
  - inversion Hcs as [|? c ? cs0 Hc Hrest]; subst.
    inversion Hcs' as [|? c' ? cs0' Hc' Hrest']; subst.
    cbn [fst snd] in Hk, Hv. subst k'.
    unfold rate_contribution in Hc, Hc'. cbn [fst snd] in Hc, Hc'.
    destruct (Detection.threshold "suspicious" k) as [s|e] eqn:Es;
      [|discriminate].
    destruct (Detection.threshold "high" k) as [h|e] eqn:Eh; [|discriminate].
    cbn [rbind] in Hc, Hc'. injection Hc as <-. injection Hc' as <-.
    pose proof (contribution_monotone s h v v'
                  (thresholds_ordered k s h Es Eh) Hv).
    pose proof (IH _ _ Hrest Hrest').
    cbn [Qsum foldr]. change (foldr Qplus 0 cs0) with (Qsum cs0).
    change (foldr Qplus 0 cs0') with (Qsum cs0'). lra.
Qed.

(** X3. Raising rates never lowers the score: when a rate map gets a
    score, every rate map with the same keys and rates that are at least
    as high gets a score that is at least as high. *)
Theorem realism_score_is_monotone improvements improvements' time_span p :
  Forall2 (fun a b : string * Q => fst a = fst b /\ snd a <= snd b)
    improvements improvements' ->
  Detection._evaluate_improvement_realism improvements time_span = Return p ->
  exists p',
    Detection._evaluate_improvement_realism improvements' time_span = Return p'
    /\ p <= p'.
Proof.
  intros Hrel H. destruct (realism_returns_inv _ _ _ H) as [Hne Hall].
  assert (Hne' : improvements' <> []).
  { intros ->. inversion Hrel. subst. congruence. }
  assert (Hall' : Forall (fun item : string * Q =>
                            In (remove_all "_change" (fst item)) threshold_keys)
                    improvements').
  { clear -Hrel Hall. induction Hrel as [|a b l l' [Hk _] _ IH];
      [constructor|].
    apply Forall_cons in Hall as [Ha Hl].
    constructor; [now rewrite <- Hk | now apply IH]. }
  destruct (realism_returns_when_resolved _ time_span Hne Hall)
    as (q & cs & Hq & Hcs & Hmean & _).
  destruct (realism_returns_when_resolved _ time_span Hne' Hall')
    as (p' & cs' & Hp' & Hcs' & Hmean' & _).
  rewrite H in Hq. injection Hq as <-.
  exists p'. split; [exact Hp'|].
  pose proof (rate_contributions_monotone _ _ _ _ Hrel Hcs Hcs') as Hsum.
  rewrite Hmean, Hmean', <- (Forall2_length _ _ _ Hrel).
  assert (Hpos : 0 < inject_Z (Z.of_nat (length improvements))).
  { destruct improvements; [congruence|]. cbn [length].
    rewrite Nat2Z.inj_succ. change 0 with (inject_Z 0).
    rewrite <- Zlt_Qlt. lia. }
  apply Qmult_le_compat_r; [exact Hsum|].
  apply Qlt_le_weak, Qinv_lt_0_compat, Hpos.
Qed.

Lemma realism_score_is_monotone_witness :
  exists p',
    Detection._evaluate_improvement_realism
      [("vocab_growth", 40); ("style_improvement", 31)]%string 1 = Return p'
    /\ 1 # 4 <= p'.
Proof.
  apply (realism_score_is_monotone
           [("vocab_growth", 26); ("style_improvement", 10)]%string
           [("vocab_growth", 40); ("style_improvement", 31)]%string 1).
  - repeat constructor; vm_compute; discriminate.
  - vm_compute. reflexivity.
Defined.

(** *** Characters of a string *)

Lemma chars_rev_onto (s acc : string) :
  String.list_ascii_of_string (string_rev_onto s acc)
  = rev (String.list_ascii_of_string s) ++ String.list_ascii_of_string acc.
Proof.
  revert acc. induction s as [|c s IH]; intros acc; simpl.
  - reflexivity.
  - rewrite IH. simpl. now rewrite <- app_assoc.
Qed.

Lemma chars_rev (s : string) :
  String.list_ascii_of_string (string_rev s)
  = rev (String.list_ascii_of_string s).
Proof. unfold string_rev. rewrite chars_rev_onto. simpl. apply app_nil_r. Qed.

Lemma lstrip_chars_head p s :
  lstrip_chars p s = EmptyString
  \/ exists c t, lstrip_chars p s = String c t /\ p c = false.
Proof.
  induction s as [|c s IH]; simpl; [now left|].
  destruct (p c) eqn:E; [exact IH|]. right. eauto.
Qed.

Lemma strip_chars_keeps_a_char p s :
  strip_chars p s <> EmptyString ->
  exists c, In c (String.list_ascii_of_string (strip_chars p s)) /\ p c = false.
Proof.
  unfold strip_chars. intros Hne.
  destruct (lstrip_chars_head p (string_rev (lstrip_chars p s)))
    as [E | (c & t & E & Hc)]; rewrite E in *.
  - exfalso. apply Hne. reflexivity.
  - exists c. split; [|exact Hc]. rewrite chars_rev. simpl.
    apply in_or_app. right. now left.
Qed.

Lemma runs_from_nonempty p s cur :
  cur <> EmptyString
  \/ (exists c, In c (String.list_ascii_of_string s) /\ p c = true) ->
  runs_from p s cur <> [].
Proof.
  revert cur. induction s as [|c s IH]; intros cur H; simpl.
  - destruct H as [H | (c & [] & _)]. destruct cur; [congruence | discriminate].
  - destruct (p c) eqn:E.
    + apply IH. left. discriminate.
    + destruct cur; [|discriminate]. apply IH. right.
      destruct H as [H | (c' & [<- | Hin] & Hc')]; [congruence | congruence |].
      eauto.
Qed.

Lemma split_whitespace_of_stripped s :
  strip s <> EmptyString -> split_whitespace (strip s) <> [].
Proof.
  intros Hne. apply runs_from_nonempty. right.
  destruct (strip_chars_keeps_a_char is_space s Hne) as (c & Hin & Hc).
  exists c. split; [exact Hin|]. now rewrite Hc.
Qed.

(** *** detection/service.py: the style metrics *)

Lemma style_sentences_have_words content :
  Forall (fun s => (1 <= length (split_whitespace s))%nat)
    (Detection.style_sentences content).
Proof.
  unfold Detection.style_sentences. apply Forall_map.
  apply Forall_forall. intros s Hs.
  apply list_elem_of_filter in Hs as [Hne _].
  pose proof (split_whitespace_of_stripped s Hne).
  destruct (split_whitespace (strip s)); [congruence | simpl; lia].
Qed.

Lemma word_counts_sum (sentences : list string) :
  Forall (fun s => (1 <= length (split_whitespace s))%nat) sentences ->
  inject_Z (Z.of_nat (length sentences))
  <= Qsum (map (fun s => inject_Z (Z.of_nat (length (split_whitespace s))))
             sentences).
Proof.
  induction 1 as [|s l Hs _ IH].
  - apply Qle_refl.
  - rewrite inject_length_cons. cbn [map Qsum foldr].
    change (foldr Qplus 0 ?l) with (Qsum l).
    assert (1 <= inject_Z (Z.of_nat (length (split_whitespace s)))).
    { change 1 with (inject_Z 1). rewrite <- Zle_Qle. lia. }
    lra.
Qed.

Lemma dict_find_some_in {A} (d : dict A) k v :
  dict_find d k = Some v -> In (k, v) d.
Proof.
  induction d as [|[k0 v0] d IH]; simpl; [discriminate|].
  destruct (String.eqb_spec k0 k) as [->|Hne].
  - intros [= ->]. now left.
  - intros H. right. now apply IH.
Qed.

Section StyleMetrics.

Variable _calculate_percentile : string -> M Q.
Variable _calculate_grade_level : string -> M Q.
Variable _calculate_style_score : string -> M Q.
Variable _calculate_similarity : dict Q -> dict Q -> M Q.

Local Abbreviation _extract_style_metrics :=
  (Detection._extract_style_metrics _calculate_percentile
     _calculate_grade_level _calculate_style_score).
Local Abbreviation compare_essays_try :=
  (Detection.compare_essays_try _calculate_percentile _calculate_grade_level
     _calculate_style_score _calculate_similarity).
Local Abbreviation compare_essays :=
  (Detection.compare_essays _calculate_percentile _calculate_grade_level
     _calculate_style_score _calculate_similarity).

Lemma extract_style_metrics_shape content out :
  exists d out' complexity,
    _extract_style_metrics content out = (Return d, out')
    /\ dict_keys d = style_keys
    /\ dict_find d "complexity" = Some complexity
    /\ 1 <= complexity.
Proof.
  unfold Detection._extract_style_metrics, try_except,
    Detection.extract_style_metrics_try, bind, lift, ret.
  assert (Hdefault : forall o : output,
            exists (d : dict Q) (out' : output) complexity,
              (Return Detection.default_style_metrics, o) = (Return d, out')
              /\ dict_keys d = style_keys
              /\ dict_find d "complexity" = Some complexity
              /\ 1 <= complexity).
  { intros o. eexists _, _, _. split; [reflexivity|].
    split; [reflexivity|]. split; [reflexivity|]. vm_compute. discriminate. }
  destruct (_calculate_percentile content out) as [[p|e] o1];
    [|apply Hdefault].
  destruct (_calculate_grade_level content o1) as [[g|e] o2];
    [|apply Hdefault].
  pose proof (word_counts_sum _ (style_sentences_have_words content)) as Hsum.
  unfold py_div.
  destruct (Qeq_bool (inject_Z (Z.of_nat (length (Detection.style_sentences content)))) 0)
    eqn:En; [apply Hdefault|].
  destruct (_calculate_style_score content o2) as [[s|e] o3];
    [|apply Hdefault].
  eexists _, _, _. split; [reflexivity|]. split; [reflexivity|].
  split; [reflexivity|].
  apply Qeq_bool_neq in En.
  assert (Hpos : 0 < inject_Z (Z.of_nat (length (Detection.style_sentences content)))).
  { assert (0 <= inject_Z (Z.of_nat (length (Detection.style_sentences content)))).
    { change 0 with (inject_Z 0). rewrite <- Zle_Qle. lia. }
    lra. }
  apply Qle_shift_div_l; [exact Hpos | lra].
Qed.

(** X4. Whatever the text and whatever its helper methods do,
    [_extract_style_metrics] raises nothing and returns a dictionary
    with exactly the metrics percentile, grade_level, vocab, complexity
    and style, in which the complexity, the mean number of words per
    sentence, is at least 1. *)
Theorem extract_style_metrics_is_total content out :
  exists d out',
    _extract_style_metrics content out = (Return d, out')
    /\ dict_keys d = ["percentile"; "grade_level"; "vocab"; "complexity";
                      "style"]%string
    /\ exists complexity,
         dict_find d "complexity" = Some complexity /\ 1 <= complexity.
Proof.
  destruct (extract_style_metrics_shape content out)
    as (d & out' & c & H & Hkeys & Hc & Hle).
  exists d, out'. split; [exact H|]. split; [exact Hkeys|]. eauto.
Qed.

(** X5. A text without a sentence (the empty text, or punctuation and
    white space only) gets the default style metrics (percentile 50,
    grade level 8, vocabulary 100, complexity 15, style 5) when the
    percentile and the grade level are computed: the mean sentence
    length divides by zero, and the error is printed. *)
Theorem extract_style_metrics_without_sentences content out p g o1 o2 :
  Detection.style_sentences content = [] ->
  _calculate_percentile content out = (Return p, o1) ->
  _calculate_grade_level content o1 = (Return g, o2) ->
  _extract_style_metrics content out
  = (Return [ ("percentile", 50); ("grade_level", 8); ("vocab", 100);
              ("complexity", 15); ("style", 5) ]%string,
     o2 ++ ["Error extracting style metrics: division by zero"]%string).
Proof.
  intros Hs Hp Hg.
  unfold Detection._extract_style_metrics, try_except,
    Detection.extract_style_metrics_try, bind, lift.
  rewrite Hp, Hg, Hs. reflexivity.
Qed.

Lemma improvements_nonempty baseline submitted time_span r m base :
  Detection._calculate_improvements baseline submitted time_span = Return r ->
  NoDup (dict_keys baseline) ->
  dict_keys submitted = dict_keys baseline ->
  dict_find baseline m = Some base -> 0 < base ->
  r <> [].
Proof.
  intros Hr Hnd Hkeys Hm Hpos ->.
  assert (Hin : In m (dict_keys submitted)).
  { rewrite Hkeys. apply dict_find_is_some. eauto. }
  apply dict_find_is_some in Hin as [sub Hsub].
  pose proof (improvements_loop_find _ _ _ _ _ _ _ _ Hr Hnd
                (dict_find_some_in _ _ _ Hm) Hpos Hsub) as H.
  discriminate.
Qed.

Lemma compare_essays_try_key_error baseline submitted out :
  exists m out',
    In m style_keys
    /\ compare_essays_try baseline submitted out = (Raise (KeyError m), out').
Proof.
  unfold Detection.compare_essays_try, bind.
  destruct (extract_style_metrics_shape (essay_content baseline) out)
    as (bm & o1 & c & -> & Hbm & Hc & Hle).
  destruct (extract_style_metrics_shape (essay_content submitted) o1)
    as (sm & o2 & c' & -> & Hsm & _ & _).
  unfold lift.
  assert (Hnd : NoDup (dict_keys bm)).
  { rewrite Hbm. apply (bool_decide_unpack _). vm_compute. reflexivity. }
  destruct (improvements_loop_returns bm sm (years_between submitted baseline) [])
    as [imp Himp].
  { intros m Hm. unfold dict_mem.
    assert (In m (dict_keys sm)) as Hin by (rewrite Hsm, <- Hbm; exact Hm).
    apply dict_find_is_some in Hin as [v ->]. reflexivity. }
  unfold Detection._calculate_improvements. rewrite Himp.
  assert (Hne : imp <> []).
  { apply (improvements_nonempty bm sm _ imp "complexity" c Himp Hnd);
      [congruence | exact Hc | lra]. }
  destruct imp as [|[k v] rest]; [congruence|].
  destruct (improvements_loop_keys _ _ _ _ _ Himp k (or_introl eq_refl))
    as [[] | (m & Hm & ->)].
  exists m, o2. rewrite Hbm in Hm. split; [exact Hm|].
  unfold Detection._evaluate_improvement_realism.
  cbn [Detection.realism_loop].
  rewrite (threshold_of_style_key "suspicious" m Hm) by (now left).
  reflexivity.
Qed.

(** X6. [compare_essays] never returns a computed probability: for every
    pair of essays and whatever the helper methods do, its body ends in
    the [KeyError] of a style metric, the error is printed, and the
    result is the fixed one, similarity 0.75 and probability 0.25,
    without an improvement map. *)
Theorem compare_essays_never_scores baseline submitted out :
  exists m lines,
    In m ["percentile"; "grade_level"; "vocab"; "complexity"; "style"]%string
    /\ compare_essays baseline submitted out
       = (Return {| Detection.similarity_score := 3 # 4;
                    Detection.ai_probability := 1 # 4;
                    Detection.improvements := None |},
          lines ++ ["Error comparing essays: '" +:+ m +:+ "'"]).
Proof.
  destruct (compare_essays_try_key_error baseline submitted out)
    as (m & out' & Hm & H).
  exists m, out'. split; [exact Hm|].
  unfold Detection.compare_essays, Detection.comparison_handler.
  rewrite (try_except_handled _ _ _ _ _ _ H). reflexivity.
Qed.

End StyleMetrics.

Lemma extract_style_metrics_without_sentences_witness :
  Detection._extract_style_metrics (fixed_score 60) (fixed_score 9)
    (fixed_score 4) " ?! " []
  = (Return Detection.default_style_metrics,
     ["Error extracting style metrics: division by zero"]%string).
Proof.
  apply (extract_style_metrics_without_sentences (fixed_score 60)
           (fixed_score 9) (fixed_score 4) " ?! " [] 60 9 [] []);
    reflexivity.
Defined.

(** *** detection/service.py: the rate map *)

Lemma dict_set_new_key {A} (d : dict A) k v :
  ~ In k (dict_keys d) -> dict_keys (dict_set d k v) = dict_keys d ++ [k].
Proof.
  induction d as [|[k0 v0] d IH]; simpl; intros Hnot; [reflexivity|].
  destruct (String.eqb_spec k0 k) as [->|Hne].
  - exfalso. apply Hnot. now left.
  - simpl. f_equal. apply IH. intros H. apply Hnot. now right.
Qed.

Lemma improvements_loop_key_list items submitted time_span acc r :
  Detection.improvements_loop items submitted time_span acc = Return r ->
  NoDup (dict_keys items) ->
  (forall m, In m (dict_keys items) -> ~ In (m +:+ "_change") (dict_keys acc)) ->
  dict_keys r
  = dict_keys acc ++ map (fun m => m +:+ "_change") (positive_metrics items).
Proof.
  revert acc. induction items as [|[m base] items IH]; intros acc H Hnd Hfresh.
  - simpl in H. injection H as <-. unfold positive_metrics. simpl.
    now rewrite app_nil_r.
  - cbn [dict_keys map fst] in Hnd. apply NoDup_cons in Hnd as [Hm Hnd].
    rewrite list_elem_of_In in Hm.
    cbn [Detection.improvements_loop] in H.
    unfold positive_metrics. cbn [List.filter snd].
    destruct (Qgtb base 0).
    + destruct (dict_get submitted m) as [sub|e]; [|discriminate].
      cbn [rbind] in H.
      assert (Hnew : ~ In (m +:+ "_change") (dict_keys acc))
        by (apply Hfresh; now left).
      rewrite (IH _ H Hnd).
      * rewrite (dict_set_new_key _ _ _ Hnew), <- app_assoc. reflexivity.
      * intros m' Hm' Hin. rewrite (dict_set_new_key _ _ _ Hnew) in Hin.
        apply in_app_or in Hin as [Hin | [Heq | []]].
        -- apply (Hfresh m'); [now right | exact Hin].
        -- apply append_suffix_inj in Heq. subst m'. contradiction.
    + apply (IH _ H Hnd). intros m' Hm'. apply Hfresh. now right.
Qed.

Lemma improvements_keys_are_positive_metrics_aux
    baseline submitted time_span r :
  NoDup (dict_keys baseline) ->
  Detection._calculate_improvements baseline submitted time_span = Return r ->
  dict_keys r = map (fun m => m +:+ "_change") (positive_metrics baseline).
Proof.
  intros Hnd H.
  apply (improvements_loop_key_list _ _ _ [] _ H Hnd). intros m _ [].
Qed.

(** X7. The rate map that [_calculate_improvements] returns has one
    entry for every metric of the baseline with a positive value, under
    the name of the metric followed by ["_change"] and in the order of
    the baseline; metrics whose baseline value is zero or negative are
    left out. *)
Theorem improvements_keys_are_positive_metrics
    baseline submitted time_span r :
  NoDup (dict_keys baseline) ->
  Detection._calculate_improvements baseline submitted time_span = Return r ->
  dict_keys r = map (fun m => m +:+ "_change") (positive_metrics baseline).
Proof. apply improvements_keys_are_positive_metrics_aux. Qed.

Lemma improvements_keys_are_positive_metrics_witness :
  dict_keys [("grade_level_change", 100 # 8); ("style_change", (-100) # 5)]%string
  = map (fun m => m +:+ "_change")
      (positive_metrics [("grade_level", 8); ("vocab", 0); ("style", 5)]%string).
Proof.
  apply (improvements_keys_are_positive_metrics
           [("grade_level", 8); ("vocab", 0); ("style", 5)]%string
           [("style", 4); ("grade_level", 9); ("vocab", 100)]%string 1
           [("grade_level_change", 100 # 8); ("style_change", (-100) # 5)]%string).
  - apply (bool_decide_unpack _). vm_compute. reflexivity.
  - vm_compute. reflexivity.
Defined.

Lemma improvements_entry_origin baseline submitted time_span r k v :
  NoDup (dict_keys baseline) ->
  Detection._calculate_improvements baseline submitted time_span = Return r ->
  dict_find r k = Some v ->
  exists m base sub,
    k = m +:+ "_change" /\ In (m, base) baseline /\ 0 < base
    /\ dict_find submitted m = Some sub
    /\ v = (if Qgtb time_span 0 then percent_change base sub / time_span
            else percent_change base sub).
Proof.
  intros Hnd H Hk.
  assert (Hin : In k (dict_keys r)) by (apply dict_find_is_some; eauto).
  rewrite (improvements_keys_are_positive_metrics_aux baseline submitted
             time_span r Hnd H) in Hin.
  apply in_map_iff in Hin as (m & <- & Hm).
  unfold positive_metrics in Hm. apply in_map_iff in Hm as ([m' base] & <- & Hf).
  apply filter_In in Hf as [Hin Hpos]. cbn [fst snd] in *.
  apply Qgtb_true in Hpos.
  assert (Hsub : exists sub, dict_find submitted m' = Some sub).
  { clear -H Hin Hpos. unfold Detection._calculate_improvements in H.
    revert H. generalize (@nil (string * Q)) as acc.
    induction baseline as [|[m0 b0] items IH]; intros acc H; [contradiction|].
    cbn [Detection.improvements_loop] in H.
    destruct Hin as [[= -> ->] | Hin].
    - apply Qgtb_true in Hpos. rewrite Hpos in H. unfold dict_get in H.
      destruct (dict_find submitted m') as [sub|]; [eauto | discriminate].
    - destruct (Qgtb b0 0).
      + destruct (dict_get submitted m0); [|discriminate]. cbn [rbind] in H.
        exact (IH Hin _ H).
      + exact (IH Hin _ H). }
  destruct Hsub as [sub Hsub]. exists m', base, sub.
  repeat split; try assumption.
  pose proof (improvements_loop_find _ _ _ _ _ _ _ _ H Hnd Hin Hpos Hsub) as Hf.
  congruence.
Qed.

Lemma percent_change_same base : ~ base == 0 -> percent_change base base == 0.
Proof. intros H. unfold percent_change. field. exact H. Qed.

(** X8. Comparing a metric dictionary with itself gives the rate 0 for
    every metric that has a rate, whatever the time span. *)
Theorem improvements_of_unchanged_metrics metrics time_span :
  NoDup (dict_keys metrics) ->
  exists r,
    Detection._calculate_improvements metrics metrics time_span = Return r
    /\ forall k v, dict_find r k = Some v -> v == 0.
Proof.
  intros Hnd.
  destruct (improvements_loop_returns metrics metrics time_span []) as [r Hr].
  { intros m Hm. unfold dict_mem.
    apply dict_find_is_some in Hm as [v ->]. reflexivity. }
  exists r. split; [exact Hr|]. intros k v Hk.
  destruct (improvements_entry_origin _ _ _ _ _ _ Hnd Hr Hk)
    as (m & base & sub & -> & Hin & Hpos & Hsub & ->).
  rewrite (dict_find_in _ _ _ Hnd Hin) in Hsub. injection Hsub as <-.
  assert (Hz : percent_change base base == 0)
    by (apply percent_change_same; lra).
  destruct (Qgtb time_span 0) eqn:Et; [|exact Hz].
  apply Qgtb_true in Et. rewrite Hz. field. lra.
Qed.

Lemma improvements_of_unchanged_metrics_witness :
  exists r,
    Detection._calculate_improvements
      [("grade_level", 8); ("vocab", 500)]%string
      [("grade_level", 8); ("vocab", 500)]%string (1 # 2) = Return r
    /\ forall k v, dict_find r k = Some v -> v == 0.
Proof.
  apply (improvements_of_unchanged_metrics
           [("grade_level", 8); ("vocab", 500)]%string (1 # 2)).
  apply (bool_decide_unpack _). vm_compute. reflexivity.
Defined.

Lemma improvements_loop_missing items submitted time_span acc m base :
  In (m, base) items -> 0 < base -> dict_find submitted m = None ->
  exists m',
    Detection.improvements_loop items submitted time_span acc
    = Raise (KeyError m')
    /\ In m' (dict_keys items) /\ dict_find submitted m' = None.
Proof.
  revert acc. induction items as [|[m0 b0] items IH]; intros acc Hin Hpos Hnone;
    [contradiction|].
  cbn [Detection.improvements_loop].
  destruct Hin as [[= -> ->] | Hin].
  - apply Qgtb_true in Hpos. rewrite Hpos. unfold dict_get. rewrite Hnone.
    exists m. repeat split; [now left | exact Hnone].
  - destruct (Qgtb b0 0).
    + unfold dict_get. destruct (dict_find submitted m0) as [sub|] eqn:E.
      * cbn [rbind].
        edestruct IH as (m' & Hr & Hm' & Hn); [exact Hin | exact Hpos | exact Hnone |].
        exists m'. split; [exact Hr|]. split; [now right | exact Hn].
      * exists m0. repeat split; [now left | exact E].
    + destruct (IH acc Hin Hpos Hnone) as (m' & -> & Hm' & Hn).
      exists m'. repeat split; [now right | exact Hn].
Qed.

(** X9. When the submitted dictionary lacks a metric that has a positive
    value in the baseline, [_calculate_improvements] returns no rate map
    at all: it raises the [KeyError] of a metric of the baseline that
    the submitted dictionary lacks. *)
Theorem improvements_need_every_positive_metric
    baseline submitted time_span m base :
  In (m, base) baseline -> 0 < base -> dict_find submitted m = None ->
  exists m',
    Detection._calculate_improvements baseline submitted time_span
    = Raise (KeyError m')
    /\ In m' (dict_keys baseline) /\ dict_find submitted m' = None.
Proof. apply improvements_loop_missing. Qed.

Lemma improvements_need_every_positive_metric_witness :
  exists m',
    Detection._calculate_improvements
      [("grade_level", 8); ("vocab", 500)]%string
      [("grade_level", 9)]%string 1
    = Raise (KeyError m')
    /\ In m' (dict_keys [("grade_level", 8); ("vocab", 500)]%string)
    /\ dict_find [("grade_level", 9)]%string m' = None.
Proof.
  apply (improvements_need_every_positive_metric
           [("grade_level", 8); ("vocab", 500)]%string
           [("grade_level", 9)]%string 1 "vocab" 500).
  - right. now left.
  - vm_compute. reflexivity.
  - reflexivity.
Defined.

Lemma percent_change_sign base sub :
  0 < base ->
  (base <= sub -> 0 <= percent_change base sub)
  /\ (sub <= base -> percent_change base sub <= 0).
Proof.
  intros Hbase. unfold percent_change. split; intros H.
  - assert (0 <= (sub - base) / base) by (apply Qle_shift_div_l; lra). lra.
  - assert ((sub - base) / base <= 0) by (apply Qle_shift_div_r; lra). lra.
Qed.

Lemma quotient_shrinks_with_divisor c t1 t2 :
  0 < t1 -> t1 <= t2 ->
  (0 <= c -> 0 <= c / t2 <= c / t1)
  /\ (c <= 0 -> c / t1 <= c / t2 <= 0).
Proof.
  intros H1 H12. assert (H2 : 0 < t2) by lra.
  assert (Hinv : 0 < / t2 <= / t1).
  { split; [now apply Qinv_lt_0_compat|].
    apply Qle_shift_inv_l; [exact H1|].
    assert (Hq : / t2 * t1 == t1 / t2) by (field; lra).
    rewrite Hq. apply Qle_shift_div_r; lra. }
  unfold Qdiv. split; intros Hc; split; nra.
Qed.

(** X10. For positive time spans a longer span never gives a rate of a
    larger size or of the other sign: for the same two dictionaries and
    the spans [t1 <= t2], the rate of a metric that did not fall lies
    between 0 and its rate for [t1], and the rate of a metric that did
    not rise lies between its rate for [t1] and 0. *)
Theorem longer_time_span_never_raises_rate
    baseline submitted t1 t2 r1 r2 m base sub :
  NoDup (dict_keys baseline) ->
  0 < t1 -> t1 <= t2 ->
  Detection._calculate_improvements baseline submitted t1 = Return r1 ->
  Detection._calculate_improvements baseline submitted t2 = Return r2 ->
  In (m, base) baseline -> 0 < base -> dict_find submitted m = Some sub ->
  exists rate1 rate2,
    dict_find r1 (m +:+ "_change") = Some rate1
    /\ dict_find r2 (m +:+ "_change") = Some rate2
    /\ (base <= sub -> 0 <= rate2 <= rate1)
    /\ (sub <= base -> rate1 <= rate2 <= 0).
Proof.
  intros Hnd Ht1 Ht12 H1 H2 Hin Hpos Hsub.
  assert (Ht2 : 0 < t2) by lra.
  pose proof (improvements_loop_find _ _ _ _ _ _ _ _ H1 Hnd Hin Hpos Hsub) as F1.
  pose proof (improvements_loop_find _ _ _ _ _ _ _ _ H2 Hnd Hin Hpos Hsub) as F2.
  apply Qgtb_true in Ht1 as E1. apply Qgtb_true in Ht2 as E2.
  rewrite E1 in F1. rewrite E2 in F2.
  eexists _, _. split; [exact F1|]. split; [exact F2|].
  destruct (percent_change_sign base sub Hpos) as [Hup Hdown].
  destruct (quotient_shrinks_with_divisor (percent_change base sub) t1 t2
              Ht1 Ht12) as [Hpos_rate Hneg_rate].
  split; intros H; [apply Hpos_rate, Hup, H | apply Hneg_rate, Hdown, H].
Qed.

Lemma longer_time_span_never_raises_rate_witness :
  exists rate1 rate2,
    dict_find [("vocab_change", 10000 # 500)]%string "vocab_change"
    = Some rate1
    /\ dict_find [("vocab_change", 5000 # 500)]%string "vocab_change"
       = Some rate2
    /\ (500 <= 550 -> 0 <= rate2 <= rate1)
    /\ (550 <= 500 -> rate1 <= rate2 <= 0).
Proof.
  apply (longer_time_span_never_raises_rate
           [("vocab", 500)]%string [("vocab", 550)]%string (1 # 2) 1
           [("vocab_change", 10000 # 500)]%string
           [("vocab_change", 5000 # 500)]%string "vocab" 500 550).
  - apply (bool_decide_unpack _). vm_compute. reflexivity.
  - vm_compute. reflexivity.
  - vm_compute. discriminate.
  - vm_compute. reflexivity.
  - vm_compute. reflexivity.
  - now left.
  - vm_compute. reflexivity.
  - reflexivity.
Defined.

(** *** student/service.py: progress metrics *)

Lemma progress_metrics_loop_other th todo baseline new_analysis acc k :
  ~ In k todo ->
  dict_find (StudentReport.progress_metrics_loop th todo baseline new_analysis
               acc) k
  = dict_find acc k.
Proof.
  revert acc. induction todo as [|m todo IH]; intros acc Hnot; [reflexivity|].
  cbn [StudentReport.progress_metrics_loop].
  assert (Hk : m <> k) by (intros ->; apply Hnot; now left).
  assert (Hrest : ~ In k todo) by (intros H; apply Hnot; now right).
  destruct (dict_find baseline m), (dict_find new_analysis m);
    rewrite (IH _ Hrest); try reflexivity.
  now apply dict_find_set_ne.
Qed.

Lemma progress_metrics_loop_entry th todo baseline new_analysis acc m :
  NoDup todo -> In m todo ->
  dict_find (StudentReport.progress_metrics_loop th todo baseline new_analysis
               acc) m
  = match dict_find baseline m, dict_find new_analysis m with
    | Some b, Some c =>
        Some {| StudentReport.metric_baseline := b;
                StudentReport.metric_current := c;
                StudentReport.absolute_change := c - b;
                StudentReport.relative_change :=
                  if Qeq_bool b 0 then 0 else (c - b) / b;
                StudentReport.significant_improvement :=
                  Qgtb (if Qeq_bool b 0 then 0 else (c - b) / b)
                    (StudentReport.significant_improvement_threshold th) |}
    | _, _ => dict_find acc m
    end.
Proof.
  intros Hnd. revert acc. induction todo as [|m0 todo IH]; intros acc Hin;
    [contradiction|].
  apply NoDup_cons in Hnd as [Hm0 Hnd]. rewrite list_elem_of_In in Hm0.
  cbn [StudentReport.progress_metrics_loop].
  destruct Hin as [-> | Hin].
  - destruct (dict_find baseline m) as [b|], (dict_find new_analysis m) as [c|];
      rewrite (progress_metrics_loop_other _ _ _ _ _ _ Hm0); try reflexivity.
    apply dict_find_set_eq.
  - assert (Hne : m0 <> m) by (intros ->; contradiction).
    destruct (dict_find baseline m0), (dict_find new_analysis m0);
      rewrite (IH Hnd _ Hin); try reflexivity.
    destruct (dict_find baseline m), (dict_find new_analysis m);
      try reflexivity; now apply dict_find_set_ne.
Qed.

Lemma tracked_metrics_nodup : NoDup tracked_metrics.
Proof. apply (bool_decide_unpack _). vm_compute. reflexivity. Qed.

(** X11. For a tracked metric that the baseline and the new analysis
    both carry, [_calculate_progress_metrics] records the absolute
    change and the change relative to the baseline value, the relative
    change being 0 when the baseline value is 0 (no division), and it
    marks the improvement as significant exactly when the relative
    change exceeds the threshold; a metric missing on either side gets
    no entry. *)
Theorem progress_metrics_of_tracked_metric th baseline new_analysis m :
  In m tracked_metrics ->
  (forall b c,
     dict_find baseline m = Some b -> dict_find new_analysis m = Some c ->
     exists entry,
       dict_find (StudentReport._calculate_progress_metrics
                    Student.default_settings th baseline new_analysis) m
       = Some entry
       /\ StudentReport.absolute_change entry = c - b
       /\ (b == 0 -> StudentReport.relative_change entry = 0)
       /\ (~ b == 0 -> StudentReport.relative_change entry = (c - b) / b)
       /\ (StudentReport.significant_improvement entry = true
           <-> StudentReport.significant_improvement_threshold th
               < StudentReport.relative_change entry))
  /\ (dict_find baseline m = None \/ dict_find new_analysis m = None ->
      dict_find (StudentReport._calculate_progress_metrics
                   Student.default_settings th baseline new_analysis) m
      = None).
Proof.
  intros Hin. unfold StudentReport._calculate_progress_metrics.
  cbn [Student.metrics Student.default_settings].
  rewrite (progress_metrics_loop_entry th _ baseline new_analysis [] m
             tracked_metrics_nodup Hin).
  split.
  - intros b c -> ->. eexists. split; [reflexivity|].
    cbn [StudentReport.absolute_change StudentReport.relative_change
         StudentReport.significant_improvement].
    split; [reflexivity|]. split; [|split].
    + intros Hb. apply Qeq_bool_iff in Hb. now rewrite Hb.
    + intros Hb. destruct (Qeq_bool b 0) eqn:E; [|reflexivity].
      apply Qeq_bool_iff in E. contradiction.
    + apply Qgtb_true.
  - intros [-> | ->]; [reflexivity|].
    destruct (dict_find baseline m); reflexivity.
Qed.

Lemma progress_metrics_of_tracked_metric_witness :
  (exists entry,
     dict_find (StudentReport._calculate_progress_metrics
                  Student.default_settings StudentReport.default_thresholds
                  [("grade_level", 0); ("coherence", 1 # 2)]%string
                  [("grade_level", 9); ("coherence", 1)]%string) "grade_level"
     = Some entry
     /\ StudentReport.absolute_change entry = 9 - 0
     /\ (0 == 0 -> StudentReport.relative_change entry = 0)
     /\ (~ 0 == 0 -> StudentReport.relative_change entry = (9 - 0) / 0)
     /\ (StudentReport.significant_improvement entry = true
         <-> 1 # 2 < StudentReport.relative_change entry))
  /\ dict_find (StudentReport._calculate_progress_metrics
                  Student.default_settings StudentReport.default_thresholds
                  [("grade_level", 0); ("coherence", 1 # 2)]%string
                  [("coherence", 1)]%string) "grade_level"
     = None.
Proof.
  split.
  - apply (proj1 (progress_metrics_of_tracked_metric
                    StudentReport.default_thresholds
                    [("grade_level", 0); ("coherence", 1 # 2)]%string
                    [("grade_level", 9); ("coherence", 1)]%string
                    "grade_level" (or_introl eq_refl))); reflexivity.
  - apply (proj2 (progress_metrics_of_tracked_metric
                    StudentReport.default_thresholds
                    [("grade_level", 0); ("coherence", 1 # 2)]%string
                    [("coherence", 1)]%string
                    "grade_level" (or_introl eq_refl))).
    right. reflexivity.
Defined.

(** *** student/service.py: anomalies *)

Section Anomalies.

Variable np_mean np_std : list Q -> Q.

Local Abbreviation anomalies_loop := (StudentReport.anomalies_loop np_mean np_std).
Local Abbreviation _detect_anomalies :=
  (StudentReport._detect_anomalies np_mean np_std).

Lemma anomalies_loop_other th todo baseline previous new_analysis acc k :
  ~ In k todo ->
  dict_find (anomalies_loop th todo baseline previous new_analysis acc) k
  = dict_find acc k.
Proof.
  revert acc. induction todo as [|m todo IH]; intros acc Hnot; [reflexivity|].
  cbn [StudentReport.anomalies_loop].
  assert (Hk : m <> k) by (intros ->; apply Hnot; now left).
  assert (Hrest : ~ In k todo) by (intros H; apply Hnot; now right).
  destruct (dict_find baseline m), (dict_find new_analysis m);
    try (rewrite (IH _ Hrest); reflexivity).
  destruct (metric_values m previous); rewrite (IH _ Hrest); [reflexivity|].
  destruct (Qgtb _ _); [now apply dict_find_set_ne | reflexivity].
Qed.

Lemma anomalies_loop_constant_history th todo baseline previous new_analysis
    acc m :
  NoDup todo -> 0 <= StudentReport.anomaly_threshold th ->
  np_std (metric_values m previous) == 0 ->
  dict_find (anomalies_loop th todo baseline previous new_analysis acc) m
  = dict_find acc m.
Proof.
  intros Hnd Hth Hstd. revert acc.
  induction todo as [|m0 todo IH]; intros acc; [reflexivity|].
  apply NoDup_cons in Hnd as [Hm0 Hnd]. rewrite list_elem_of_In in Hm0.
  cbn [StudentReport.anomalies_loop].
  destruct (dict_find baseline m0), (dict_find new_analysis m0);
    try apply (IH Hnd).
  destruct (metric_values m0 previous) as [|v vs] eqn:Ev; [apply (IH Hnd)|].
  rewrite (IH Hnd).
  destruct (String.eqb_spec m0 m) as [->|Hne].
  - rewrite Ev in Hstd. apply Qeq_bool_iff in Hstd. rewrite Hstd.
    assert (E : Qgtb (Qabs 0) (StudentReport.anomaly_threshold th) = false)
      by (apply Qgtb_false; exact Hth).
    now rewrite E.
  - destruct (Qgtb _ _); [now apply dict_find_set_ne | reflexivity].
Qed.

(** X12. When the baseline and the new analysis both carry a grade
    level, [_detect_anomalies] returns its dictionary without an error,
    and the dictionary has a ["grade_level_jump"] entry exactly when the
    grade level moved by more than the jump threshold (2 levels by
    default), in either direction; the entry holds the change, with the
    severity "high" for a move of more than 3 levels and "medium"
    otherwise. *)
Theorem grade_level_jump_is_reported th baseline previous new_analysis out
    new_grade baseline_grade :
  dict_find new_analysis "grade_level" = Some new_grade ->
  dict_find baseline "grade_level" = Some baseline_grade ->
  exists anomalies,
    _detect_anomalies Student.default_settings th baseline previous
      new_analysis out
    = (Return anomalies, out)
    /\ dict_find anomalies "grade_level_jump"
       = (if Qgtb (Qabs (new_grade - baseline_grade))
                  (StudentReport.grade_level_jump_threshold th)
          then Some (StudentReport.GradeJump (new_grade - baseline_grade)
                       (if Qgtb (Qabs (new_grade - baseline_grade)) 3
                        then "high"%string else "medium"%string))
          else None).
Proof.
  intros Hnew Hbase.
  unfold StudentReport._detect_anomalies, try_except,
    StudentReport.detect_anomalies_try, bind, lift, dict_get.
  rewrite Hnew, Hbase. eexists. split; [reflexivity|].
  rewrite anomalies_loop_other
    by (cbn; intros H; repeat (destruct H as [H|H]; [discriminate|]); exact H).
  destruct (Qgtb _ (StudentReport.grade_level_jump_threshold th)); reflexivity.
Qed.

(** X13. A tracked metric whose values in the previous essays have the
    standard deviation 0 is never reported as an anomaly, however far
    the new value lies from them: its z-score is set to 0. *)
Theorem constant_history_hides_anomaly th baseline previous new_analysis out m
    anomalies out' :
  In m tracked_metrics ->
  0 <= StudentReport.anomaly_threshold th ->
  np_std (metric_values m previous) == 0 ->
  _detect_anomalies Student.default_settings th baseline previous
    new_analysis out = (Return anomalies, out') ->
  dict_find anomalies m = None.
Proof.
  intros Hin Hth Hstd.
  unfold StudentReport._detect_anomalies, try_except,
    StudentReport.detect_anomalies_try, bind, lift.
  destruct (dict_get new_analysis "grade_level") as [g1|e];
    [|cbn; intros [= <- _]; reflexivity].
  destruct (dict_get baseline "grade_level") as [g0|e];
    [|cbn; intros [= <- _]; reflexivity].
  change (Student.metrics Student.default_settings) with tracked_metrics.
  remember (anomalies_loop th tracked_metrics baseline previous new_analysis _)
    as found eqn:Efound.
  cbv beta match delta [ret]. intros H. injection H as <- _. subst found.
  rewrite (anomalies_loop_constant_history th _ baseline previous new_analysis
             _ m tracked_metrics_nodup Hth Hstd).
  assert (Hne : m <> "grade_level_jump"%string).
  { intros ->. cbn in Hin.
    repeat (destruct Hin as [Hin|Hin]; [discriminate|]). exact Hin. }
  destruct (Qgtb _ (StudentReport.grade_level_jump_threshold th));
    [|reflexivity].
  cbn [dict_find].
  destruct (String.eqb_spec "grade_level_jump" m) as [E|E];
    [congruence | reflexivity].
Qed.

(** X14. When the new analysis or the baseline has no grade level,
    [_detect_anomalies] reports no anomaly at all, for no metric: it
    logs the [KeyError] and returns the empty dictionary. *)
Theorem anomalies_need_grade_level th baseline previous new_analysis out :
  dict_find new_analysis "grade_level" = None
  \/ dict_find baseline "grade_level" = None ->
  _detect_anomalies Student.default_settings th baseline previous
    new_analysis out
  = (Return [], out ++ ["Error detecting anomalies: 'grade_level'"]%string).
Proof.
  intros H.
  unfold StudentReport._detect_anomalies, try_except,
    StudentReport.detect_anomalies_try, bind, lift, dict_get.
  destruct H as [H | H].
  - rewrite H. reflexivity.
  - rewrite H. destruct (dict_find new_analysis "grade_level"); reflexivity.
Qed.

End Anomalies.

Lemma grade_level_jump_is_reported_witness :
  exists anomalies,
    StudentReport._detect_anomalies list_mean list_variance
      Student.default_settings StudentReport.default_thresholds
      [("grade_level", 8)]%string [] [("grade_level", 23 # 2)]%string []
    = (Return anomalies, [])
    /\ dict_find anomalies "grade_level_jump"
       = (if Qgtb (Qabs ((23 # 2) - 8)) 2
          then Some (StudentReport.GradeJump ((23 # 2) - 8)
                       (if Qgtb (Qabs ((23 # 2) - 8)) 3
                        then "high"%string else "medium"%string))
          else None).
Proof.
  apply (grade_level_jump_is_reported list_mean list_variance
           StudentReport.default_thresholds
           [("grade_level", 8)]%string [] [("grade_level", 23 # 2)]%string []
           (23 # 2) 8); reflexivity.
Defined.

Lemma constant_history_hides_anomaly_witness :
  dict_find [] "grade_level" = @None StudentReport.anomaly.
Proof.
  apply (constant_history_hides_anomaly list_mean list_variance
           StudentReport.default_thresholds
           [("grade_level", 8)]%string flat_history
           [("grade_level", 9)]%string [] "grade_level" [] []).
  - now left.
  - vm_compute. discriminate.
  - vm_compute. reflexivity.
  - vm_compute. reflexivity.
Defined.

Lemma anomalies_need_grade_level_witness :
  StudentReport._detect_anomalies list_mean list_variance
    Student.default_settings StudentReport.default_thresholds
    [("grade_level", 8); ("coherence", 1 # 2)]%string flat_history
    [("coherence", 9 # 10)]%string []
  = (Return [], ["Error detecting anomalies: 'grade_level'"]%string).
Proof.
  apply (anomalies_need_grade_level list_mean list_variance
           StudentReport.default_thresholds
           [("grade_level", 8); ("coherence", 1 # 2)]%string flat_history
           [("coherence", 9 # 10)]%string []).
  left. reflexivity.
Defined.

(** *** student/service.py: recommendations *)

(** X15. When the baseline and the new analysis carry the grade level,
    the vocabulary diversity and the coherence, [_generate_recommendations]
    returns without an error at most three recommendations, and none at
    all exactly when none of the three metrics fell below its baseline
    value. *)
Theorem recommendations_only_for_decline baseline new_analysis out
    g0 g1 v0 v1 c0 c1 :
  dict_find baseline "grade_level" = Some g0 ->
  dict_find new_analysis "grade_level" = Some g1 ->
  dict_find baseline "vocabulary_diversity" = Some v0 ->
  dict_find new_analysis "vocabulary_diversity" = Some v1 ->
  dict_find baseline "coherence" = Some c0 ->
  dict_find new_analysis "coherence" = Some c1 ->
  exists recommendations,
    StudentReport._generate_recommendations baseline new_analysis out
    = (Return recommendations, out)
    /\ (length recommendations <= 3)%nat
    /\ (recommendations = [] <-> g0 <= g1 /\ v0 <= v1 /\ c0 <= c1).
Proof.
  intros Hg0 Hg1 Hv0 Hv1 Hc0 Hc1.
  unfold StudentReport._generate_recommendations, try_except,
    StudentReport.generate_recommendations_try, bind, lift, dict_get.
  rewrite Hg0, Hg1, Hv0, Hv1, Hc0, Hc1. cbv beta match delta [ret].
  eexists. split; [reflexivity|].
  destruct (Qgtb 0 (g1 - g0)) eqn:Eg, (Qgtb v0 v1) eqn:Ev, (Qgtb c0 c1) eqn:Ec;
    try apply Qgtb_true in Eg; try apply Qgtb_false in Eg;
    try apply Qgtb_true in Ev; try apply Qgtb_false in Ev;
    try apply Qgtb_true in Ec; try apply Qgtb_false in Ec;
    (split; [simpl; lia|]);
    (split; [try discriminate; intros _; repeat split; lra
            | try reflexivity; intros (? & ? & ?); lra]).
Qed.

Lemma recommendations_only_for_decline_witness :
  exists recommendations,
    StudentReport._generate_recommendations
      [("grade_level", 8); ("vocabulary_diversity", 1 # 2);
       ("coherence", 7 # 10)]%string
      [("grade_level", 9); ("vocabulary_diversity", 1 # 2);
       ("coherence", 4 # 5)]%string []
    = (Return recommendations, [])
    /\ (length recommendations <= 3)%nat
    /\ (recommendations = []
        <-> 8 <= 9 /\ 1 # 2 <= 1 # 2 /\ 7 # 10 <= 4 # 5).
Proof.
  apply (recommendations_only_for_decline
           [("grade_level", 8); ("vocabulary_diversity", 1 # 2);
            ("coherence", 7 # 10)]%string
           [("grade_level", 9); ("vocabulary_diversity", 1 # 2);
            ("coherence", 4 # 5)]%string []); reflexivity.
Defined.

(** *** student/service.py: an analysis without the tracked metrics *)

Lemma progress_metrics_loop_untracked th todo baseline new_analysis acc :
  (forall m, In m todo -> dict_find new_analysis m = None) ->
  StudentReport.progress_metrics_loop th todo baseline new_analysis acc = acc.
Proof.
  revert acc. induction todo as [|m todo IH]; intros acc H; [reflexivity|].
  cbn [StudentReport.progress_metrics_loop].
  rewrite (H m (or_introl eq_refl)).
  destruct (dict_find baseline m); apply IH; intros m' Hm'; apply H; now right.
Qed.

Section UntrackedAnalysis.

Variable np_polyfit : list Q -> list Q -> M (Q * Q).
Variable np_mean np_std : list Q -> Q.

(** X16. A new analysis that carries none of the five tracked metrics
    leaves every part of the progress report empty, whatever the
    baseline and the history are: no progress metrics, the marker
    [{"sufficient_data": False}] for the trends, no anomalies and no
    recommendations; none of the four functions raises. *)
Theorem untracked_analysis_gives_empty_report th baseline previous
    new_analysis out :
  (forall m, In m tracked_metrics -> dict_find new_analysis m = None) ->
  StudentReport._calculate_progress_metrics Student.default_settings th
    baseline new_analysis = []
  /\ fst (Student._analyze_trends np_polyfit np_mean Student.default_settings
            previous new_analysis out) = Return Student.InsufficientData
  /\ fst (StudentReport._detect_anomalies np_mean np_std
            Student.default_settings th baseline previous new_analysis out)
     = Return []
  /\ fst (StudentReport._generate_recommendations baseline new_analysis out)
     = Return [].
Proof.
  intros H.
  assert (Hg : dict_find new_analysis "grade_level" = None)
    by (apply H; now left).
  split; [|split; [|split]].
  - apply progress_metrics_loop_untracked. exact H.
  - unfold Student._analyze_trends, try_except.
    destruct (length previous <? _)%nat; [reflexivity|].
    change (Student.metrics Student.default_settings) with tracked_metrics.
    unfold tracked_metrics. cbn [Student.trends_loop].
    unfold bind, lift, dict_get. rewrite Hg. reflexivity.
  - unfold StudentReport._detect_anomalies, try_except,
      StudentReport.detect_anomalies_try, bind, lift, dict_get.
    rewrite Hg. reflexivity.
  - unfold StudentReport._generate_recommendations, try_except,
      StudentReport.generate_recommendations_try, bind, lift, dict_get.
    rewrite Hg. reflexivity.
Qed.

End UntrackedAnalysis.

Lemma untracked_analysis_gives_empty_report_witness :
  StudentReport._calculate_progress_metrics Student.default_settings
    StudentReport.default_thresholds [("grade_level", 8)]%string
    [("word_count", 250)]%string = []
  /\ fst (Student._analyze_trends (fun x y => ret (ols_slope x y, 0)) list_mean
            Student.default_settings history [("word_count", 250)]%string [])
     = Return Student.InsufficientData
  /\ fst (StudentReport._detect_anomalies list_mean list_variance
            Student.default_settings StudentReport.default_thresholds
            [("grade_level", 8)]%string history [("word_count", 250)]%string [])
     = Return []
  /\ fst (StudentReport._generate_recommendations [("grade_level", 8)]%string
            [("word_count", 250)]%string [])
     = Return [].
Proof.
  apply (untracked_analysis_gives_empty_report
           (fun x y => ret (ols_slope x y, 0)) list_mean list_variance
           StudentReport.default_thresholds [("grade_level", 8)]%string
           history [("word_count", 250)]%string []).
  intros m Hm. cbn in Hm.
  repeat (destruct Hm as [<- | Hm]; [reflexivity|]). destruct Hm.
Defined.

(** *** student/service.py: the strength of a trend *)

Lemma Qsum_all_zero (l : list Q) : Forall (fun x => x == 0) l -> Qsum l == 0.
Proof.
  induction 1 as [|x l Hx _ IH]; [reflexivity|].
  cbn [Qsum foldr]. change (foldr Qplus 0 l) with (Qsum l). lra.
Qed.

Lemma length_pos_Q {A} (l : list A) :
  l <> [] -> 0 < inject_Z (Z.of_nat (length l)).
Proof.
  destruct l; [congruence|]. intros _. cbn [length].
  rewrite Nat2Z.inj_succ. change 0 with (inject_Z 0). rewrite <- Zlt_Qlt. lia.
Qed.

Section TrendStrength.

Variable np_polyfit : list Q -> list Q -> M (Q * Q).
Variable np_mean : list Q -> Q.

(** X17. When every value of the history equals the mean that [np.mean]
    computes for the values (as for the grade levels 8, 8, 8), the
    strength of the trend is not a number: whatever line [np.polyfit]
    returns, the total sum of squares is 0 and the division yields
    [nan] or an infinity, which [_calculate_trend_strength] returns
    without an error. *)
Theorem trend_strength_without_spread values z out out' :
  values <> [] ->
  Forall (fun x => x == np_mean values) values ->
  np_polyfit (arange (length values)) values out = (Return z, out') ->
  exists strength,
    Student._calculate_trend_strength np_polyfit np_mean values out
    = (Return strength, out')
    /\ (strength = NaN \/ exists negative, strength = Inf negative).
Proof.
  intros Hne Hall Hfit.
  unfold Student._calculate_trend_strength, try_except,
    Student.calculate_trend_strength_try, bind.
  rewrite Hfit. destruct values as [|x rest]; [congruence|].
  cbv beta match delta [ret].
  set (values := x :: rest) in *.
  set (y_bar := np_mean values) in *.
  assert (Htot : Qsum (map (fun x => Student.square (x - y_bar)) values) == 0).
  { apply Qsum_all_zero. apply Forall_map.
    apply (Forall_impl _ _ _ Hall). intros w Hw. cbn beta.
    unfold Student.square. rewrite Hw. ring. }
  eexists. split; [reflexivity|].
  unfold Student.one_minus_ratio. apply Qeq_bool_iff in Htot. rewrite Htot.
  match goal with
  | |- context [if ?c then NaN else _] => destruct c
  end; [left; reflexivity | right; eexists; reflexivity].
Qed.

End TrendStrength.

Lemma trend_strength_without_spread_witness :
  exists strength,
    Student._calculate_trend_strength (fun x y => ret (0, 8)) list_mean
      [8; 8; 8] []
    = (Return strength, [])
    /\ (strength = NaN \/ exists negative, strength = Inf negative).
Proof.
  apply (trend_strength_without_spread (fun x y => ret (0, 8)) list_mean
           [8; 8; 8] (0, 8) [] []).
  - discriminate.
  - repeat constructor; vm_compute; reflexivity.
  - reflexivity.
Defined.

Lemma square_nonneg (x : Q) : 0 <= Student.square x.
Proof. unfold Student.square. nra. Qed.

Lemma sum_of_squares_nonneg (c : Q) (l : list Q) :
  0 <= Qsum (map (fun x => Student.square (x - c)) l).
Proof.
  induction l as [|x l IH]; [apply Qle_refl|].
  cbn [map Qsum foldr]. change (foldr Qplus 0 ?t) with (Qsum t).
  pose proof (square_nonneg (x - c)). lra.
Qed.

Lemma sum_of_squares_zero (c : Q) (l : list Q) :
  Qsum (map (fun x => Student.square (x - c)) l) == 0 ->
  Forall (fun x => x == c) l.
Proof.
  induction l as [|x l IH]; intros H; constructor.
  - cbn [map Qsum foldr] in H. change (foldr Qplus 0 ?t) with (Qsum t) in H.
    pose proof (square_nonneg (x - c)) as Hx.
    pose proof (sum_of_squares_nonneg c l) as Hl.
    assert (Hsq : Student.square (x - c) == 0) by lra.
    unfold Student.square in Hsq.
    assert (x - c == 0) by nra. lra.
  - apply IH. cbn [map Qsum foldr] in H.
    change (foldr Qplus 0 ?t) with (Qsum t) in H.
    pose proof (square_nonneg (x - c)) as Hx.
    pose proof (sum_of_squares_nonneg c l) as Hl. lra.
Qed.

Lemma residuals_of_same_list (l : list Q) :
  Qsum (zip_with (fun v yh => Student.square (v - yh)) l l) == 0.
Proof.
  induction l as [|x l IH]; [reflexivity|].
  cbn [zip_with Qsum foldr]. change (foldr Qplus 0 ?t) with (Qsum t).
  rewrite IH. unfold Student.square. ring.
Qed.

Lemma length_arange n : length (arange n) = n.
Proof. unfold arange. now rewrite length_map, length_seq. Qed.

Section ExactLine.

Variable np_polyfit : list Q -> list Q -> M (Q * Q).
Variable np_mean : list Q -> Q.

(** X18. For values that lie exactly on a line with a slope other than
    0, and a [np.polyfit] that returns this line, the strength of the
    trend that [_calculate_trend_strength] returns is 1. *)
Theorem trend_strength_of_exact_line n slope intercept out out' :
  (2 <= n)%nat ->
  ~ slope == 0 ->
  np_polyfit (arange n) (map (fun x => slope * x + intercept) (arange n)) out
  = (Return (slope, intercept), out') ->
  exists strength,
    Student._calculate_trend_strength np_polyfit np_mean
      (map (fun x => slope * x + intercept) (arange n)) out
    = (Return (Finite strength), out')
    /\ strength == 1.
Proof.
  intros Hn Hslope Hfit.
  set (values := map (fun x => slope * x + intercept) (arange n)) in *.
  assert (Hlen : length values = n)
    by (unfold values; now rewrite length_map, length_arange).
  unfold Student._calculate_trend_strength, try_except,
    Student.calculate_trend_strength_try, bind.
  rewrite Hlen, Hfit.
  assert (Hne : values <> []).
  { intros E. rewrite E in Hlen. simpl in Hlen. lia. }
  assert (Hmatch : forall (a b : M np_float),
             match values with [] => a | _ :: _ => b end = b)
    by (intros a b; destruct values; [congruence | reflexivity]).
  rewrite Hmatch. cbv beta match delta [ret]. cbn [fst snd].
  fold values. rewrite ?Hlen.
  set (y_bar := np_mean values).
  set (ss_tot := Qsum (map (fun v => Student.square (v - y_bar)) values)).
  pose proof (residuals_of_same_list values) as Hres.
  set (ss_res := Qsum (zip_with _ values values)) in *.
  assert (Htot : ~ ss_tot == 0).
  { intros H. apply sum_of_squares_zero in H.
    destruct n as [|[|n]]; [lia | lia |].
    unfold values in H. cbn [arange seq map] in H.
    apply Forall_cons in H as [H0 H]. apply Forall_cons in H as [H1 _].
    apply Hslope. change (inject_Z (Z.of_nat 0)) with 0 in H0.
    change (inject_Z (Z.of_nat 1)) with 1 in H1. lra. }
  unfold Student.one_minus_ratio.
  destruct (Qeq_bool ss_tot 0) eqn:E; [apply Qeq_bool_iff in E; contradiction|].
  eexists. split; [reflexivity|]. rewrite Hres. field. exact Htot.
Qed.

End ExactLine.

Lemma trend_strength_of_exact_line_witness :
  exists strength,
    Student._calculate_trend_strength (fun x y => ret (1, 7)) list_mean
      (map (fun x => 1 * x + 7) (arange 3)) []
    = (Return (Finite strength), [])
    /\ strength == 1.
Proof.
  apply (trend_strength_of_exact_line (fun x y => ret (1, 7)) list_mean
           3 1 7 [] []).
  - lia.
  - vm_compute. discriminate.
  - vm_compute. reflexivity.
Defined.

(** *** student/service.py: the baseline *)

Section BaselineEssays.

Variable get_essay : string -> M (option essay_row).
Variable _analyze_text : string -> M (gmap string Q).
Variable db_set_student_baseline : string -> Student.baseline -> M bool.
Variable now : M string.

Local Abbreviation analyze :=
  (Student.analyze_baseline_essay get_essay _analyze_text).

Lemma mapM_stops_at_error {A B} (f : A -> M B) found failing rest
    out analyses out1 e out2 :
  mapM f found out = (Return analyses, out1) ->
  f failing out1 = (Raise e, out2) ->
  mapM f (found ++ failing :: rest) out = (Raise e, out2).
Proof.
  revert out analyses.
  induction found as [|a found IH]; intros out analyses Hfound Hfail.
  - cbn [mapM] in Hfound. unfold ret in Hfound.
    injection Hfound as _ <-.
    cbn [app mapM]. unfold bind at 1. rewrite Hfail. reflexivity.
  - cbn [app mapM] in *. unfold bind at 1 in Hfound. unfold bind at 1.
    destruct (f a out) as [[b|e0] o]; [|discriminate].
    unfold bind at 1 in Hfound. unfold bind at 1.
    destruct (mapM f found o) as [[bs|e0] o'] eqn:E; [|discriminate].
    unfold ret in Hfound. injection Hfound as _ <-.
    rewrite (IH o bs E Hfail). reflexivity.
Qed.

(** X19. When an essay id is not in the database, and the essays listed
    before it were found and analysed without an error,
    [set_student_baseline] sets no baseline: it logs that this essay was
    not found and returns [False]; the ids after it are not read and the
    database is not asked to store anything. *)
Theorem baseline_needs_every_essay student_id found missing rest
    out analyses out1 out2 :
  mapM analyze found out = (Return analyses, out1) ->
  get_essay missing out1 = (Return None, out2) ->
  Student.set_student_baseline get_essay _analyze_text
    db_set_student_baseline now student_id (found ++ missing :: rest) out
  = (Return false,
     out2 ++ ["Error setting baseline for student " +:+ student_id
              +:+ ": Essay not found: " +:+ missing]).
Proof.
  intros Hfound Hmissing.
  assert (Hfail : analyze missing out1
                  = (Raise (ValueError ("Essay not found: " +:+ missing)), out2))
    by (unfold Student.analyze_baseline_essay, bind; rewrite Hmissing;
        reflexivity).
  pose proof (mapM_stops_at_error analyze found missing rest out analyses out1
                _ out2 Hfound Hfail) as Hrun.
  unfold Student.set_student_baseline, try_except, Student.build_baseline.
  unfold bind at 1. unfold bind at 1. rewrite Hrun. reflexivity.
Qed.

End BaselineEssays.

Lemma baseline_needs_every_essay_witness :
  Student.set_student_baseline (fun essay_id => ret (essay_by_id essay_id))
    (fun content => ret (character_count content))
    (fun _ _ => ret true) fixed_clock "student_1"
    (["e1"%string] ++ "e9"%string :: ["e3"%string]) []
  = (Return false,
     [] ++ ["Error setting baseline for student " +:+ "student_1"
            +:+ ": Essay not found: " +:+ "e9"]).
Proof.
  apply (baseline_needs_every_essay
           (fun essay_id => ret (essay_by_id essay_id))
           (fun content => ret (character_count content))
           (fun _ _ => ret true) fixed_clock "student_1"
           ["e1"]%string "e9" ["e3"]%string []
           [character_count "First essay."] [] []).
  - reflexivity.
  - reflexivity.
Defined.

(** *** class/service.py: improvement and trends of one student *)

Lemma improvement_loop_other todo baseline current acc k :
  ~ In k todo ->
  dict_find (ClassProgress.improvement_loop todo baseline current acc) k
  = dict_find acc k.
Proof.
  revert acc. induction todo as [|m todo IH]; intros acc Hnot; [reflexivity|].
  cbn [ClassProgress.improvement_loop].
  assert (Hk : m <> k) by (intros ->; apply Hnot; now left).
  assert (Hrest : ~ In k todo) by (intros H; apply Hnot; now right).
  destruct (dict_find baseline m), (dict_find current m);
    rewrite (IH _ Hrest); try reflexivity.
  now apply dict_find_set_ne.
Qed.

Lemma improvement_loop_entry todo baseline current acc m :
  NoDup todo -> In m todo ->
  dict_find (ClassProgress.improvement_loop todo baseline current acc) m
  = match dict_find baseline m, dict_find current m with
    | Some b, Some c => Some (if Qeq_bool b 0 then 0 else (c - b) / b)
    | _, _ => dict_find acc m
    end.
Proof.
  intros Hnd. revert acc. induction todo as [|m0 todo IH]; intros acc Hin;
    [contradiction|].
  apply NoDup_cons in Hnd as [Hm0 Hnd]. rewrite list_elem_of_In in Hm0.
  cbn [ClassProgress.improvement_loop].
  destruct Hin as [-> | Hin].
  - destruct (dict_find baseline m) as [b|], (dict_find current m) as [c|];
      rewrite (improvement_loop_other _ _ _ _ _ Hm0); try reflexivity.
    apply dict_find_set_eq.
  - assert (Hne : m0 <> m) by (intros ->; contradiction).
    destruct (dict_find baseline m0), (dict_find current m0);
      rewrite (IH Hnd _ Hin); try reflexivity.
    destruct (dict_find baseline m), (dict_find current m);
      try reflexivity; now apply dict_find_set_ne.
Qed.

(** X20. The improvement that the class service computes for a tracked
    metric carried by the baseline and by the current analysis is the
    change relative to the baseline value, and 0 when the baseline value
    is 0 (no division); a metric missing on either side, and every
    metric that is not tracked, gets no entry. *)
Theorem class_improvement_of_metric baseline current m :
  (In m tracked_metrics ->
   forall b c,
     dict_find baseline m = Some b -> dict_find current m = Some c ->
     dict_find (ClassProgress._calculate_improvement
                  ClassProgress.default_settings baseline current) m
     = Some (if Qeq_bool b 0 then 0 else (c - b) / b))
  /\ (~ In m tracked_metrics
      \/ dict_find baseline m = None \/ dict_find current m = None ->
      dict_find (ClassProgress._calculate_improvement
                   ClassProgress.default_settings baseline current) m
      = None).
Proof.
  unfold ClassProgress._calculate_improvement.
  change (ClassProgress.metrics ClassProgress.default_settings)
    with tracked_metrics.
  split.
  - intros Hin b c Hb Hc.
    rewrite (improvement_loop_entry _ baseline current [] m
               tracked_metrics_nodup Hin), Hb, Hc. reflexivity.
  - intros [Hnot | Hmiss].
    + now rewrite improvement_loop_other.
    + destruct (in_dec String.string_dec m tracked_metrics) as [Hin | Hnot];
        [|now rewrite improvement_loop_other].
      rewrite (improvement_loop_entry _ baseline current [] m
                 tracked_metrics_nodup Hin).
      destruct Hmiss as [-> | ->]; [reflexivity|].
      destruct (dict_find baseline m); reflexivity.
Qed.

Lemma class_improvement_of_metric_witness :
  dict_find (ClassProgress._calculate_improvement
               ClassProgress.default_settings
               [("grade_level", 8); ("coherence", 0)]%string
               [("grade_level", 10); ("coherence", 3 # 5)]%string) "coherence"
  = Some (if Qeq_bool 0 0 then 0 else ((3 # 5) - 0) / 0)
  /\ dict_find (ClassProgress._calculate_improvement
                  ClassProgress.default_settings
                  [("grade_level", 8); ("word_count", 200)]%string
                  [("grade_level", 10); ("word_count", 300)]%string)
       "word_count"
     = None.
Proof.
  split.
  - apply (proj1 (class_improvement_of_metric
                    [("grade_level", 8); ("coherence", 0)]%string
                    [("grade_level", 10); ("coherence", 3 # 5)]%string
                    "coherence")).
    + cbn. tauto.
    + reflexivity.
    + reflexivity.
  - apply (proj2 (class_improvement_of_metric
                    [("grade_level", 8); ("word_count", 200)]%string
                    [("grade_level", 10); ("word_count", 300)]%string
                    "word_count")).
    left. cbn. intros H.
    repeat (destruct H as [H|H]; [discriminate|]). exact H.
Defined.

Section TrendFailure.

(** A [linregress] that computes or raises and does not print. *)
Variable fit : list Q -> list Q -> result (Q * Q).

Local Abbreviation linregress := (fun x y : list Q => lift (fit x y)).

Lemma student_trend_loop_failure todo essays acc out metric e :
  In metric todo ->
  (3 <= length (metric_values metric essays))%nat ->
  fit (arange (length (metric_values metric essays)))
    (metric_values metric essays) = Raise e ->
  exists e',
    ClassProgress.student_trend_loop linregress todo essays acc out
    = (Raise e', out).
Proof.
  intros Hin Hlen Hfit. revert acc.
  induction todo as [|m todo IH]; intros acc; [contradiction|].
  cbn [ClassProgress.student_trend_loop].
  destruct Hin as [-> | Hin].
  - apply Nat.leb_le in Hlen. rewrite Hlen. unfold bind, lift.
    rewrite Hfit. eauto.
  - destruct (3 <=? length (metric_values m essays))%nat; [|exact (IH Hin acc)].
    unfold bind at 1. unfold lift at 1.
    destruct (fit _ (metric_values m essays)) as [[s r]|e0]; [|eauto].
    exact (IH Hin _).
Qed.

(** X21. When [linregress] raises for one tracked metric that at least 3
    essays carry, [_calculate_student_trend] returns no trend for any
    metric, the ones computed before included: it logs the error and
    returns the empty dictionary. *)
Theorem student_trend_is_all_or_nothing essays out metric e :
  In metric tracked_metrics ->
  (3 <= length (metric_values metric essays))%nat ->
  fit (arange (length (metric_values metric essays)))
    (metric_values metric essays) = Raise e ->
  exists e',
    ClassProgress._calculate_student_trend linregress
      ClassProgress.default_settings essays out
    = (Return [],
       out ++ ["Error calculating student trend: " +:+ str_exn e']).
Proof.
  intros Hin Hlen Hfit.
  destruct (student_trend_loop_failure tracked_metrics essays [] out metric e
              Hin Hlen Hfit) as [e' Hrun].
  exists e'. unfold ClassProgress._calculate_student_trend.
  change (ClassProgress.metrics ClassProgress.default_settings)
    with tracked_metrics.
  now rewrite (try_except_handled _ _ _ _ _ _ Hrun).
Qed.

End TrendFailure.

Lemma student_trend_is_all_or_nothing_witness :
  exists e',
    ClassProgress._calculate_student_trend
      (fun x y : list Q => lift (fit_or_fail x y))
      ClassProgress.default_settings flat_history []
    = (Return [],
       [] ++ ["Error calculating student trend: " +:+ str_exn e']).
Proof.
  apply (student_trend_is_all_or_nothing fit_or_fail flat_history []
           "grade_level"
           (ValueError "Cannot calculate a linear regression")).
  - cbn. tauto.
  - vm_compute. lia.
  - reflexivity.
Defined.

(** *** class/service.py: the progress of one student *)

Section StudentProgress.

Variable get_student_essays :
  string -> option (string * string) -> M (list essay_row).
Variable get_student_baseline : string -> M (option (dict Q)).
Variable linregress : list Q -> list Q -> M (Q * Q).

Local Abbreviation student_progress :=
  (ClassProgress._analyze_student_progress get_student_essays
     get_student_baseline linregress ClassProgress.default_settings).

(** X22. [_analyze_student_progress] answers [None] without logging for
    a student with fewer than 3 essays (the baseline is not read) and
    for a student whose baseline is [None] or empty; for a student whose
    last essay has no analysis it logs the [KeyError] and answers [None]. *)
Theorem student_without_progress sid period out essays out1 :
  get_student_essays sid period out = (Return essays, out1) ->
  ((length essays < 3)%nat ->
   student_progress sid period out = (Return None, out1))
  /\ (forall baseline out2,
        (3 <= length essays)%nat ->
        get_student_baseline sid out1 = (Return baseline, out2) ->
        (baseline = None \/ baseline = Some [] ->
         student_progress sid period out = (Return None, out2))
        /\ (forall b entry essay,
              baseline = Some (entry :: b) ->
              last essays = Some essay -> row_analysis essay = None ->
              student_progress sid period out
              = (Return None,
                 out2 ++ ["Error analyzing progress for student " +:+ sid
                          +:+ ": 'analysis'"]))).
Proof.
  intros Hessays. unfold ClassProgress._analyze_student_progress.
  split.
  - intros Hlen. apply Nat.ltb_lt in Hlen.
    unfold try_except, bind at 1. rewrite Hessays.
    change (ClassProgress.min_essays_per_student
              ClassProgress.default_settings) with 3%nat.
    rewrite Hlen. reflexivity.
  - intros baseline out2 Hlen Hbase.
    assert (Hge : (length essays <? 3)%nat = false)
      by (apply Nat.ltb_ge; exact Hlen).
    split.
    + intros Hempty. unfold try_except, bind at 1. rewrite Hessays.
      change (ClassProgress.min_essays_per_student
                ClassProgress.default_settings) with 3%nat.
      rewrite Hge. unfold bind at 1. rewrite Hbase.
      destruct Hempty as [-> | ->]; reflexivity.
    + intros b entry essay -> Hlast Hrow.
      unfold try_except, bind at 1. rewrite Hessays.
      change (ClassProgress.min_essays_per_student
                ClassProgress.default_settings) with 3%nat.
      rewrite Hge. unfold bind at 1. rewrite Hbase.
      cbn [ClassProgress.dict_is_empty]. rewrite Hlast, Hrow.
      reflexivity.
Qed.

End StudentProgress.

Lemma student_without_progress_witness :
  ((length history < 3)%nat ->
   ClassProgress._analyze_student_progress stored_essays
     (fun _ => ret None) (fun x y => lift (fit_or_fail x y))
     ClassProgress.default_settings "s1" None []
   = (Return None, []))
  /\ (forall baseline out2,
        (3 <= length history)%nat ->
        (fun _ : string => ret (A := option (dict Q)) None) "s1" []
        = (Return baseline, out2) ->
        (baseline = None \/ baseline = Some [] ->
         ClassProgress._analyze_student_progress stored_essays
           (fun _ => ret None) (fun x y => lift (fit_or_fail x y))
           ClassProgress.default_settings "s1" None []
         = (Return None, out2))
        /\ (forall b entry essay,
              baseline = Some (entry :: b) ->
              last history = Some essay -> row_analysis essay = None ->
              ClassProgress._analyze_student_progress stored_essays
                (fun _ => ret None) (fun x y => lift (fit_or_fail x y))
                ClassProgress.default_settings "s1" None []
              = (Return None,
                 out2 ++ ["Error analyzing progress for student " +:+ "s1"
                          +:+ ": 'analysis'"]))).
Proof.
  apply (student_without_progress stored_essays (fun _ => ret None)
           (fun x y => lift (fit_or_fail x y)) "s1" None [] history []).
  reflexivity.
Defined.

(** *** class/service.py: the class *)

Section ClassMetrics.

Variable np_mean np_median np_std : list Q -> Q.
Variable np_percentile : list Q -> Q -> Q.

Local Abbreviation class_metrics :=
  (ClassProgress._calculate_class_metrics np_mean np_median np_std
     np_percentile ClassProgress.default_settings).

Lemma class_metrics_loop_keys cfg todo ps acc :
  NoDup todo ->
  (forall m, In m todo -> ~ In m (dict_keys acc)) ->
  dict_keys (ClassProgress.class_metrics_loop np_mean np_median np_std
               np_percentile cfg todo ps acc)
  = dict_keys acc
    ++ List.filter
         (fun metric =>
            negb (Analysis.is_empty (ClassProgress.current_values metric ps)))
         todo.
Proof.
  revert acc. induction todo as [|m todo IH]; intros acc Hnd Hfresh.
  - simpl. now rewrite app_nil_r.
  - apply NoDup_cons in Hnd as [Hm Hnd]. rewrite list_elem_of_In in Hm.
    cbn [ClassProgress.class_metrics_loop List.filter].
    destruct (ClassProgress.current_values m ps) as [|v values] eqn:Hvalues.
    + cbn [Analysis.is_empty negb]. apply (IH _ Hnd).
      intros m' Hm'. apply Hfresh. now right.
    + cbn [Analysis.is_empty negb].
      assert (Hnew : ~ In m (dict_keys acc)) by (apply Hfresh; now left).
      rewrite (IH _ Hnd).
      * rewrite (dict_set_new_key _ _ _ Hnew), <- app_assoc. reflexivity.
      * intros m' Hm' Hin. rewrite (dict_set_new_key _ _ _ Hnew) in Hin.
        apply in_app_or in Hin as [Hin | [Heq | []]].
        -- apply (Hfresh m'); [now right | exact Hin].
        -- subst m'. contradiction.
Qed.

(** X23. The class metrics have one entry for every tracked metric that
    the current analysis of at least one student carries, in the order
    of the tracked metrics, and no other entry: a metric that no student
    carries is left out instead of being given statistics of an empty
    list. *)
Theorem class_metrics_cover_carried_metrics ps :
  dict_keys (class_metrics ps) = carried_metrics ps.
Proof.
  unfold ClassProgress._calculate_class_metrics, carried_metrics.
  change (ClassProgress.metrics ClassProgress.default_settings)
    with tracked_metrics.
  rewrite class_metrics_loop_keys; [reflexivity | apply tracked_metrics_nodup |].
  intros m _ [].
Qed.

End ClassMetrics.

Section ClassReport.

Variable get_class : string -> M pyval.
Variable get_class_students : string -> M (list ClassProgress.student_row).
Variable get_student_essays :
  string -> option (string * string) -> M (list essay_row).
Variable get_student_baseline : string -> M (option (dict Q)).
Variable store_class_analysis : ClassProgress.analysis -> M bool.
Variable now : M string.
Variable linregress : list Q -> list Q -> M (Q * Q).
Variable np_mean np_median np_std : list Q -> Q.
Variable np_percentile : list Q -> Q -> Q.
Variable _analyze_class_distribution : list ClassProgress.progress -> M pyval.
Variable _analyze_class_trends : list ClassProgress.progress -> M pyval.
Variable _analyze_teacher_effectiveness :
  list ClassProgress.progress -> M pyval.
Variable _generate_class_recommendations :
  list ClassProgress.progress -> M pyval.

Local Abbreviation class_progress :=
  (ClassProgress.analyze_class_progress get_class get_class_students
     get_student_essays get_student_baseline store_class_analysis now
     linregress np_mean np_median np_std np_percentile
     _analyze_class_distribution _analyze_class_trends
     _analyze_teacher_effectiveness _generate_class_recommendations
     ClassProgress.default_settings).

(** X24. For a class that the database does not know ([get_class]
    returns [None] or another false value), [analyze_class_progress]
    returns [None], not a dictionary with an ["error"] entry, and logs
    that the class was not found; the students are not read. *)
Theorem unknown_class_gets_no_report class_id period out class_data out1 :
  get_class class_id out = (Return class_data, out1) ->
  truthy class_data = false ->
  class_progress class_id period out
  = (Return ClassProgress.NoReport,
     out1 ++ ["Error analyzing class progress for " +:+ class_id
              +:+ ": Class not found: " +:+ class_id]).
Proof.
  intros Hclass Hfalse.
  unfold ClassProgress.analyze_class_progress.
  rewrite (try_except_handled _ _ _ out
             (ValueError ("Class not found: " +:+ class_id)) out1);
    [reflexivity|].
  unfold ClassProgress.analyze_class_progress_try, bind at 1.
  rewrite Hclass, Hfalse. reflexivity.
Qed.

Local Abbreviation progress_of_students :=
  (ClassProgress.student_progress_loop get_student_essays
     get_student_baseline linregress ClassProgress.default_settings).

Lemma students_without_essays_aux students period out :
  (forall sid o,
     exists essays,
       get_student_essays sid period o = (Return essays, o)
       /\ (length essays < 3)%nat) ->
  progress_of_students students period out = (Return [], out).
Proof.
  intros Hessays. induction students as [|s students IH]; [reflexivity|].
  cbn [ClassProgress.student_progress_loop].
  destruct (Hessays (ClassProgress.student_id s) out) as (essays & Hget & Hlen).
  unfold bind at 1.
  rewrite (proj1 (student_without_progress get_student_essays
                    get_student_baseline linregress _ period out essays out
                    Hget) Hlen).
  unfold bind at 1. rewrite IH. reflexivity.
Qed.

(** X25. The minimum of 5 students is checked on the enrolled students,
    not on the students that have progress: when every student has fewer
    than 3 essays (and reading the essays logs nothing), the loop over
    the students keeps no student, however many are enrolled, and the
    class metrics computed from its result are empty. *)
Theorem students_without_essays_leave_no_metrics students period out :
  (forall sid o,
     exists essays,
       get_student_essays sid period o = (Return essays, o)
       /\ (length essays < 3)%nat) ->
  exists kept,
    progress_of_students students period out = (Return kept, out)
    /\ kept = []
    /\ ClassProgress._calculate_class_metrics np_mean np_median np_std
         np_percentile ClassProgress.default_settings kept = [].
Proof.
  intros Hessays. exists []. split; [|split; reflexivity].
  now apply students_without_essays_aux.
Qed.

End ClassReport.

Lemma unknown_class_gets_no_report_witness :
  ClassProgress.analyze_class_progress (fun _ => ret VNone)
    (students_of ["s1"; "s2"]%string)
    stored_essays stored_baseline store_analysis fixed_clock
    (fun x y => ret (ols_slope x y, collinear_r x y))
    list_mean list_mean list_mean (fun values _ => list_mean values)
    no_findings no_findings no_findings no_findings
    ClassProgress.default_settings "class_9" None []
  = (Return ClassProgress.NoReport,
     [] ++ ["Error analyzing class progress for " +:+ "class_9"
            +:+ ": Class not found: " +:+ "class_9"]).
Proof.
  apply (unknown_class_gets_no_report (fun _ => ret VNone)
           (students_of ["s1"; "s2"]%string)
           stored_essays stored_baseline store_analysis fixed_clock
           (fun x y => ret (ols_slope x y, collinear_r x y))
           list_mean list_mean list_mean (fun values _ => list_mean values)
           no_findings no_findings no_findings no_findings
           "class_9" None [] VNone []).
  - reflexivity.
  - reflexivity.
Defined.

Lemma students_without_essays_leave_no_metrics_witness :
  exists kept,
    ClassProgress.student_progress_loop (fun _ _ => ret []) stored_baseline
      (fun x y => ret (ols_slope x y, collinear_r x y))
      ClassProgress.default_settings
      (map ClassProgress.mkStudent ["s1"; "s2"; "s3"; "s4"; "s5"; "s6"]%string)
      None []
    = (Return kept, [])
    /\ kept = []
    /\ ClassProgress._calculate_class_metrics list_mean list_mean list_mean
         (fun values _ => list_mean values) ClassProgress.default_settings
         kept = [].
Proof.
  apply (students_without_essays_leave_no_metrics (fun _ _ => ret [])
           stored_baseline
           (fun x y => ret (ols_slope x y, collinear_r x y))
           list_mean list_mean list_mean (fun values _ => list_mean values)
           (map ClassProgress.mkStudent
              ["s1"; "s2"; "s3"; "s4"; "s5"; "s6"]%string)
           None []).
  intros sid o. exists []. split; [reflexivity | simpl; lia].
Defined.

(** *** class/service.py: engagement *)

Lemma Qsum_between lo hi (values : list Q) :
  Forall (fun v => lo <= v <= hi) values ->
  inject_Z (Z.of_nat (length values)) * lo <= Qsum values
  <= inject_Z (Z.of_nat (length values)) * hi.
Proof.
  induction 1 as [|x l Hx _ IH].
  - cbn [length Qsum foldr]. change (inject_Z (Z.of_nat 0)) with 0. lra.
  - rewrite inject_length_cons. cbn [Qsum foldr].
    change (foldr Qplus 0 l) with (Qsum l). lra.
Qed.

Lemma list_mean_between lo hi (values : list Q) :
  values <> [] -> Forall (fun v => lo <= v <= hi) values ->
  lo <= list_mean values <= hi.
Proof.
  intros Hne Hall. unfold list_mean.
  pose proof (length_pos_Q values Hne) as Hpos.
  pose proof (Qsum_between lo hi values Hall) as [Hlo Hhi].
  set (n := inject_Z (Z.of_nat (length values))) in *.
  split.
  - apply Qle_shift_div_l; [exact Hpos | lra].
  - apply Qle_shift_div_r; [exact Hpos | lra].
Qed.

Lemma clamp_to_unit_interval x : - (1) <= py_min (py_max x (- (1))) 1 <= 1.
Proof.
  unfold py_min, py_max.
  destruct (Qgtb (- (1)) x) eqn:E1.
  - destruct (Qgtb (- (1)) 1) eqn:E2; [apply Qgtb_true in E2|]; lra.
  - apply Qgtb_false in E1.
    destruct (Qgtb x 1) eqn:E2; [lra|]. apply Qgtb_false in E2. lra.
Qed.

Lemma clamped_improvements_bounds todo baseline current :
  Forall (fun v => - (1) <= v <= 1)
    (ClassEngagement.clamped_improvements todo baseline current).
Proof.
  induction todo as [|m todo IH]; [constructor|].
  cbn [ClassEngagement.clamped_improvements].
  destruct (dict_find baseline m), (dict_find current m); try exact IH.
  constructor; [apply clamp_to_unit_interval | exact IH].
Qed.

Lemma clamped_improvements_unchanged todo analysis :
  Forall (fun v => 0 <= v <= 0)
    (ClassEngagement.clamped_improvements todo analysis analysis).
Proof.
  induction todo as [|m todo IH]; [constructor|].
  cbn [ClassEngagement.clamped_improvements].
  destruct (dict_find analysis m) as [b|]; [|exact IH].
  constructor; [|exact IH].
  assert (Hrel : (if Qeq_bool b 0 then 0 else (b - b) / b) == 0).
  { destruct (Qeq_bool b 0) eqn:E; [reflexivity|].
    apply Qeq_bool_neq in E. field. exact E. }
  revert Hrel. generalize (if Qeq_bool b 0 then 0 else (b - b) / b).
  intros rel Hrel. unfold py_min, py_max.
  destruct (Qgtb (- (1)) rel) eqn:E1; [apply Qgtb_true in E1; lra|].
  destruct (Qgtb rel 1) eqn:E2; [apply Qgtb_true in E2; lra|]. lra.
Qed.

Section Engagement.

Variable np_mean : list Q -> Q.

(** The mean of a non-empty list lies between any two bounds of its
    elements. *)
Hypothesis mean_between :
  forall lo hi values,
    values <> [] -> Forall (fun v => lo <= v <= hi) values ->
    lo <= np_mean values <= hi.

Lemma engagement_score_bounds cfg baseline current :
  0 <= ClassEngagement._calculate_engagement_score np_mean cfg baseline current
  <= 1.
Proof.
  unfold ClassEngagement._calculate_engagement_score.
  pose proof (clamped_improvements_bounds (ClassProgress.metrics cfg)
                baseline current) as Hall.
  destruct (ClassEngagement.clamped_improvements _ baseline current)
    as [|v values]; [lra|].
  assert (Hne : v :: values <> []) by discriminate.
  pose proof (mean_between (- (1)) 1 (v :: values) Hne Hall) as [Hlo Hhi].
  split.
  - apply Qle_shift_div_l; lra.
  - apply Qle_shift_div_r; lra.
Qed.

(** X26. The engagement score of a student lies between 0 and 1, and so
    does the engagement of a class, whatever the metric values are: each
    relative improvement is clamped to [-1, 1] before the mean is
    taken, and a baseline value of 0 counts as no improvement. *)
Theorem engagement_is_between_zero_and_one cfg baseline current ps :
  0 <= ClassEngagement._calculate_engagement_score np_mean cfg baseline current
  <= 1
  /\ 0 <= ClassEngagement._calculate_class_engagement np_mean cfg ps <= 1.
Proof.
  split; [apply engagement_score_bounds|].
  unfold ClassEngagement._calculate_class_engagement.
  set (score := fun p =>
         ClassEngagement._calculate_engagement_score np_mean cfg
           (ClassProgress.progress_baseline p)
           (ClassProgress.progress_current p)).
  assert (Hall : Forall (fun v => 0 <= v <= 1) (map score ps)).
  { apply Forall_map, Forall_forall. intros p _.
    apply engagement_score_bounds. }
  destruct (map score ps) as [|v values]; [lra|].
  apply mean_between; [discriminate | exact Hall].
Qed.

(** X27. A student whose current analysis equals the baseline has the
    engagement score 1/2 when the analysis carries a tracked metric, and
    the score 0 when it carries none: the score of a student without
    any change is not the lowest one. *)
Theorem engagement_of_unchanged_student analysis :
  ((exists m, In m tracked_metrics /\ dict_find analysis m <> None) ->
   ClassEngagement._calculate_engagement_score np_mean
     ClassProgress.default_settings analysis analysis == 1 # 2)
  /\ ((forall m, In m tracked_metrics -> dict_find analysis m = None) ->
      ClassEngagement._calculate_engagement_score np_mean
        ClassProgress.default_settings analysis analysis = 0).
Proof.
  unfold ClassEngagement._calculate_engagement_score.
  change (ClassProgress.metrics ClassProgress.default_settings)
    with tracked_metrics.
  split.
  - intros (m & Hin & Hfound).
    pose proof (clamped_improvements_unchanged tracked_metrics analysis)
      as Hall.
    assert (Hne : ClassEngagement.clamped_improvements tracked_metrics
                    analysis analysis <> []).
    { clear Hall. induction tracked_metrics as [|m0 todo IH]; [contradiction|].
      cbn [ClassEngagement.clamped_improvements].
      destruct Hin as [-> | Hin].
      - destruct (dict_find analysis m); [discriminate | congruence].
      - destruct (dict_find analysis m0); [discriminate | exact (IH Hin)]. }
    destruct (ClassEngagement.clamped_improvements tracked_metrics
                analysis analysis) as [|v values]; [congruence|].
    pose proof (mean_between 0 0 (v :: values) Hne Hall) as [Hlo Hhi].
    assert (Hzero : np_mean (v :: values) == 0) by lra.
    rewrite Hzero. reflexivity.
  - intros Hnone.
    assert (Hnil : ClassEngagement.clamped_improvements tracked_metrics
                     analysis analysis = []).
    { induction tracked_metrics as [|m0 todo IH]; [reflexivity|].
      cbn [ClassEngagement.clamped_improvements].
      rewrite (Hnone m0) by now left.
      apply IH. intros m Hm. apply Hnone. now right. }
    now rewrite Hnil.
Qed.

End Engagement.

Lemma engagement_is_between_zero_and_one_witness :
  0 <= ClassEngagement._calculate_engagement_score list_mean
         ClassProgress.default_settings
         [("grade_level", 8); ("coherence", 0)]%string
         [("grade_level", 10); ("coherence", 3 # 5)]%string
  <= 1
  /\ 0 <= ClassEngagement._calculate_class_engagement list_mean
            ClassProgress.default_settings [sample_progress; sample_progress]
     <= 1.
Proof.
  apply (engagement_is_between_zero_and_one list_mean list_mean_between).
Defined.

Lemma engagement_of_unchanged_student_witness :
  ((exists m, In m tracked_metrics
              /\ dict_find [("grade_level", 8)]%string m <> None) ->
   ClassEngagement._calculate_engagement_score list_mean
     ClassProgress.default_settings [("grade_level", 8)]%string
     [("grade_level", 8)]%string == 1 # 2)
  /\ ((forall m, In m tracked_metrics ->
                 dict_find [("grade_level", 8)]%string m = None) ->
      ClassEngagement._calculate_engagement_score list_mean
        ClassProgress.default_settings [("grade_level", 8)]%string
        [("grade_level", 8)]%string = 0).
Proof.
  apply (engagement_of_unchanged_student list_mean list_mean_between).
Defined.

(** *** progress/service.py: essays of the same day *)

Lemma py_div_by_zero_span a days :
  days = 0%Z ->
  py_div a (inject_Z days / 365) = Raise (ZeroDivisionError "division by zero").
Proof. intros ->. reflexivity. Qed.

(** X28. [_calculate_overall_improvement] does not return for two or
    more essays whose last essay was created less than a day after the
    first (a time span of 0 days): it raises, and when both essays carry
    a grade level the exception is the [ZeroDivisionError] of the
    division by the time span, whatever the metric values are. *)
Theorem overall_improvement_needs_a_day first second rest final :
  last (second :: rest) = Some final ->
  timedelta_days (essay_created_at final) (essay_created_at first) = 0%Z ->
  (exists e,
     Progress._calculate_overall_improvement (first :: second :: rest)
     = Raise e)
  /\ (forall g0 g1,
        Progress.metric first "grade_level" = Return g0 ->
        Progress.metric final "grade_level" = Return g1 ->
        Progress._calculate_overall_improvement (first :: second :: rest)
        = Raise (ZeroDivisionError "division by zero")).
Proof.
  intros Hlast Hdays.
  unfold Progress._calculate_overall_improvement.
  change (last (first :: second :: rest)) with (last (second :: rest)).
  rewrite Hlast.
  unfold Progress.absolute_rate, years_between.
  split.
  - destruct (Progress.metric final "grade_level") as [g1|e]; [|eauto].
    cbn [rbind].
    destruct (Progress.metric first "grade_level") as [g0|e]; [|eauto].
    cbn [rbind]. rewrite (py_div_by_zero_span _ _ Hdays). eauto.
  - intros g0 g1 -> ->. cbn [rbind].
    rewrite (py_div_by_zero_span _ _ Hdays). reflexivity.
Qed.

Lemma overall_improvement_needs_a_day_witness :
  (exists e,
     Progress._calculate_overall_improvement
       [morning_essay; evening_essay; evening_essay] = Raise e)
  /\ (forall g0 g1,
        Progress.metric morning_essay "grade_level" = Return g0 ->
        Progress.metric evening_essay "grade_level" = Return g1 ->
        Progress._calculate_overall_improvement
          [morning_essay; evening_essay; evening_essay]
        = Raise (ZeroDivisionError "division by zero")).
Proof.
  apply (overall_improvement_needs_a_day morning_essay evening_essay
           [evening_essay] evening_essay).
  - reflexivity.
  - reflexivity.
Defined.

(** *** analysis/service.py: chunks of a text *)

Lemma chunks_loop_prefix max_length words cur cl chunks :
  Chunks.chunks_loop max_length words cur cl chunks
  = chunks ++ Chunks.chunks_loop max_length words cur cl [].
Proof.
  revert cur cl chunks. induction words as [|w words IH]; intros cur cl chunks.
  - cbn [Chunks.chunks_loop]. destruct (Analysis.is_empty cur);
      [now rewrite app_nil_r | reflexivity].
  - cbn [Chunks.chunks_loop].
    destruct (max_length <? cl + Analysis.len w + 1)%Z.
    + rewrite IH. rewrite (IH _ _ ([] ++ _)). now rewrite <- app_assoc.
    + apply IH.
Qed.

Lemma chunks_loop_groups max_length words cur cl :
  Chunks.chunks_loop max_length words cur cl []
  = map (Chunks.join " ") (Chunks.chunk_groups max_length words cur cl).
Proof.
  revert cur cl. induction words as [|w words IH]; intros cur cl.
  - cbn [Chunks.chunks_loop Chunks.chunk_groups].
    destruct (Analysis.is_empty cur); reflexivity.
  - cbn [Chunks.chunks_loop Chunks.chunk_groups].
    destruct (max_length <? cl + Analysis.len w + 1)%Z.
    + rewrite chunks_loop_prefix, IH. reflexivity.
    + apply IH.
Qed.

Lemma chunk_groups_words max_length words cur cl :
  concat (Chunks.chunk_groups max_length words cur cl) = cur ++ words.
Proof.
  revert cur cl. induction words as [|w words IH]; intros cur cl.
  - cbn [Chunks.chunk_groups]. destruct cur; reflexivity.
  - cbn [Chunks.chunk_groups].
    destruct (max_length <? cl + Analysis.len w + 1)%Z.
    + cbn [concat]. rewrite IH. reflexivity.
    + rewrite IH, <- app_assoc. reflexivity.
Qed.

Lemma len_append a b :
  Analysis.len (a +:+ b) = (Analysis.len a + Analysis.len b)%Z.
Proof. unfold Analysis.len. rewrite string_length_append. lia. Qed.

Lemma len_join_snoc cur w :
  (Analysis.len (Chunks.join " " (cur ++ [w]))
   <= Analysis.len (Chunks.join " " cur) + 1 + Analysis.len w)%Z.
Proof.
  induction cur as [|a cur IH].
  - cbn [app Chunks.join]. unfold Analysis.len. simpl. lia.
  - destruct cur as [|b cur].
    + cbn [app Chunks.join]. rewrite !len_append.
      change (Analysis.len " ") with 1%Z. lia.
    + change ((a :: b :: cur) ++ [w]) with (a :: (b :: cur) ++ [w]).
      change (Chunks.join " " (a :: b :: cur))
        with (a +:+ " " +:+ Chunks.join " " (b :: cur)).
      change (Chunks.join " " (a :: (b :: cur) ++ [w]))
        with (a +:+ " " +:+ Chunks.join " " ((b :: cur) ++ [w])).
      rewrite !len_append. lia.
Qed.

Lemma chunk_groups_bound max_length words cur cl :
  (Analysis.len (Chunks.join " " cur) <= cl)%Z ->
  (length cur <= 1)%nat \/ (cl <= max_length)%Z ->
  Forall (fun g =>
            (length g <= 1)%nat
            \/ (Analysis.len (Chunks.join " " g) <= max_length)%Z)
    (Chunks.chunk_groups max_length words cur cl).
Proof.
  revert cur cl. induction words as [|w words IH]; intros cur cl Hlen Hcur.
  - cbn [Chunks.chunk_groups]. destruct (Analysis.is_empty cur);
      constructor; [|constructor].
    destruct Hcur as [H | H]; [now left | right; lia].
  - cbn [Chunks.chunk_groups].
    destruct (max_length <? cl + Analysis.len w + 1)%Z eqn:E.
    + constructor.
      * destruct Hcur as [H | H]; [now left | right; lia].
      * apply IH; [cbn [Chunks.join]; lia | left; cbn; lia].
    + apply Z.ltb_ge in E. apply IH.
      * pose proof (len_join_snoc cur w). lia.
      * right. exact E.
Qed.

(** X29. The chunks of a text are the words of the text, in their order,
    grouped and joined by one space: no word is lost, split or repeated.
    Every chunk of two or more words is at most [max_length] characters
    long. When the first word does not fit, the first chunk is the
    empty string. *)
Theorem chunks_keep_the_words text max_length :
  exists groups,
    Chunks._split_into_chunks text max_length
    = map (Chunks.join " ") groups
    /\ concat groups = split_whitespace text
    /\ Forall (fun g =>
                 (length g <= 1)%nat
                 \/ (Analysis.len (Chunks.join " " g) <= max_length)%Z)
         groups
    /\ (forall w rest,
          split_whitespace text = w :: rest ->
          (max_length < Analysis.len w + 1)%Z ->
          head (Chunks._split_into_chunks text max_length) = Some ""%string).
Proof.
  unfold Chunks._split_into_chunks.
  exists (Chunks.chunk_groups max_length (split_whitespace text) [] 0).
  split; [apply chunks_loop_groups|].
  split; [apply chunk_groups_words|].
  split.
  - apply chunk_groups_bound; [vm_compute; discriminate | left; cbn; lia].
  - intros w rest -> Hlong. cbn [Chunks.chunks_loop].
    apply Z.ltb_lt in Hlong. rewrite Z.add_0_l, Hlong.
    rewrite chunks_loop_prefix. reflexivity.
Qed.

Lemma chunks_keep_the_words_witness :
  exists groups,
    Chunks._split_into_chunks "incomprehensible  is a word" 5
    = map (Chunks.join " ") groups
    /\ concat groups = split_whitespace "incomprehensible  is a word"
    /\ Forall (fun g =>
                 (length g <= 1)%nat
                 \/ (Analysis.len (Chunks.join " " g) <= 5)%Z)
         groups
    /\ (forall w rest,
          split_whitespace "incomprehensible  is a word" = w :: rest ->
          (5 < Analysis.len w + 1)%Z ->
          head (Chunks._split_into_chunks "incomprehensible  is a word" 5)
          = Some ""%string).
Proof.
  apply (chunks_keep_the_words "incomprehensible  is a word" 5).
Defined.

(** *** analysis/service.py: syllables *)

Lemma vowel_groups_monotone p word on_vowel count :
  (count <= Analysis.vowel_groups p word on_vowel count)%Z.
Proof.
  revert on_vowel count. induction word as [|c word IH]; intros b k;
    cbn [Analysis.vowel_groups]; [lia|].
  destruct (p c && negb b); [|apply IH].
  pose proof (IH (p c) (k + 1)%Z). lia.
Qed.

Lemma vowel_groups_of_vowel p word count :
  (exists c, In c (String.list_ascii_of_string word) /\ p c = true) ->
  (count + 1 <= Analysis.vowel_groups p word false count)%Z.
Proof.
  revert count. induction word as [|c word IH]; intros k (c0 & Hin & Hc0).
  - destruct Hin.
  - cbn [Analysis.vowel_groups]. destruct (p c) eqn:Hc.
    + cbn [andb negb]. apply vowel_groups_monotone.
    + cbn [andb]. apply IH. destruct Hin as [-> | Hin]; [congruence|].
      eauto.
Qed.

Lemma endswith_e_has_vowel word :
  endswith word "e" = true ->
  exists c, In c (String.list_ascii_of_string word)
            /\ Analysis.is_vowel_y c = true.
Proof.
  unfold endswith. intros H.
  pose proof (chars_rev word) as Hrev.
  destruct (string_rev word) as [|c s]; [discriminate|].
  change (string_rev "e") with "e"%string in H. cbn [String.prefix] in H.
  destruct (ascii_dec "e" c) as [<-|]; [|discriminate].
  exists "e"%char. split; [|reflexivity].
  apply in_rev. rewrite <- Hrev. now left.
Qed.

Lemma count_syllables_positive_aux word : (1 <= Analysis._count_syllables word)%Z.
Proof.
  unfold Analysis._count_syllables.
  set (w := strip_chars is_digit (lower word)).
  pose proof (vowel_groups_monotone Analysis.is_vowel_y w false 0) as H0.
  assert (H1 : (0 <= (if endswith w "e"
                      then Analysis.vowel_groups Analysis.is_vowel_y w false 0 - 1
                      else Analysis.vowel_groups Analysis.is_vowel_y w false 0))%Z).
  { destruct (endswith w "e") eqn:E; [|exact H0].
    pose proof (vowel_groups_of_vowel _ _ 0%Z (endswith_e_has_vowel w E)).
    lia. }
  revert H1.
  generalize (if endswith w "e"
              then (Analysis.vowel_groups Analysis.is_vowel_y w false 0 - 1)%Z
              else Analysis.vowel_groups Analysis.is_vowel_y w false 0).
  intros k Hk.
  destruct (_ && _ && _);
    match goal with |- context [(?c =? 0)%Z] => destruct (Z.eqb_spec c 0) end;
    lia.
Qed.

(** X30. [_count_syllables] never answers 0 or a negative number, also
    for a word without a vowel, the empty word and a word that ends in a
    silent e; so the syllables of a list of words are at least as many as
    the words. *)
Theorem count_syllables_is_positive word words :
  (1 <= Analysis._count_syllables word)%Z
  /\ (Z.of_nat (length words)
      <= Analysis.Zsum (map Analysis._count_syllables words))%Z.
Proof.
  split; [apply count_syllables_positive_aux|].
  induction words as [|w words IH]; [cbn; lia|].
  cbn [map Analysis.Zsum foldr length].
  change (foldr Z.add 0%Z (map Analysis._count_syllables words))
    with (Analysis.Zsum (map Analysis._count_syllables words)).
  pose proof (count_syllables_positive_aux w). lia.
Qed.
